(** * WeatherPredictor: a shallow embedding of [xgb_shap_parted_model.ipynb]

    The notebook cell that defines [class WeatherPredictor] is embedded here:
    [prepare_data], [predict] and [calculate_global_shap]; module [Gen] has
    the cell that generates the data the notebook runs the class on.

    - pandas [DataFrame]s are mutable objects: they live in a heap and are
      passed around by reference, so that [input.copy()], the column
      assignments and [self.X = X] keep the aliasing the Python code has.
    - Exceptions are results; the world (heap and the attributes of [self])
      is threaded through every call and survives a raised exception.
    - scipy's [fft], numpy's complex [abs], XGBoost, SHAP, the sort behind
      [sort_values] and the iteration order of a Python [set] are not part
      of the notebook: they are the fields of the [Library] interface, with
      the parts of their documented contract that the proofs rely on.
    - A [float64] is an exact rational or one of the IEEE special values;
      it stands for every floating-point dtype. Rounding is not modelled;
      a sum, product or quotient whose exact value is beyond the range of
      a double overflows to infinity.
    - The decorator [custom_model.partitioned_inference_api] only marks
      [predict] for the model registry; the method body is embedded as it
      is written. *)

From Stdlib Require Import QArith Qabs Lqa.
From stdpp Require Import base list strings pretty sorting.

Set Default Proof Using "Type".

(** ** Numbers *)

Inductive float64 : Type :=
| Finite (q : Q)
| Inf (negative : bool)
| NaN.

Definition complex128 : Type := (float64 * float64)%type.

Definition is_finite (x : float64) : bool :=
  match x with Finite _ => true | _ => false end.

(** [np.abs] on a real array. *)
Definition fabs (x : float64) : float64 :=
  match x with
  | Finite q => Finite (Qabs q)
  | Inf _ => Inf false
  | NaN => NaN
  end.

(** The least magnitude that rounds to infinity: [2^1024 - 2^970], half a
    unit in the last place above the largest double. *)
Definition overflow_threshold : Q := inject_Z (2 ^ 1024 - 2 ^ 970).

(** The double for an exact result [q]: [q] itself within the range,
    infinity beyond it. *)
Definition overflow (q : Q) : float64 :=
  if Qle_bool overflow_threshold (Qabs q) then Inf (negb (Qle_bool 0 q)) else Finite q.
Arguments overflow : simpl never.

Definition fadd (x y : float64) : float64 :=
  match x, y with
  | NaN, _ | _, NaN => NaN
  | Finite a, Finite b => overflow (a + b)
  | Finite _, Inf s | Inf s, Finite _ => Inf s
  | Inf s, Inf t => if Bool.eqb s t then Inf s else NaN
  end.

(** Division of a sum by a row count, as [mean] does it: 0/0 is NaN. *)
Definition fdiv_count (x : float64) (n : nat) : float64 :=
  match x, n with
  | NaN, _ => NaN
  | Inf s, _ => Inf s
  | Finite q, O => if Qeq_bool q 0 then NaN else Inf (negb (Qle_bool 0 q))
  | Finite q, S _ => Finite (q / inject_Z (Z.of_nat n))
  end.

Definition np_sum (xs : list float64) : float64 :=
  fold_left fadd xs (Finite 0).

(** [a.mean(axis=0)] on one column of a 2-d array. *)
Definition np_mean (xs : list float64) : float64 :=
  fdiv_count (np_sum xs) (length xs).

(** The order [sort_values(ascending=False)] has to establish between a row
    and a later row: keys do not increase, and NaN keys come last. *)
Definition desc_le (later earlier : float64) : Prop :=
  match earlier, later with
  | _, NaN => True
  | NaN, _ => False
  | Finite a, Finite b => (b <= a)%Q
  | Inf s, Finite _ => s = false
  | Finite _, Inf t => t = true
  | Inf s, Inf t => s = false ∨ t = true
  end.

Definition nonneg (x : float64) : Prop :=
  match x with
  | Finite q => (0 <= q)%Q
  | Inf s => s = false
  | NaN => False
  end.

(** ** Exceptions *)

(** An exception raised inside scipy, XGBoost or SHAP. *)
Record lib_exn : Type := LibExn { lib_cls : string; lib_msg : string }.

Inductive result (E A : Type) : Type :=
| Ret (a : A)
| Raise (e : E).
Arguments Ret {E A} a.
Arguments Raise {E A} e.

(** Exceptions are kept apart by where they are raised: [KeyError] and
    [ValueError] come from the notebook's own [raise] statements and from
    pandas, [AttributeError] from a missing attribute of [self], [External]
    from inside the numeric libraries. *)
Inductive exn : Type :=
| KeyError (msg : string)
| ValueError (msg : string)
| AttributeError (msg : string)
| External (e : lib_exn)
| DanglingReference.  (* a reference outside the heap; Python has none *)

Definition outcome : Type → Type := result exn.

Definition is_external (e : exn) : bool :=
  match e with External _ => true | _ => false end.

(** The message carried by an exception. *)
Definition message (e : exn) : string :=
  match e with
  | KeyError msg | ValueError msg | AttributeError msg => msg
  | External e => lib_msg e
  | DanglingReference => EmptyString
  end.

(** ** Data frames *)

Inductive pyobj : Type :=
| PyStr (s : string)
| PyInt (z : Z)
| PyFloat (x : float64)
| PyBool (b : bool)
| PyTimestamp (ns : Z).

(** A column is a typed array; the constructor is its dtype. *)
Inductive Column : Type :=
| Float64Col (xs : list float64)
| Int64Col (xs : list Z)
| BoolCol (xs : list bool)
| DatetimeCol (xs : list Z)
| ObjectCol (xs : list pyobj)
| CategoryCol (xs : list pyobj).

Record DataFrame : Type := MkFrame {
  index : list Z;
  frame_data : list (string * Column)
}.

(** [df.columns] *)
Definition columns (df : DataFrame) : list string := (frame_data df).*1.

Definition nrows (df : DataFrame) : nat := length (index df).

Definition col_length (c : Column) : nat :=
  match c with
  | Float64Col xs => length xs
  | Int64Col xs | DatetimeCol xs => length xs
  | BoolCol xs => length xs
  | ObjectCol xs | CategoryCol xs => length xs
  end.

(** A row operation acts on every column in the same way. *)
Definition col_lift (f : ∀ A : Type, list A → list A) (c : Column) : Column :=
  match c with
  | Float64Col xs => Float64Col (f _ xs)
  | Int64Col xs => Int64Col (f _ xs)
  | BoolCol xs => BoolCol (f _ xs)
  | DatetimeCol xs => DatetimeCol (f _ xs)
  | ObjectCol xs => ObjectCol (f _ xs)
  | CategoryCol xs => CategoryCol (f _ xs)
  end.

Definition frame_lift (f : ∀ A : Type, list A → list A) (df : DataFrame) : DataFrame :=
  {| index := f _ (index df);
     frame_data := prod_map id (col_lift f) <$> frame_data df |}.

(** [df.iloc[k:]] *)
Definition iloc_from (k : nat) : DataFrame → DataFrame :=
  frame_lift (λ A, drop k).

(** Reordering of rows by an indexer, [df.take(indexer)]. *)
Definition take_rows (indexer : list nat) : DataFrame → DataFrame :=
  frame_lift (λ A l, omap (λ i, l !! i) indexer).

(** [pd.api.types.is_numeric_dtype] *)
Definition is_numeric_dtype (c : Column) : bool :=
  match c with
  | Float64Col _ | Int64Col _ | BoolCol _ => true
  | _ => false
  end.

Definition is_category (c : Column) : bool :=
  match c with CategoryCol _ => true | _ => false end.

(** [series.to_numpy()] as scipy's [fft] receives it: integer and boolean
    input is converted to float64. [prepare_data] calls it on numeric
    columns only. *)
Definition to_numpy (c : Column) : list float64 :=
  match c with
  | Float64Col xs => xs
  | Int64Col xs => (λ z, Finite (inject_Z z)) <$> xs
  | BoolCol xs => (λ b : bool, Finite (if b then 1 else 0)) <$> xs
  | _ => []
  end.

Definition col_objects (c : Column) : list pyobj :=
  match c with
  | Float64Col xs => PyFloat <$> xs
  | Int64Col xs => PyInt <$> xs
  | BoolCol xs => PyBool <$> xs
  | DatetimeCol xs => PyTimestamp <$> xs
  | ObjectCol xs | CategoryCol xs => xs
  end.

(** [series.astype('category')] *)
Definition astype_category (c : Column) : Column := CategoryCol (col_objects c).

Fixpoint lookup_col (name : string) (data : list (string * Column)) : option Column :=
  match data with
  | [] => None
  | (n, c) :: rest => if decide (n = name) then Some c else lookup_col name rest
  end.

(** Assignment to a column keeps its position if the name exists, and
    appends the column otherwise. *)
Fixpoint set_col (name : string) (c : Column) (data : list (string * Column))
  : list (string * Column) :=
  match data with
  | [] => [(name, c)]
  | (n, c0) :: rest =>
      if decide (n = name) then (n, c) :: rest else (n, c0) :: set_col name c rest
  end.

(** [df[name] = c] *)
Definition assign (name : string) (c : Column) (df : DataFrame) : DataFrame :=
  {| index := index df; frame_data := set_col name c (frame_data df) |}.

(** The labels that are not columns of [df]. *)
Definition absent (df : DataFrame) (labels : list string) : list string :=
  filter (λ l, l ∉ columns df) labels.

(** [df.drop(columns=labels)], when every label is a column. *)
Definition without (labels : list string) (df : DataFrame) : DataFrame :=
  {| index := index df;
     frame_data := filter (λ nc, nc.1 ∉ labels) (frame_data df) |}.

(** [df[keys]], when every key is a column. *)
Definition only (keys : list string) (df : DataFrame) : DataFrame :=
  {| index := index df;
     frame_data := omap (λ k, pair k <$> lookup_col k (frame_data df)) keys |}.

(** Frames are rectangular. *)
Definition wf_frame (df : DataFrame) : Prop :=
  Forall (λ nc, col_length nc.2 = nrows df) (frame_data df).

(** Features with equal scores come in the order of the feature columns. *)
Definition ties_keep_column_order (cols : list string)
    (features : list pyobj) (scores : list float64) : Prop :=
  ∀ i j a b s p q,
    i < j →
    features !! i = Some (PyStr a) → features !! j = Some (PyStr b) →
    scores !! i = Some s → scores !! j = Some s →
    cols !! p = Some a → cols !! q = Some b →
    p < q.

(** ** Rendering of messages *)

Definition quote (s : string) : string := "'" +:+ s +:+ "'".

Fixpoint join (sep : string) (l : list string) : string :=
  match l with
  | [] => EmptyString
  | [s] => s
  | s :: rest => s +:+ sep +:+ join sep rest
  end.

(** [repr] of a list of strings, and of a set listed in iteration order. *)
Definition list_repr (l : list string) : string :=
  "[" +:+ join ", " (quote <$> l) +:+ "]".

Definition set_repr (l : list string) : string :=
  match l with
  | [] => "set()"
  | _ => "{" +:+ join ", " (quote <$> l) +:+ "}"
  end.

(** [msg] contains [s]. *)
Definition mentions (msg s : string) : Prop :=
  ∃ pre post, msg = pre +:+ s +:+ post.

(** The three [raise] statements of the notebook. In the spec's taxonomy
    they are SchemaError, TypeError and NotTrainedError. *)
Definition missing_columns_error (missing : list string) : exn :=
  KeyError ("Missing required columns: " +:+ set_repr missing).

Definition not_numeric_error : exn :=
  ValueError "'TEMP' column must be numeric.".

Definition not_trained_error : exn :=
  ValueError "Model not trained. Run 'predict' first.".

(** ** The libraries the notebook calls *)

(** [xgb.XGBRegressor(objective=..., n_estimators=..., enable_categorical=...)] *)
Record XGBParams : Type := {
  objective : string;
  n_estimators : nat;
  enable_categorical : bool
}.

Class Library : Type := {
  (** a fitted [XGBRegressor] *)
  Model : Type;
  (** [scipy.fft.fft] *)
  fft : list float64 → result lib_exn (list complex128);
  (** [np.abs] on a complex number *)
  complex_abs : complex128 → float64;
  (** [XGBRegressor(...).fit(X, y)] *)
  xgb_fit : XGBParams → DataFrame → Column → result lib_exn Model;
  (** [model.predict(X)] *)
  xgb_predict : Model → DataFrame → result lib_exn (list float64);
  (** [shap.Explainer(model)(X).values], one list per feature column of [X],
      holding that feature's attribution in every row. The libraries are
      functions of their arguments here: what a library does differently
      from one run to the next is outside the model. *)
  shap_values : Model → DataFrame → result lib_exn (list (list float64));
  (** the indexer computed by [sort_values(ascending=False)] with the
      default sort kind *)
  argsort_desc : list float64 → list nat;
  (** the order in which a [set] of strings is iterated *)
  set_order : list string → list string;

  fft_length : ∀ xs ys, fft xs = Ret ys → length ys = length xs;
  fft_nonempty : ∀ xs, xs ≠ [] → ∃ ys, fft xs = Ret ys;
  xgb_predict_length : ∀ m X ys, xgb_predict m X = Ret ys → length ys = nrows X;
  shap_values_shape : ∀ m X vs,
    shap_values m X = Ret vs →
    length vs = length (columns X) ∧ Forall (λ v, length v = nrows X) vs;
  (** the explainer raises on a matrix without rows, and an attribution is
      a number *)
  shap_values_rows : ∀ m X vs, shap_values m X = Ret vs → 1 ≤ nrows X;
  shap_values_numbers : ∀ m X vs,
    shap_values m X = Ret vs → Forall (Forall (λ x, x ≠ NaN)) vs;
  argsort_desc_perm : ∀ xs, argsort_desc xs ≡ₚ seq 0 (length xs);
  argsort_desc_sorted : ∀ xs i j a b,
    i < j →
    omap (λ k, xs !! k) (argsort_desc xs) !! i = Some a →
    omap (λ k, xs !! k) (argsort_desc xs) !! j = Some b →
    desc_le b a;
  set_order_perm : ∀ l, set_order l ≡ₚ l
}.

Module WP.
Section WeatherPredictor.
Context `{L : Library}.

(** ** The world: a heap of frames and the attributes of [self] *)

(** A reference to a frame is its position in the heap. *)
Abbreviation ref := nat.

Record Attrs : Type := {
  xgb_model : option Model;
  X : option ref
}.

Record World : Type := {
  heap : list DataFrame;
  self : Attrs
}.

(** A fresh [WeatherPredictor()] has neither attribute. *)
Definition untrained : Attrs := {| xgb_model := None; X := None |}.

Definition M (A : Type) : Type := World → outcome A * World.

#[export] Instance M_ret : MRet M := λ A a w, (Ret a, w).

#[export] Instance M_bind : MBind M := λ A B f m w,
  match m w with
  | (Ret a, w') => f a w'
  | (Raise e, w') => (Raise e, w')
  end.

Definition raise {A : Type} (e : exn) : M A := λ w, (Raise e, w).

(** A call into a library: its exception, if any, propagates. *)
Definition call {A : Type} (r : result lib_exn A) : M A := λ w,
  match r with
  | Ret a => (Ret a, w)
  | Raise e => (Raise (External e), w)
  end.

Definition deref (r : ref) : M DataFrame := λ w,
  match heap w !! r with
  | Some df => (Ret df, w)
  | None => (Raise DanglingReference, w)
  end.

(** A new object gets the next free reference. *)
Definition push (df : DataFrame) (w : World) : World :=
  {| heap := heap w ++ [df]; self := self w |}.

Definition update (r : ref) (df : DataFrame) (w : World) : World :=
  {| heap := <[r := df]> (heap w); self := self w |}.

Definition alloc (df : DataFrame) : M ref := λ w,
  (Ret (length (heap w)), push df w).

Definition store (r : ref) (df : DataFrame) : M unit := λ w,
  (Ret (), update r df w).

Definition get_self : M Attrs := λ w, (Ret (self w), w).

Definition with_self (a : Attrs) (w : World) : World :=
  {| heap := heap w; self := a |}.

Definition set_self (a : Attrs) : M unit := λ w, (Ret (), with_self a w).

(** ** pandas operations *)

(** [df.copy()] *)
Definition copy (r : ref) : M ref :=
  df ← deref r; alloc df.

(** [df.iloc[k:]]: a new frame object. *)
Definition iloc (k : nat) (r : ref) : M ref :=
  df ← deref r; alloc (iloc_from k df).

(** [df[name]] *)
Definition getitem (r : ref) (name : string) : M Column :=
  df ← deref r;
  match lookup_col name (frame_data df) with
  | Some c => mret c
  | None => raise (KeyError (quote name))
  end.

(** [df[name] = values], with an array of the frame's length. (pandas
    grows a frame that has no rows instead of raising; the two assignments
    of the notebook always pass an array of the frame's length.) *)
Definition setitem (r : ref) (name : string) (c : Column) : M unit :=
  df ← deref r;
  if decide (col_length c = nrows df) then
    store r (assign name c df)
  else
    raise (ValueError ("Length of values (" +:+ pretty (col_length c)
                       +:+ ") does not match length of index ("
                       +:+ pretty (nrows df) +:+ ")")).

(** [df.drop(columns=labels)]: a new frame. *)
Definition drop (r : ref) (labels : list string) : M ref :=
  df ← deref r;
  if decide (absent df labels = []) then
    alloc (without labels df)
  else
    raise (KeyError (list_repr (absent df labels) +:+ " not found in axis")).

(** [df[[k1, ..., kn]]]: a new frame with these columns, in this order. *)
Definition select (r : ref) (keys : list string) : M ref :=
  df ← deref r;
  if decide (absent df keys = []) then
    alloc (only keys df)
  else if decide (absent df keys = keys) then
    raise (KeyError ("None of [Index(" +:+ list_repr keys
                     +:+ ", dtype='object')] are in the [columns]"))
  else
    raise (KeyError (list_repr (absent df keys) +:+ " not in index")).

(** [pd.DataFrame({name: array, ...})] *)
Definition new_frame (data : list (string * Column)) : M ref :=
  match data with
  | [] => alloc {| index := []; frame_data := [] |}
  | (_, c) :: _ =>
      if decide (Forall (λ nc, col_length nc.2 = col_length c) data) then
        alloc {| index := Z.of_nat <$> seq 0 (col_length c); frame_data := data |}
      else
        raise (ValueError "All arrays must be of the same length")
  end.

(** [df.sort_values(by=name, ascending=False)]: a new frame. Only float64
    keys occur in the notebook. *)
Definition sort_values_desc (r : ref) (by_ : string) : M ref :=
  df ← deref r;
  key ← getitem r by_;
  match key with
  | Float64Col keys => alloc (take_rows (argsort_desc keys) df)
  | _ => raise (External (LibExn "NotImplementedError" "sort key is not float64"))
  end.

(** ** The class *)

Definition required_columns : list string := ["TEMP"; "HOUR_OF_DAY"].

Definition prepare_data (input : ref) : M ref :=
  df ← deref input;
  if decide (absent df required_columns ≠ []) then
    let missing := set_order (absent df required_columns) in
    raise (missing_columns_error missing)
  else
    temp ← getitem input "TEMP";
    if negb (is_numeric_dtype temp) then raise not_numeric_error
    else
      input1 ← copy input;
      temp1 ← getitem input1 "TEMP";
      let temp_array := to_numpy temp1 in
      fft_values ← call (fft temp_array);
      view ← iloc 1 input1;
      input2 ← copy view;
      setitem input2 "TEMP_FFT" (Float64Col (complex_abs <$> List.skipn 1 fft_values));;
      mret input2.

Definition xgb_params : XGBParams :=
  {| objective := "reg:squarederror"; n_estimators := 100; enable_categorical := true |}.

Definition predict (input : ref) : M ref :=
  prepared_data ← prepare_data input;
  X_ ← drop prepared_data ["TEMP"; "DATE"];
  y ← getitem prepared_data "TEMP";
  Xdf ← deref X_;
  (if decide ("LOCATION" ∈ columns Xdf) then
     location ← getitem X_ "LOCATION";
     setitem X_ "LOCATION" (astype_category location)
   else mret ());;
  Xdf ← deref X_;
  model ← call (xgb_fit xgb_params Xdf y);
  predicted ← call (xgb_predict model Xdf);
  setitem prepared_data "PREDICTED_TEMP" (Float64Col predicted);;
  attrs ← get_self;
  set_self {| xgb_model := Some model; X := X attrs |};;
  attrs ← get_self;
  set_self {| xgb_model := xgb_model attrs; X := Some X_ |};;
  select prepared_data ["DATE"; "LOCATION"; "HOUR_OF_DAY"; "TEMP"; "PREDICTED_TEMP"].

Definition calculate_global_shap : M ref :=
  attrs ← get_self;
  match xgb_model attrs with
  | None => raise not_trained_error
  | Some model =>
      match X attrs with
      | None => raise (AttributeError "'WeatherPredictor' object has no attribute 'X'")
      | Some X_ =>
          Xdf ← deref X_;
          values ← call (shap_values model Xdf);
          let global_shap := (λ v, np_mean (fabs <$> v)) <$> values in
          feature_importance ← new_frame
            [("FEATURE", ObjectCol (PyStr <$> columns Xdf));
             ("GLOBAL_SHAP", Float64Col global_shap)];
          sort_values_desc feature_importance "GLOBAL_SHAP"
      end
  end.

(** ** Worlds and frames the statements refer to *)

(** A new predictor next to the given frames. *)
Definition fresh (frames : list DataFrame) : World :=
  {| heap := frames; self := untrained |}.

(** [w'] has every object of [w], unchanged, and the same attributes. *)
Definition extends (w w' : World) : Prop :=
  self w' = self w ∧ ∀ r df, heap w !! r = Some df → heap w' !! r = Some df.

(** The frame [prepare_data] returns for the frame [df] and the spectrum of
    its temperatures. *)
Definition prepared (df : DataFrame) (spectrum : list complex128) : DataFrame :=
  assign "TEMP_FFT" (Float64Col (complex_abs <$> List.skipn 1 spectrum)) (iloc_from 1 df).

(** The magnitudes fit the frame without its first row. *)
Definition fits (df : DataFrame) (spectrum : list complex128) : Prop :=
  length (List.skipn 1 spectrum) = nrows (iloc_from 1 df).

(** The world in which [predict] raises when the DATE column is missing:
    the copies made by [prepare_data] exist, nothing else has changed. *)
Definition prepared_world (w : World) (df : DataFrame) (spectrum : list complex128) : World :=
  push (prepared df spectrum) (push (iloc_from 1 df) (push df w)).

(** The predictor columns, as [predict] builds them from the prepared
    frame: [TEMP] and [DATE] are dropped and [LOCATION], if there is one,
    becomes categorical. *)
Definition feature_matrix (P : DataFrame) : DataFrame :=
  let X0 := without ["TEMP"; "DATE"] P in
  match lookup_col "LOCATION" (frame_data X0) with
  | Some location => assign "LOCATION" (astype_category location) X0
  | None => X0
  end.

Definition output_columns : list string :=
  ["DATE"; "LOCATION"; "HOUR_OF_DAY"; "TEMP"; "PREDICTED_TEMP"].

(** The world after the statements of [predict] up to the two assignments
    to [self], started in [w] on the frame [df]. *)
Definition trained_world (w : World) (df P' X1 : DataFrame) (m : Model) : World :=
  with_self {| xgb_model := Some m; X := Some (length (heap w) + 3) |}
    (push X1 (push P' (push (iloc_from 1 df) (push df w)))).

(** [np.abs(shap_values.values).mean(axis=0)] *)
Definition global_scores (values : list (list float64)) : list float64 :=
  (λ v, np_mean (fabs <$> v)) <$> values.

Definition feature_importance (Xdf : DataFrame) (values : list (list float64)) : DataFrame :=
  {| index := Z.of_nat <$> seq 0 (length (columns Xdf));
     frame_data := [("FEATURE", ObjectCol (PyStr <$> columns Xdf));
                    ("GLOBAL_SHAP", Float64Col (global_scores values))] |}.

Definition sorted_importance (Xdf : DataFrame) (values : list (list float64)) : DataFrame :=
  take_rows (argsort_desc (global_scores values)) (feature_importance Xdf values).

End WeatherPredictor.
End WP.

(** ** An executable instance of the libraries

    Used to run the embedding on concrete frames. The transform is the exact
    discrete Fourier transform on sequences of length 1 and 2, where it is
    rational; the regressor memorises its training targets; a feature's
    attribution in a row is the feature's own value (0 for a missing
    value), and the explainer raises on a matrix without rows; a set is
    iterated in insertion order. There are two sorts: an insertion sort
    that keeps equal keys in their order, and the sort of pandas and numpy
    as their generic routines do it. *)
Module Example.

Definition fneg (x : float64) : float64 :=
  match x with
  | Finite q => Finite (- q)
  | Inf s => Inf (negb s)
  | NaN => NaN
  end.

Definition small_fft (xs : list float64) : result lib_exn (list complex128) :=
  match xs with
  | [] => Raise (LibExn "ValueError" "invalid number of data points (0) specified")
  | [x] => Ret [(x, Finite 0)]
  | [x0; x1] => Ret [(fadd x0 x1, Finite 0); (fadd x0 (fneg x1), Finite 0)]
  | _ => Ret ((λ _, (NaN, NaN)) <$> xs)
  end.

Definition real_axis_abs (z : complex128) : float64 :=
  match z.2 with
  | Finite im => if Qeq_bool im 0 then fabs z.1 else NaN
  | _ => NaN
  end.

Definition memo_fit (_ : XGBParams) (_ : DataFrame) (y : Column)
  : result lib_exn (list float64) :=
  Ret (to_numpy y).

Definition memo_predict (m : list float64) (X : DataFrame)
  : result lib_exn (list float64) :=
  Ret (resize (nrows X) (Finite 0) m).

(** A missing value has no attribution. *)
Definition known (x : float64) : float64 :=
  match x with NaN => Finite 0 | _ => x end.

Definition value_attributions (_ : list float64) (X : DataFrame)
  : result lib_exn (list (list float64)) :=
  match nrows X with
  | 0 => Raise (LibExn "IndexError" "index 0 is out of bounds for axis 0 with size 0")
  | _ =>
      Ret ((λ nc, resize (nrows X) (Finite 0) (known <$> to_numpy nc.2)) <$> frame_data X)
  end.

Definition desc_leb (later earlier : float64) : bool :=
  match earlier, later with
  | _, NaN => true
  | NaN, _ => false
  | Finite a, Finite b => Qle_bool b a
  | Inf s, Finite _ => negb s
  | Finite _, Inf t => t
  | Inf s, Inf t => negb s || t
  end.

(** [x] is inserted in front of the first [y] that it may precede. *)
Fixpoint insert_desc (before : float64 * nat → float64 * nat → bool)
    (x : float64 * nat) (l : list (float64 * nat)) : list (float64 * nat) :=
  match l with
  | [] => [x]
  | y :: l' => if before x y then x :: l else y :: insert_desc before x l'
  end.

Definition argsort_with (before : float64 * nat → float64 * nat → bool)
    (xs : list float64) : list nat :=
  (foldr (insert_desc before) [] (zip xs (seq 0 (length xs)))).*2.

(** Rows are inserted from the last to the first. A row goes in front of
    every key not greater than its own, which keeps equal keys in their
    original order. *)
Definition before_stable (x y : float64 * nat) : bool := desc_leb y.1 x.1.

(** [y] may follow [x] in a descending sort. *)
Definition pair_desc (x y : float64 * nat) : Prop := desc_le y.1 x.1.

(** *** The sort of pandas and numpy

    [sort_values(ascending=False)] computes its indexer with pandas'
    [nargsort], which sorts the keys that are not NaN with
    [np.argsort(kind='quicksort')]. numpy's generic routine for an index
    array (npysort, [aquicksort]) is an introsort: while a range has more
    than 16 elements it is partitioned around the median of three, and
    every range is finished by insertion. The vectorised variants of the
    routine, and the heapsort it switches to when the depth limit is
    reached, are not modelled: [np_aquicksort] gives [None] there. *)

(** [a < b] on doubles. *)
Definition float_ltb (a b : float64) : bool :=
  match a, b with
  | NaN, _ | _, NaN => false
  | Finite p, Finite q => negb (Qle_bool q p)
  | Finite _, Inf t => negb t
  | Inf s, Finite _ => s
  | Inf s, Inf t => s && negb t
  end.

Definition is_nan (x : float64) : bool :=
  match x with NaN => true | _ => false end.

(** The order numpy sorts doubles by: NaN is greater than every number. *)
Definition np_less (a b : float64) : bool :=
  float_ltb a b || (is_nan b && negb (is_nan a)).

(** [tosort[i]] and [v[tosort[i]]] *)
Definition at_index (t : list nat) (i : nat) : nat := default 0 (t !! i).
Definition key_at (v : list float64) (t : list nat) (i : nat) : float64 :=
  default NaN (v !! at_index t i).

(** [INTP_SWAP(tosort[i], tosort[j])] *)
Definition swap (i j : nat) (t : list nat) : list nat :=
  <[i := at_index t j]> (<[j := at_index t i]> t).

(** [do ++pi; while (less(v[*pi], vp));] *)
Fixpoint scan_up (fuel : nat) (v : list float64) (t : list nat) (vp : float64)
    (pi : nat) : nat :=
  match fuel with
  | 0 => S pi
  | S fuel =>
      if np_less (key_at v t (S pi)) vp then scan_up fuel v t vp (S pi) else S pi
  end.

(** [do --pj; while (less(vp, v[*pj]));] *)
Fixpoint scan_down (fuel : nat) (v : list float64) (t : list nat) (vp : float64)
    (pj : nat) : nat :=
  match fuel with
  | 0 => pred pj
  | S fuel =>
      if np_less vp (key_at v t (pred pj)) then scan_down fuel v t vp (pred pj)
      else pred pj
  end.

(** The loop that exchanges the elements on the wrong side of the pivot. *)
Fixpoint exchange (fuel : nat) (v : list float64) (vp : float64) (t : list nat)
    (pi pj : nat) : list nat * nat :=
  match fuel with
  | 0 => (t, pi)
  | S fuel =>
      let pi := scan_up (length t) v t vp pi in
      let pj := scan_down (length t) v t vp pj in
      if decide (pj ≤ pi) then (t, pi) else exchange fuel v vp (swap pi pj t) pi pj
  end.

(** One partition of the range [pl..pr]; the result is the array and the
    place of the pivot. *)
Definition partition (v : list float64) (t : list nat) (pl pr : nat) : list nat * nat :=
  let pm := pl + (pr - pl) `div` 2 in
  let t := if np_less (key_at v t pm) (key_at v t pl) then swap pm pl t else t in
  let t := if np_less (key_at v t pr) (key_at v t pm) then swap pr pm t else t in
  let t := if np_less (key_at v t pm) (key_at v t pl) then swap pm pl t else t in
  let vp := key_at v t pm in
  let t := swap pm (pr - 1) t in
  let '(t, pi) := exchange (length t) v vp t pl (pr - 1) in
  (swap pi (pr - 1) t, pi).

(** [while (pj > pl && less(vp, v[*pk])) *pj-- = *pk--;] *)
Fixpoint shift (fuel : nat) (v : list float64) (vp : float64) (pl : nat)
    (t : list nat) (pj : nat) : list nat * nat :=
  match fuel with
  | 0 => (t, pj)
  | S fuel =>
      if decide (pl < pj) then
        if np_less vp (key_at v t (pj - 1))
        then shift fuel v vp pl (<[pj := at_index t (pj - 1)]> t) (pj - 1)
        else (t, pj)
      else (t, pj)
  end.

Definition insert_one (v : list float64) (pl : nat) (t : list nat) (pi : nat) : list nat :=
  let vi := at_index t pi in
  let vp := default NaN (v !! vi) in
  let '(t, pj) := shift pi v vp pl t pi in
  <[pj := vi]> t.

(** The insertion sort of the range [pl..pr]. *)
Definition insertion (v : list float64) (pl pr : nat) (t : list nat) : list nat :=
  foldl (insert_one v pl) t (seq (pl + 1) (pr - pl)).

(** The outer loop, with its stack of ranges and depths. *)
Fixpoint aquicksort_loop (fuel : nat) (v : list float64) (t : list nat) (pl pr : nat)
    (stack : list (nat * nat * Z)) (cdepth : Z) : option (list nat) :=
  match fuel with
  | 0 => None
  | S fuel =>
      if decide (16 < pr - pl) then
        let '(t, pi) := partition v t pl pr in
        let cdepth := (cdepth - 1)%Z in
        if decide (pi - pl < pr - pi)
        then aquicksort_loop fuel v t pl (pi - 1) ((pi + 1, pr, cdepth) :: stack) cdepth
        else aquicksort_loop fuel v t (pi + 1) pr ((pl, pi - 1, cdepth) :: stack) cdepth
      else
        let t := insertion v pl pr t in
        match stack with
        | [] => Some t
        | (pl, pr, cdepth) :: stack =>
            if decide (cdepth < 0)%Z then None
            else aquicksort_loop fuel v t pl pr stack cdepth
        end
  end.

(** [np.argsort(v, kind='quicksort')] *)
Definition np_aquicksort (v : list float64) : option (list nat) :=
  match length v with
  | 0 => Some []
  | S n =>
      aquicksort_loop (2 * length v + 2) v (seq 0 (length v)) 0 n []
        (2 * Z.log2 (Z.of_nat (length v)))
  end.

(** pandas' [nargsort(items, kind='quicksort', ascending=False,
    na_position='last')]: the keys that are not NaN are reversed, sorted
    in ascending order and reversed again; the places of the NaN keys
    follow. *)
Definition nargsort_desc (items : list float64) : option (list nat) :=
  let idx := seq 0 (length items) in
  let mask := λ i, is_nan (default NaN (items !! i)) in
  let non_nan_idx := reverse (filter (λ i, mask i = false) idx) in
  let nan_idx := filter (λ i, mask i = true) idx in
  let non_nans := (λ i, default NaN (items !! i)) <$> non_nan_idx in
  p ← np_aquicksort non_nans;
  Some (reverse ((λ k, at_index non_nan_idx k) <$> p) ++ nan_idx).

(** Keys in non-increasing order, NaN last. *)
Fixpoint adjacent_desc (keys : list float64) : bool :=
  match keys with
  | a :: (b :: _) as rest => desc_leb b a && adjacent_desc rest
  | _ => true
  end.

Definition sorted_perm (xs : list float64) (r : list nat) : bool :=
  bool_decide (merge_sort (≤) r = seq 0 (length xs))
  && adjacent_desc (omap (λ k, xs !! k) r).

(** The indexer of [sort_values(ascending=False)]. Where the routines
    above are not modelled the insertion sort stands in. *)
Definition argsort_pandas (xs : list float64) : list nat :=
  match nargsort_desc xs with
  | Some r => if sorted_perm xs r then r else argsort_with before_stable xs
  | None => argsort_with before_stable xs
  end.

(** Sample frames: hourly observations of one location. *)
Definition two_hours : DataFrame := {|
  index := [0; 1]%Z;
  frame_data := [("DATE", DatetimeCol [0; 3600]%Z);
                 ("TEMP", Float64Col [Finite 3; Finite 2]);
                 ("LOCATION", ObjectCol [PyStr "New York"; PyStr "New York"]);
                 ("HOUR_OF_DAY", Int64Col [0; 1]%Z)] |}.

Definition one_hour : DataFrame := {|
  index := [0]%Z;
  frame_data := [("DATE", DatetimeCol [0]%Z);
                 ("TEMP", Float64Col [Finite 15]);
                 ("LOCATION", ObjectCol [PyStr "New York"]);
                 ("HOUR_OF_DAY", Int64Col [0]%Z)] |}.

Definition with_nan : DataFrame := {|
  index := [0; 1]%Z;
  frame_data := [("DATE", DatetimeCol [0; 3600]%Z);
                 ("TEMP", Float64Col [Finite 3; NaN]);
                 ("LOCATION", ObjectCol [PyStr "New York"; PyStr "New York"]);
                 ("HOUR_OF_DAY", Int64Col [0; 1]%Z)] |}.

Definition no_location : DataFrame := {|
  index := [0; 1]%Z;
  frame_data := [("DATE", DatetimeCol [0; 3600]%Z);
                 ("TEMP", Float64Col [Finite 3; Finite 2]);
                 ("HOUR_OF_DAY", Int64Col [0; 1]%Z)] |}.

Definition no_date : DataFrame := {|
  index := [0; 1]%Z;
  frame_data := [("TEMP", Float64Col [Finite 3; Finite 2]);
                 ("LOCATION", ObjectCol [PyStr "New York"; PyStr "New York"]);
                 ("HOUR_OF_DAY", Int64Col [0; 1]%Z)] |}.

Definition text_temp_only : DataFrame := {|
  index := [0; 1]%Z;
  frame_data := [("TEMP", ObjectCol [PyStr "warm"; PyStr "cold"])] |}.

Definition text_temp : DataFrame := {|
  index := [0; 1]%Z;
  frame_data := [("TEMP", ObjectCol [PyStr "warm"; PyStr "cold"]);
                 ("HOUR_OF_DAY", Int64Col [0; 1]%Z)] |}.

Definition no_temp : DataFrame := {|
  index := [0; 1]%Z;
  frame_data := [("HOUR_OF_DAY", Int64Col [0; 1]%Z)] |}.

(** Two observations around midnight with 128 more measurements, F1 to
    F128, all zero: 131 feature columns. *)
Definition measurements (n : nat) : list (string * Column) :=
  (λ i, ("F" +:+ pretty i, Int64Col [0; 0]%Z)) <$> seq 1 n.

Definition many_features : DataFrame := {|
  index := [0; 1]%Z;
  frame_data := [("DATE", DatetimeCol [82800; 86400]%Z);
                 ("TEMP", Float64Col [Finite 3; Finite 3]);
                 ("LOCATION", ObjectCol [PyStr "New York"; PyStr "New York"]);
                 ("HOUR_OF_DAY", Int64Col [23; 0]%Z)]
                ++ measurements 128 |}.

End Example.

(** * The data generator and the selection of a location

    The cell that defines [generate_temperature_data], and the selection
    [df[df['LOCATION'] == location]] that the notebook applies to its
    result before it calls [predict].

    - numpy's global random generator is a state that is threaded through
      the loops; its two distributions and [np.sin] are the fields of the
      [Numpy] interface.
    - [start_date] is the timestamp the date string denotes, in nanoseconds;
      [num_days] is a natural number (for a negative number
      [pd.date_range] raises).
    - [date_range[hour]] can raise an IndexError; the loops are written
      with [option] for it. *)
Module Gen.

(** ** More arithmetic *)

Definition fmul (x y : float64) : float64 :=
  match x, y with
  | NaN, _ | _, NaN => NaN
  | Finite a, Finite b => overflow (a * b)
  | Finite a, Inf s | Inf s, Finite a =>
      if Qeq_bool a 0 then NaN else Inf (xorb s (negb (Qle_bool 0 a)))
  | Inf s, Inf t => Inf (xorb s t)
  end.

(** Division as numpy does it; the notebook divides by the constant 24
    only. *)
Definition fdiv (x y : float64) : float64 :=
  match x, y with
  | NaN, _ | _, NaN => NaN
  | Finite a, Finite b =>
      if Qeq_bool b 0
      then (if Qeq_bool a 0 then NaN else Inf (negb (Qle_bool 0 a)))
      else overflow (a / b)
  | Finite _, Inf _ => Finite 0
  | Inf s, Finite b => Inf (xorb s (negb (Qle_bool 0 b)))
  | Inf _, Inf _ => NaN
  end.

Definition of_int (z : Z) : float64 := Finite (inject_Z z).

(** [np.pi], the double nearest to pi. *)
Definition np_pi : float64 := Finite (884279719003555 # 281474976710656).

(** ** numpy's generator and [np.sin] *)

Class Numpy : Type := {
  (** the state of numpy's global random generator *)
  Rng : Type;
  (** [np.random.normal(scale=s)] *)
  random_normal : float64 → Rng → float64 * Rng;
  (** [np.random.uniform(low, high)] *)
  random_uniform : float64 → float64 → Rng → float64 * Rng;
  np_sin : float64 → float64;

  random_normal_finite : ∀ s rng,
    (0 <= s)%Q → is_finite (random_normal (Finite s) rng).1 = true;
  random_uniform_range : ∀ a b rng,
    (a <= b)%Q →
    ∃ q, (random_uniform (Finite a) (Finite b) rng).1 = Finite q ∧ (a <= q)%Q ∧ (q <= b)%Q;
  np_sin_range : ∀ q,
    ∃ r, np_sin (Finite q) = Finite r ∧ (- (1) <= r)%Q ∧ (r <= 1)%Q
}.

(** One dictionary appended to [data]. *)
Record Observation : Type := {
  DATE : Z;
  TEMP : float64;
  LOCATION : string;
  HOUR_OF_DAY : Z;
  RANDOM_NOISE : float64
}.

(** [pd.DataFrame(data)] for a list of such dictionaries: the keys of the
    dictionaries become the columns; an empty list gives a frame without
    columns. *)
Definition frame_of_records (data : list Observation) : DataFrame :=
  match data with
  | [] => {| index := []; frame_data := [] |}
  | _ =>
      {| index := Z.of_nat <$> seq 0 (length data);
         frame_data :=
           [("DATE", DatetimeCol (DATE <$> data));
            ("TEMP", Float64Col (TEMP <$> data));
            ("LOCATION", ObjectCol ((λ o, PyStr (LOCATION o)) <$> data));
            ("HOUR_OF_DAY", Int64Col (HOUR_OF_DAY <$> data));
            ("RANDOM_NOISE", Float64Col (RANDOM_NOISE <$> data))] |}
  end.

(** Nanoseconds in an hour: timestamps are nanoseconds since the epoch. *)
Definition hour_ns : Z := 3600 * 1000000000.

(** [pd.date_range(start=start, periods=periods, freq='h')], for the
    timestamp [start] that the date string denotes. *)
Definition date_range (start : Z) (periods : nat) : list Z :=
  (λ i : nat, (start + Z.of_nat i * hour_ns)%Z) <$> seq 0 periods.

(** [series == value] for a string [value], element by element. *)
Definition eq_str (c : Column) (value : string) : list bool :=
  (λ o, match o with PyStr s => bool_decide (s = value) | _ => false end) <$> col_objects c.

Definition select_mask (mask : list bool) (A : Type) (l : list A) : list A :=
  (filter (λ p, p.1 = true) (zip mask l)).*2.

(** [df[df[name] == value]] for a string [value]: the rows where the column
    has this value, with their index labels; [None] is the KeyError of a
    missing column. *)
Definition where_eq (df : DataFrame) (name value : string) : option DataFrame :=
  c ← lookup_col name (frame_data df);
  Some (frame_lift (select_mask (eq_str c value)) df).

Section Generator.
Context `{N : Numpy}.

(** [15 + 10 * np.sin(2 * np.pi * time_of_day / 24)] *)
Definition base_temp (time_of_day : Z) : float64 :=
  fadd (of_int 15)
    (fmul (of_int 10)
       (np_sin (fdiv (fmul (fmul (of_int 2) np_pi) (of_int time_of_day)) (of_int 24)))).

(** The body of the inner loop, for one location and one hour. [None] is
    the IndexError of [date_range[hour]]. *)
Definition observe (dates : list Z) (location : string) (hour : nat) (rng : Rng)
  : option (Observation * Rng) :=
  let time_of_day := (Z.of_nat hour `mod` 24)%Z in
  let '(temp_variation, rng) := random_normal (of_int 2) rng in
  let temp := fadd (base_temp time_of_day) temp_variation in
  let '(random_noise, rng) := random_uniform (of_int 0) (of_int 100) rng in
  date ← dates !! hour;
  Some ({| DATE := date; TEMP := temp; LOCATION := location;
           HOUR_OF_DAY := time_of_day; RANDOM_NOISE := random_noise |}, rng).

(** [for hour in range(total_hours): ... data.append({...})] *)
Fixpoint hours_loop (dates : list Z) (location : string) (hours : list nat)
    (data : list Observation) (rng : Rng) : option (list Observation * Rng) :=
  match hours with
  | [] => Some (data, rng)
  | hour :: rest =>
      match observe dates location hour rng with
      | Some (o, rng') => hours_loop dates location rest (data ++ [o]) rng'
      | None => None
      end
  end.

(** [for location in locations: ...] *)
Fixpoint locations_loop (dates : list Z) (total_hours : nat) (locations : list string)
    (data : list Observation) (rng : Rng) : option (list Observation * Rng) :=
  match locations with
  | [] => Some (data, rng)
  | location :: rest =>
      match hours_loop dates location (seq 0 total_hours) data rng with
      | Some (data', rng') => locations_loop dates total_hours rest data' rng'
      | None => None
      end
  end.

Definition generate_temperature_data (start_date : Z) (num_days : nat)
    (locations : list string) (rng : Rng) : option (DataFrame * Rng) :=
  let hours_per_day := 24 in
  let total_hours := num_days * hours_per_day in
  let dates := date_range start_date total_hours in
  '(data, rng') ← locations_loop dates total_hours locations [] rng;
  Some (frame_of_records data, rng').

(** ** The rows in closed form *)

(** The two draws made for one row, in the order of the loop body. *)
Definition draw (rng : Rng) : (float64 * float64) * Rng :=
  let '(v, rng) := random_normal (of_int 2) rng in
  let '(u, rng) := random_uniform (of_int 0) (of_int 100) rng in
  ((v, u), rng).

Fixpoint draws (n : nat) (rng : Rng) : list (float64 * float64) * Rng :=
  match n with
  | O => ([], rng)
  | S n =>
      let '(d, rng) := draw rng in
      let '(ds, rng) := draws n rng in
      (d :: ds, rng)
  end.

(** Row [i] of the generated table, given the pair drawn for it. *)
Definition row (start_date : Z) (total_hours : nat) (locations : list string)
    (i : nat) (d : float64 * float64) : Observation :=
  let hour := i `mod` total_hours in
  {| DATE := (start_date + Z.of_nat hour * hour_ns)%Z;
     TEMP := fadd (base_temp (Z.of_nat hour `mod` 24)) d.1;
     LOCATION := locations !!! (i `div` total_hours);
     HOUR_OF_DAY := (Z.of_nat hour `mod` 24)%Z;
     RANDOM_NOISE := d.2 |}.

(** The row of one hour of one location. *)
Definition hour_row (start : Z) (location : string) (hour : nat)
    (d : float64 * float64) : Observation :=
  {| DATE := (start + Z.of_nat hour * hour_ns)%Z;
     TEMP := fadd (base_temp (Z.of_nat hour `mod` 24)) d.1;
     LOCATION := location;
     HOUR_OF_DAY := (Z.of_nat hour `mod` 24)%Z;
     RANDOM_NOISE := d.2 |}.

(** The rows of all locations, block by block. *)
Fixpoint blocks (start : Z) (total_hours : nat) (locations : list string) (rng : Rng)
  : list Observation * Rng :=
  match locations with
  | [] => ([], rng)
  | location :: rest =>
      let '(ds, rng) := draws total_hours rng in
      let '(bs, rng) := blocks start total_hours rest rng in
      (zip_with (hour_row start location) (seq 0 total_hours) ds ++ bs, rng)
  end.

(** The rows of the [k]-th location. *)
Definition selected (start : Z) (total_hours : nat) (locations : list string)
    (rng : Rng) (k : nat) : list Observation :=
  take total_hours (drop (k * total_hours) (blocks start total_hours locations rng).1).

End Generator.

(** The columns of a generated table that has rows. *)
Definition generated_columns : list string :=
  ["DATE"; "TEMP"; "LOCATION"; "HOUR_OF_DAY"; "RANDOM_NOISE"].

(** [df.iloc[a:a+n]] *)
Definition rows_from (a n : nat) : DataFrame → DataFrame :=
  frame_lift (λ A l, take n (drop a l)).

Definition location_mask (location : string) (rows : list Observation) : list bool :=
  (λ o, bool_decide (LOCATION o = location)) <$> rows.

End Gen.


(** ** An executable instance of numpy

    Used to run the generator. The generator state is a counter; the normal
    draw cycles through minus the scale, zero and the scale; the uniform draw
    cycles through the quarters of the interval; the sine is replaced by the
    identity, cut off at -1 and 1. *)
Module GenExample.

Definition cycle_normal (scale : float64) (rng : nat) : float64 * nat :=
  (match scale with
   | Finite s => Finite (s * inject_Z (Z.of_nat (rng `mod` 3) - 1))
   | _ => NaN
   end, S rng).

Definition quarter (rng : nat) : Q :=
  match rng `mod` 4 with
  | 0 => 0
  | 1 => 1 # 4
  | 2 => 1 # 2
  | _ => 3 # 4
  end.

Definition cycle_uniform (low high : float64) (rng : nat) : float64 * nat :=
  (match low, high with
   | Finite a, Finite b => Finite (a + (b - a) * quarter rng)
   | _, _ => NaN
   end, S rng).

Definition cut_off (x : float64) : float64 :=
  match x with
  | Finite q =>
      Finite (if Qle_bool q (- (1)) then - (1) else if Qle_bool 1 q then 1 else q)
  | _ => NaN
  end.

Definition cities : list string := ["New York"; "Chicago"].

End GenExample.

(** * The instance meets the contract *)
Module ExampleFacts.
Import Example.

Lemma desc_leb_le a b : desc_leb a b = true ↔ desc_le a b.
Proof.
  destruct a as [p|s|], b as [q|t|]; simpl; try rewrite Qle_bool_iff;
    try destruct s; try destruct t; simpl; intuition congruence.
Qed.

Lemma desc_le_total a b : desc_le a b ∨ desc_le b a.
Proof.
  destruct a as [p|s|], b as [q|t|]; simpl; auto.
  - destruct (Qlt_le_dec p q); [left; by apply Qlt_le_weak | by right].
  - destruct t; auto.
  - destruct s; auto.
  - destruct s, t; auto.
Qed.

Lemma desc_le_trans a b c : desc_le a b → desc_le b c → desc_le a c.
Proof.
  destruct a as [p|s|], b as [q|t|], c as [r|u|]; simpl; try tauto;
    try (intros ??; by apply Qle_trans with q);
    intros; destruct_or?; subst; auto; discriminate.
Qed.

Lemma before_sound x y : before_stable x y = true → desc_le y.1 x.1.
Proof. unfold before_stable. by rewrite desc_leb_le. Qed.

Lemma before_complete x y : before_stable x y = false → desc_le x.1 y.1.
Proof.
  unfold before_stable. intros H.
  destruct (desc_le_total x.1 y.1) as [|Hle]; [done|].
  apply desc_leb_le in Hle. congruence.
Qed.

Lemma insert_desc_perm bf x l : insert_desc bf x l ≡ₚ x :: l.
Proof.
  induction l as [|y l IH]; simpl; [done|].
  destruct (bf x y); [done|]. rewrite IH. apply Permutation_swap.
Qed.

Lemma insert_desc_sorted x l :
  StronglySorted pair_desc l → StronglySorted pair_desc (insert_desc before_stable x l).
Proof.
  induction 1 as [|y l Hs IH Hy]; simpl.
  - repeat constructor.
  - destruct (before_stable x y) eqn:Hb.
    + constructor; [by constructor|]. constructor.
      * by apply before_sound in Hb.
      * apply before_sound in Hb. eapply Forall_impl; [exact Hy|].
        intros z Hz. unfold pair_desc in *. by eapply desc_le_trans.
    + constructor; [done|]. rewrite insert_desc_perm. constructor; [|done].
      by apply before_complete in Hb.
Qed.

Lemma foldr_insert_perm bf l : foldr (insert_desc bf) [] l ≡ₚ l.
Proof.
  induction l as [|x l IH]; simpl; [done|]. by rewrite insert_desc_perm, IH.
Qed.

Lemma foldr_insert_sorted l :
  StronglySorted pair_desc (foldr (insert_desc before_stable) [] l).
Proof.
  induction l; simpl; [constructor | by apply insert_desc_sorted].
Qed.

Lemma argsort_with_perm bf xs : argsort_with bf xs ≡ₚ seq 0 (length xs).
Proof.
  unfold argsort_with. rewrite foldr_insert_perm.
  rewrite snd_zip; [done|]. by rewrite length_seq.
Qed.

Lemma sorted_lookup_lt {A} (R : relation A) l i j a b :
  StronglySorted R l → i < j → l !! i = Some a → l !! j = Some b → R a b.
Proof.
  intros Hs. revert i j. induction Hs as [|x l Hs IH Hx]; intros i j Hij Hi Hj.
  - by rewrite lookup_nil in Hi.
  - destruct j as [|j]; [lia|]. destruct i as [|i]; simpl in *.
    + injection Hi as ->. rewrite Forall_lookup in Hx. by eapply Hx.
    + eapply (IH i j); [lia|done..].
Qed.

Lemma zip_seq_lookup (xs : list float64) :
  Forall (λ p, xs !! p.2 = Some p.1) (zip xs (seq 0 (length xs))).
Proof.
  apply Forall_lookup. intros i [k n] Hp.
  apply lookup_zip_with_Some in Hp as (x & y & [= -> ->] & Hx & Hy).
  apply lookup_seq in Hy as [-> _]. done.
Qed.

Lemma omap_lookup_pairs (xs : list float64) (s : list (float64 * nat)) :
  Forall (λ p, xs !! p.2 = Some p.1) s → omap (λ k, xs !! k) s.*2 = s.*1.
Proof.
  induction 1 as [|[k n] s Hp _ IH]; [done|]. cbn in *. rewrite Hp. cbn. by rewrite IH.
Qed.

Lemma argsort_with_keys xs :
  omap (λ k, xs !! k) (argsort_with before_stable xs)
  = (foldr (insert_desc before_stable) [] (zip xs (seq 0 (length xs)))).*1.
Proof.
  apply omap_lookup_pairs. rewrite foldr_insert_perm. apply zip_seq_lookup.
Qed.

Lemma argsort_with_sorted xs i j a b :
  i < j →
  omap (λ k, xs !! k) (argsort_with before_stable xs) !! i = Some a →
  omap (λ k, xs !! k) (argsort_with before_stable xs) !! j = Some b →
  desc_le b a.
Proof.
  rewrite argsort_with_keys. intros Hij Hi Hj.
  eapply (sorted_lookup_lt (λ x y, desc_le y x)); [|exact Hij|exact Hi|exact Hj].
  eapply (StronglySorted_fmap fst pair_desc); [|apply foldr_insert_sorted].
  by intros [] [].
Qed.

Lemma small_fft_length xs ys : small_fft xs = Ret ys → length ys = length xs.
Proof.
  destruct xs as [|x0 [|x1 [|x2 xs]]]; simpl; intros [= <-]; simpl; [done..|].
  by rewrite length_fmap.
Qed.

Lemma small_fft_nonempty xs : xs ≠ [] → ∃ ys, small_fft xs = Ret ys.
Proof. destruct xs as [|x0 [|x1 [|x2 xs]]]; simpl; eauto. done. Qed.

Lemma memo_predict_length m X ys : memo_predict m X = Ret ys → length ys = nrows X.
Proof. intros [= <-]. apply length_resize. Qed.

Lemma value_attributions_inv m X vs :
  value_attributions m X = Ret vs →
  1 ≤ nrows X ∧
  vs = (λ nc, resize (nrows X) (Finite 0) (known <$> to_numpy nc.2)) <$> frame_data X.
Proof.
  unfold value_attributions. destruct (nrows X) as [|n]; [done|].
  intros [= <-]. split; [lia|done].
Qed.

Lemma value_attributions_shape m X vs :
  value_attributions m X = Ret vs →
  length vs = length (columns X) ∧ Forall (λ v, length v = nrows X) vs.
Proof.
  intros [_ ->]%value_attributions_inv. unfold columns. rewrite !length_fmap.
  split; [done|].
  apply Forall_fmap, Forall_true. intros nc. simpl. apply length_resize.
Qed.

Lemma value_attributions_rows m X vs : value_attributions m X = Ret vs → 1 ≤ nrows X.
Proof. by intros [? _]%value_attributions_inv. Qed.

Lemma resize_Forall {A} (P : A → Prop) n y (l : list A) :
  P y → Forall P l → Forall P (resize n y l).
Proof.
  intros Hy Hl. rewrite resize_spec. apply Forall_app. split.
  - by apply Forall_take.
  - by apply Forall_replicate.
Qed.

Lemma known_number x : known x ≠ NaN.
Proof. by destruct x. Qed.

Lemma value_attributions_numbers m X vs :
  value_attributions m X = Ret vs → Forall (Forall (λ x, x ≠ NaN)) vs.
Proof.
  intros [_ ->]%value_attributions_inv.
  apply Forall_fmap, Forall_true. intros nc. cbn.
  apply resize_Forall; [done|]. apply Forall_fmap, Forall_true. intros x. apply known_number.
Qed.

Lemma adjacent_desc_sorted keys :
  adjacent_desc keys = true → StronglySorted (λ x y, desc_le y x) keys.
Proof.
  intros Hadj. apply Sorted_StronglySorted.
  { intros x y z Hxy Hyz. by eapply desc_le_trans. }
  induction keys as [|a keys IH]; [constructor|].
  destruct keys as [|b keys]; [repeat constructor|].
  cbn [adjacent_desc] in Hadj. apply andb_true_iff in Hadj as [Hab Hadj].
  constructor; [by apply IH|]. constructor. by apply desc_leb_le.
Qed.

Lemma argsort_pandas_perm xs : argsort_pandas xs ≡ₚ seq 0 (length xs).
Proof.
  unfold argsort_pandas.
  destruct (nargsort_desc xs) as [r|]; [|apply argsort_with_perm].
  destruct (sorted_perm xs r) eqn:Hc; [|apply argsort_with_perm].
  apply andb_true_iff in Hc as [Hperm%bool_decide_eq_true _].
  rewrite <- Hperm. symmetry. apply merge_sort_Permutation.
Qed.

Lemma argsort_pandas_sorted xs i j a b :
  i < j →
  omap (λ k, xs !! k) (argsort_pandas xs) !! i = Some a →
  omap (λ k, xs !! k) (argsort_pandas xs) !! j = Some b →
  desc_le b a.
Proof.
  unfold argsort_pandas.
  destruct (nargsort_desc xs) as [r|]; [|apply argsort_with_sorted].
  destruct (sorted_perm xs r) eqn:Hc; [|apply argsort_with_sorted].
  apply andb_true_iff in Hc as [_ Hadj%adjacent_desc_sorted].
  intros Hij Hi Hj.
  by eapply (sorted_lookup_lt (λ x y, desc_le y x)).
Qed.

(** The instance, for a sort that meets the contract. *)
Definition library (sort : list float64 → list nat)
    (sort_perm : ∀ xs, sort xs ≡ₚ seq 0 (length xs))
    (sort_sorted : ∀ xs i j a b,
       i < j →
       omap (λ k, xs !! k) (sort xs) !! i = Some a →
       omap (λ k, xs !! k) (sort xs) !! j = Some b →
       desc_le b a) : Library := {|
  Model := list float64;
  fft := small_fft;
  complex_abs := real_axis_abs;
  xgb_fit := memo_fit;
  xgb_predict := memo_predict;
  shap_values := value_attributions;
  argsort_desc := sort;
  set_order := id;
  fft_length := small_fft_length;
  fft_nonempty := small_fft_nonempty;
  xgb_predict_length := memo_predict_length;
  shap_values_shape := value_attributions_shape;
  shap_values_rows := value_attributions_rows;
  shap_values_numbers := value_attributions_numbers;
  argsort_desc_perm := sort_perm;
  argsort_desc_sorted := sort_sorted;
  set_order_perm := λ l, reflexivity l
|}.

(** With the insertion sort, and with the sort of pandas and numpy. *)
Definition stable : Library :=
  library (argsort_with before_stable) (argsort_with_perm before_stable)
    argsort_with_sorted.
Definition pandas_sort : Library :=
  library argsort_pandas argsort_pandas_perm argsort_pandas_sorted.

End ExampleFacts.

(** * Properties *)
Module WPSpec.
Import WP.

(** ** Columns and frames *)

Lemma lookup_col_elem name data c :
  lookup_col name data = Some c → (name, c) ∈ data.
Proof.
  induction data as [|[n c0] data IH]; simpl; [done|].
  case_decide as Hn; [intros [= ->]; subst; left | right; auto].
Qed.

Lemma lookup_col_is_Some name data :
  is_Some (lookup_col name data) ↔ name ∈ data.*1.
Proof.
  induction data as [|[n c0] data IH]; simpl.
  - split; [by intros [] | by intros ?%elem_of_nil].
  - case_decide as Hn; subst.
    + split; [left | eauto].
    + rewrite IH, elem_of_cons. split; [by right | by intros [->|]].
Qed.

Lemma lookup_col_None name data :
  lookup_col name data = None ↔ name ∉ data.*1.
Proof. rewrite <- lookup_col_is_Some, eq_None_not_Some. done. Qed.

Lemma lookup_col_lift f name data :
  lookup_col name (prod_map id (col_lift f) <$> data) = col_lift f <$> lookup_col name data.
Proof.
  induction data as [|[n c0] data IH]; simpl; [done|]. by case_decide.
Qed.

Lemma lookup_col_set_eq name c data : lookup_col name (set_col name c data) = Some c.
Proof.
  induction data as [|[n c0] data IH]; simpl.
  - by rewrite decide_True.
  - case_decide as Hn; simpl; [by rewrite decide_True | by rewrite decide_False].
Qed.

Lemma lookup_col_set_ne name name' c data :
  name ≠ name' → lookup_col name' (set_col name c data) = lookup_col name' data.
Proof.
  intros Hne. induction data as [|[n c0] data IH]; simpl.
  - by rewrite decide_False.
  - case_decide as Hn; simpl; subst.
    + by rewrite !decide_False.
    + by rewrite IH.
Qed.

Lemma elem_of_set_col name c data x :
  x ∈ (set_col name c data).*1 ↔ x = name ∨ x ∈ data.*1.
Proof.
  induction data as [|[n c0] data IH]; simpl.
  - rewrite list_elem_of_singleton. split; [by left | intros [|?%elem_of_nil]; done].
  - case_decide as Hn; simpl; subst; rewrite !elem_of_cons; [tauto|].
    rewrite IH. tauto.
Qed.

Lemma lookup_col_without name (labels : list string) data :
  name ∉ labels →
  lookup_col name (filter (λ nc, nc.1 ∉ labels) data) = lookup_col name data.
Proof.
  intros Hn. induction data as [|[n c0] data IH]; simpl; [done|].
  rewrite filter_cons. simpl. destruct (decide (n ∉ labels)) as [Hin|Hin]; simpl.
  - by rewrite IH.
  - rewrite IH. case_decide; [subst; by destruct Hin | done].
Qed.

Lemma columns_without (labels : list string) df :
  columns (without labels df) = filter (λ l, l ∉ labels) (columns df).
Proof.
  unfold columns, without. simpl. induction (frame_data df) as [|[n c] data IH]; [done|].
  rewrite filter_cons. cbn [fmap list_fmap fst]. rewrite filter_cons.
  destruct (decide (n ∉ labels)); cbn [fmap list_fmap fst]; by rewrite <- IH.
Qed.

Lemma columns_iloc_from k df : columns (iloc_from k df) = columns df.
Proof.
  unfold columns. simpl. rewrite <- list_fmap_compose. by apply list_fmap_ext; intros ? [] ?.
Qed.

Lemma elem_of_columns_assign name c df x :
  x ∈ columns (assign name c df) ↔ x = name ∨ x ∈ columns df.
Proof. apply elem_of_set_col. Qed.

Lemma absent_nil df (labels : list string) :
  absent df labels = [] ↔ ∀ l, l ∈ labels → l ∈ columns df.
Proof.
  unfold absent. split.
  - intros Hnil l Hl. destruct (decide (l ∈ columns df)) as [|Hn]; [done|].
    by destruct (filter_nil_not_elem_of _ _ l Hnil Hn).
  - intros Hall. induction labels as [|l labels IH]; [done|].
    rewrite filter_cons, decide_False.
    + apply IH. intros l' ?. apply Hall. by right.
    + intros Hn. apply Hn, Hall. by left.
Qed.

Lemma to_numpy_length c : is_numeric_dtype c = true → length (to_numpy c) = col_length c.
Proof. destruct c; simpl; try done; intros _; by rewrite length_fmap. Qed.

Lemma nrows_iloc_from k df : nrows (iloc_from k df) = nrows df - k.
Proof. unfold nrows. simpl. apply length_skipn. Qed.

Lemma wf_frame_lookup df name c :
  wf_frame df → lookup_col name (frame_data df) = Some c → col_length c = nrows df.
Proof.
  intros Hwf Hc%lookup_col_elem. unfold wf_frame in Hwf.
  rewrite Forall_forall in Hwf. by apply Hwf in Hc.
Qed.

(** ** Messages *)

Lemma append_assoc (a b c : string) : (a +:+ b) +:+ c = a +:+ b +:+ c.
Proof.
  induction a as [|x a IH]; [done|].
  change (String x ((a +:+ b) +:+ c) = String x (a +:+ b +:+ c)). by f_equal.
Qed.

Lemma append_empty_r (a : string) : a +:+ EmptyString = a.
Proof.
  induction a as [|x a IH]; [done|]. change (String x (a +:+ EmptyString) = String x a). by f_equal.
Qed.

Lemma mentions_prefix pre msg s : mentions msg s → mentions (pre +:+ msg) s.
Proof.
  intros (p & q & ->). exists (pre +:+ p), q. by rewrite append_assoc.
Qed.

Lemma mentions_suffix post msg s : mentions msg s → mentions (msg +:+ post) s.
Proof.
  intros (p & q & ->). exists p, (q +:+ post). by rewrite !append_assoc.
Qed.

Lemma mentions_here s : mentions s s.
Proof. exists EmptyString, EmptyString. simpl. by rewrite append_empty_r. Qed.

Lemma mentions_trans a b c : mentions a b → mentions b c → mentions a c.
Proof.
  intros (p & q & ->) Hc. by apply mentions_prefix, mentions_suffix.
Qed.

Lemma join_mentions sep l s : s ∈ l → mentions (join sep l) s.
Proof.
  induction l as [|x l IH]; [by intros ?%elem_of_nil|].
  intros [->|Hs]%elem_of_cons; destruct l as [|y l]; simpl.
  - apply mentions_here.
  - apply mentions_suffix, mentions_here.
  - by apply elem_of_nil in Hs.
  - do 2 apply mentions_prefix. by apply IH.
Qed.

Lemma quote_mentions s : mentions (quote s) s.
Proof. unfold quote. apply mentions_prefix, mentions_suffix, mentions_here. Qed.

Lemma set_repr_mentions l s : s ∈ l → mentions (set_repr l) (quote s).
Proof.
  intros Hs. destruct l as [|x l]; [by apply elem_of_nil in Hs|].
  unfold set_repr. apply mentions_prefix, mentions_suffix, join_mentions.
  by apply list_elem_of_fmap_2.
Qed.

(** ** Running one statement *)
Section Steps.
Context `{L : Library}.

Lemma bind_ret {A B} (m : M A) (f : A → M B) w a w' :
  m w = (Ret a, w') → (m ≫= f) w = f a w'.
Proof. unfold mbind, M_bind. by intros ->. Qed.

Lemma bind_raise {A B} (m : M A) (f : A → M B) w e w' :
  m w = (Raise e, w') → (m ≫= f) w = (Raise e, w').
Proof. unfold mbind, M_bind. by intros ->. Qed.

Lemma bind_ret_inv {A B} (m : M A) (f : A → M B) w b w' :
  (m ≫= f) w = (Ret b, w') → ∃ a w1, m w = (Ret a, w1) ∧ f a w1 = (Ret b, w').
Proof.
  unfold mbind, M_bind. destruct (m w) as [[a|e] w1]; [eauto | done].
Qed.

End Steps.

(** [run tac]: the next statement returns, as [tac] shows. *)
Tactic Notation "run" tactic3(tac) := erewrite bind_ret; [|solve [tac]].

Section Claims.
Context `{L : Library}.

Lemma deref_ok w r df : heap w !! r = Some df → deref r w = (Ret df, w).
Proof. unfold deref. by intros ->. Qed.

Lemma deref_dangling w r :
  heap w !! r = None → deref r w = (Raise DanglingReference, w).
Proof. unfold deref. by intros ->. Qed.

Lemma deref_inv w r df w' :
  deref r w = (Ret df, w') → heap w !! r = Some df ∧ w' = w.
Proof. unfold deref. destruct (heap w !! r); by intros [= <- <-]. Qed.

Lemma getitem_ok w r df name c :
  heap w !! r = Some df → lookup_col name (frame_data df) = Some c →
  getitem r name w = (Ret c, w).
Proof.
  intros Hr Hc. unfold getitem. run (by apply deref_ok). by rewrite Hc.
Qed.

Lemma getitem_inv w r name c w' :
  getitem r name w = (Ret c, w') →
  ∃ df, heap w !! r = Some df ∧ lookup_col name (frame_data df) = Some c ∧ w' = w.
Proof.
  unfold getitem. intros (df & w1 & [Hr ->]%deref_inv & H)%bind_ret_inv.
  exists df. destruct (lookup_col name (frame_data df)); [|done].
  by injection H as -> ->.
Qed.

Lemma copy_ok w r df :
  heap w !! r = Some df → copy r w = (Ret (length (heap w)), push df w).
Proof. intros Hr. unfold copy. by run (by apply deref_ok). Qed.

Lemma iloc_ok w k r df :
  heap w !! r = Some df → iloc k r w = (Ret (length (heap w)), push (iloc_from k df) w).
Proof. intros Hr. unfold iloc. by run (by apply deref_ok). Qed.

Lemma setitem_ok w r df name c :
  heap w !! r = Some df → col_length c = nrows df →
  setitem r name c w = (Ret (), update r (assign name c df) w).
Proof.
  intros Hr Hlen. unfold setitem. run (by apply deref_ok). by rewrite decide_True.
Qed.

Lemma setitem_inv w r name c u w' :
  setitem r name c w = (Ret u, w') →
  ∃ df, heap w !! r = Some df ∧ col_length c = nrows df
        ∧ w' = update r (assign name c df) w.
Proof.
  unfold setitem. intros (df & w1 & [Hr ->]%deref_inv & H)%bind_ret_inv.
  exists df. case_decide; [|done]. by injection H as <-.
Qed.

Lemma drop_ok w r df labels :
  heap w !! r = Some df → absent df labels = [] →
  drop r labels w = (Ret (length (heap w)), push (without labels df) w).
Proof.
  intros Hr Habs. unfold drop. run (by apply deref_ok). by rewrite decide_True.
Qed.

Lemma drop_inv w r labels x w' :
  drop r labels w = (Ret x, w') →
  ∃ df, heap w !! r = Some df ∧ absent df labels = []
        ∧ x = length (heap w) ∧ w' = push (without labels df) w.
Proof.
  unfold drop. intros (df & w1 & [Hr ->]%deref_inv & H)%bind_ret_inv.
  exists df. case_decide; [|done]. by injection H as <- <-.
Qed.

Lemma select_ok w r df keys :
  heap w !! r = Some df → absent df keys = [] →
  select r keys w = (Ret (length (heap w)), push (only keys df) w).
Proof.
  intros Hr Habs. unfold select. run (by apply deref_ok). by rewrite decide_True.
Qed.

Lemma select_inv w r keys x w' :
  select r keys w = (Ret x, w') →
  ∃ df, heap w !! r = Some df ∧ absent df keys = []
        ∧ x = length (heap w) ∧ w' = push (only keys df) w.
Proof.
  unfold select. intros (df & w1 & [Hr ->]%deref_inv & H)%bind_ret_inv.
  exists df. case_decide; [by injection H as <- <-|]. by case_decide.
Qed.

Lemma call_ok {A} (r : result lib_exn A) a w : r = Ret a → call r w = (Ret a, w).
Proof. by intros ->. Qed.

Lemma call_raise {A} (r : result lib_exn A) e w :
  r = Raise e → call r w = (Raise (External e), w).
Proof. by intros ->. Qed.

Lemma call_inv {A} (r : result lib_exn A) a w w' :
  call r w = (Ret a, w') → r = Ret a ∧ w' = w.
Proof. unfold call. destruct r; by intros [= <- <-]. Qed.

(** ** The heap *)

Lemma heap_push_new df w : heap (push df w) !! length (heap w) = Some df.
Proof. simpl. by apply list_lookup_middle. Qed.

Lemma heap_push_old df w r x : heap w !! r = Some x → heap (push df w) !! r = Some x.
Proof. simpl. apply lookup_app_l_Some. Qed.

Lemma heap_push_length df w : length (heap (push df w)) = S (length (heap w)).
Proof. simpl. rewrite length_app. simpl. lia. Qed.

Lemma update_last df df' w :
  update (length (heap w)) df' (push df w) = push df' w.
Proof.
  unfold update, push. simpl. f_equal.
  rewrite insert_app_r_alt by lia. by rewrite Nat.sub_diag.
Qed.

Lemma extends_refl w : extends w w.
Proof. by split. Qed.

Lemma extends_push df w w' : extends w w' → extends w (push df w').
Proof. intros [Hs Hh]. split; [done|]. intros r x Hr. by apply heap_push_old, Hh. Qed.

(** ** [prepare_data], case by case *)

Lemma prepare_data_dangling w input :
  heap w !! input = None → prepare_data input w = (Raise DanglingReference, w).
Proof.
  intros Hin. unfold prepare_data. apply bind_raise. unfold deref. by rewrite Hin.
Qed.

Lemma prepare_data_missing w input df :
  heap w !! input = Some df →
  absent df required_columns ≠ [] →
  prepare_data input w =
    (Raise (missing_columns_error (set_order (absent df required_columns))), w).
Proof.
  intros Hin Habs. unfold prepare_data. run (by apply deref_ok).
  by rewrite decide_True.
Qed.

Lemma required_present df :
  absent df required_columns = [] →
  ∃ temp, lookup_col "TEMP" (frame_data df) = Some temp.
Proof.
  intros Habs. apply lookup_col_is_Some. rewrite absent_nil in Habs.
  apply Habs. by left.
Qed.

Lemma prepare_data_not_numeric w input df temp :
  heap w !! input = Some df →
  absent df required_columns = [] →
  lookup_col "TEMP" (frame_data df) = Some temp →
  is_numeric_dtype temp = false →
  prepare_data input w = (Raise not_numeric_error, w).
Proof.
  intros Hin Habs Htemp Hnum. unfold prepare_data. run (by apply deref_ok).
  rewrite decide_False by (by rewrite Habs; intros []).
  run (by eapply getitem_ok). by rewrite Hnum.
Qed.

Lemma prepare_data_fft_raises w input df temp e :
  heap w !! input = Some df →
  absent df required_columns = [] →
  lookup_col "TEMP" (frame_data df) = Some temp →
  is_numeric_dtype temp = true →
  fft (to_numpy temp) = Raise e →
  prepare_data input w = (Raise (External e), push df w).
Proof.
  intros Hin Habs Htemp Hnum Hfft. unfold prepare_data. run (by apply deref_ok).
  rewrite decide_False by (by rewrite Habs; intros []).
  run (by eapply getitem_ok). rewrite Hnum. cbn [negb].
  run (by apply copy_ok).
  run (eapply getitem_ok; [apply heap_push_new|done]).
  apply bind_raise. by apply call_raise.
Qed.

Lemma prepare_data_mismatch w input df temp spectrum :
  heap w !! input = Some df →
  absent df required_columns = [] →
  lookup_col "TEMP" (frame_data df) = Some temp →
  is_numeric_dtype temp = true →
  fft (to_numpy temp) = Ret spectrum →
  ¬ fits df spectrum →
  ∃ msg, prepare_data input w =
    (Raise (ValueError msg), push (iloc_from 1 df) (push (iloc_from 1 df) (push df w))).
Proof.
  intros Hin Habs Htemp Hnum Hfft Hlen. unfold prepare_data.
  run (by apply deref_ok).
  rewrite decide_False by (by rewrite Habs; intros []).
  run (by eapply getitem_ok).
  rewrite Hnum. cbn [negb].
  run (by apply copy_ok).
  run (eapply getitem_ok; [apply heap_push_new|done]).
  run (by apply call_ok).
  run (apply iloc_ok, heap_push_new).
  run (apply copy_ok, heap_push_new).
  eexists. apply bind_raise. unfold setitem.
  run (apply deref_ok, heap_push_new).
  rewrite decide_False; [done|]. simpl. by rewrite length_fmap.
Qed.

Lemma prepare_data_run w input df temp spectrum :
  heap w !! input = Some df →
  absent df required_columns = [] →
  lookup_col "TEMP" (frame_data df) = Some temp →
  is_numeric_dtype temp = true →
  fft (to_numpy temp) = Ret spectrum →
  fits df spectrum →
  prepare_data input w =
    (Ret (length (heap w) + 2),
     push (prepared df spectrum) (push (iloc_from 1 df) (push df w))).
Proof.
  intros Hin Habs Htemp Hnum Hfft Hlen. unfold prepare_data.
  run (by apply deref_ok).
  rewrite decide_False by (by rewrite Habs; intros []).
  run (by eapply getitem_ok).
  rewrite Hnum. cbn [negb].
  run (by apply copy_ok).
  run (eapply getitem_ok; [apply heap_push_new|done]).
  run (by apply call_ok).
  run (apply iloc_ok, heap_push_new).
  run (apply copy_ok, heap_push_new).
  run (apply setitem_ok; [apply heap_push_new | simpl; by rewrite length_fmap]).
  unfold mret, M_ret. rewrite update_last, !heap_push_length. do 2 f_equal. lia.
Qed.

Lemma wf_fits df temp spectrum :
  wf_frame df →
  lookup_col "TEMP" (frame_data df) = Some temp →
  is_numeric_dtype temp = true →
  fft (to_numpy temp) = Ret spectrum →
  length spectrum = nrows df ∧ fits df spectrum.
Proof.
  intros Hwf Htemp Hnum Hfft. apply fft_length in Hfft.
  rewrite to_numpy_length, (wf_frame_lookup df "TEMP") in Hfft by done.
  split; [done|]. unfold fits. by rewrite length_skipn, nrows_iloc_from, Hfft.
Qed.

Lemma required_absent_nil df :
  absent df required_columns = [] ↔ "TEMP" ∈ columns df ∧ "HOUR_OF_DAY" ∈ columns df.
Proof.
  rewrite absent_nil. unfold required_columns. split.
  - intros H. split; apply H; [by left | by right; left].
  - intros [??] l [->|[->|?%elem_of_nil]%elem_of_cons]%elem_of_cons; done.
Qed.

Lemma lookup_col_columns name df c :
  lookup_col name (frame_data df) = Some c → name ∈ columns df.
Proof. intros H. apply lookup_col_is_Some. by exists c. Qed.

(** The heap after a successful [prepare_data]. *)
Lemma prepared_lookup w df v p :
  heap (push p (push v (push df w))) !! (length (heap w) + 2) = Some p.
Proof.
  replace (length (heap w) + 2) with (length (heap (push v (push df w))))
    by (rewrite !heap_push_length; lia).
  apply heap_push_new.
Qed.

Lemma wf_iloc_from k df : wf_frame df → wf_frame (iloc_from k df).
Proof.
  unfold wf_frame. rewrite nrows_iloc_from. simpl. intros Hwf.
  apply Forall_fmap. eapply Forall_impl; [exact Hwf|]. intros [n c] Hc. simpl in *.
  rewrite <- Hc. destruct c; simpl; apply length_skipn.
Qed.

Lemma wf_assign name c df :
  wf_frame df → col_length c = nrows df → wf_frame (assign name c df).
Proof.
  unfold wf_frame, nrows. simpl. intros Hwf Hc.
  induction Hwf as [|[n c0] data Hc0 Hwf IH]; simpl.
  - by repeat constructor.
  - case_decide; constructor; done.
Qed.

(** ** Claims about [prepare_data] *)

(** C1. An ObservationSet with n >= 2 rows, a numeric temperature column
    and an hour-of-day column: [prepare_data] returns a frame with exactly
    n - 1 rows, the rows of the input without the first one, and its
    [TEMP_FFT] column holds the magnitudes of the transform of the whole
    temperature sequence, bin 0 left out, in bin order. *)
Theorem prepare_data_drops_first_row w input df temp :
  heap w !! input = Some df →
  wf_frame df →
  lookup_col "TEMP" (frame_data df) = Some temp →
  is_numeric_dtype temp = true →
  "HOUR_OF_DAY" ∈ columns df →
  2 ≤ nrows df →
  ∃ out w' result spectrum,
    prepare_data input w = (Ret out, w') ∧
    heap w' !! out = Some result ∧
    wf_frame result ∧
    nrows result = nrows df - 1 ∧
    index result = List.skipn 1 (index df) ∧
    (∀ name c, name ≠ "TEMP_FFT" →
       lookup_col name (frame_data df) = Some c →
       lookup_col name (frame_data result) = Some (col_lift (λ A, List.skipn 1) c)) ∧
    fft (to_numpy temp) = Ret spectrum ∧
    length spectrum = nrows df ∧
    lookup_col "TEMP_FFT" (frame_data result)
      = Some (Float64Col (complex_abs <$> List.skipn 1 spectrum)).
Proof.
  intros Hin Hwf Htemp Hnum Hhour Hn.
  assert (Habs : absent df required_columns = []).
  { apply required_absent_nil. split; [by eapply lookup_col_columns | done]. }
  destruct (fft_nonempty (to_numpy temp)) as [spectrum Hfft].
  { intros Hnil. apply (f_equal length) in Hnil.
    rewrite to_numpy_length, (wf_frame_lookup df "TEMP") in Hnil by done.
    simpl in Hnil. lia. }
  destruct (wf_fits df temp spectrum) as [Hlen Hfits]; [done..|].
  eexists _, _, (prepared df spectrum), spectrum.
  split; [by eapply prepare_data_run|].
  split; [apply prepared_lookup|].
  split; [apply wf_assign; [by apply wf_iloc_from | simpl; by rewrite length_fmap]|].
  split; [apply nrows_iloc_from|].
  split; [done|].
  split; [|split; [done|split; [done|apply lookup_col_set_eq]]].
  intros name c Hname Hc. unfold prepared, assign. simpl.
  rewrite lookup_col_set_ne by done. by rewrite lookup_col_lift, Hc.
Qed.

(** C2, as the code has it. [prepare_data] checks neither the length of the
    temperature sequence nor that its values are finite. With the required
    columns and a numeric temperature column, whatever the values, it
    returns n - 1 rows (none when n = 1); it fails only when the transform
    itself raises, which the transform does on an empty sequence only, and
    then the transform's exception propagates. *)
Theorem prepare_data_length_unchecked w input df temp :
  heap w !! input = Some df →
  wf_frame df →
  lookup_col "TEMP" (frame_data df) = Some temp →
  is_numeric_dtype temp = true →
  "HOUR_OF_DAY" ∈ columns df →
  match fft (to_numpy temp) with
  | Ret spectrum =>
      ∃ out w' result,
        prepare_data input w = (Ret out, w') ∧
        heap w' !! out = Some result ∧
        nrows result = nrows df - 1
  | Raise e =>
      nrows df = 0 ∧ prepare_data input w = (Raise (External e), push df w)
  end.
Proof.
  intros Hin Hwf Htemp Hnum Hhour.
  assert (Habs : absent df required_columns = []).
  { apply required_absent_nil. split; [by eapply lookup_col_columns | done]. }
  destruct (fft (to_numpy temp)) as [spectrum|e] eqn:Hfft.
  - destruct (wf_fits df temp spectrum) as [Hlen Hfits]; [done..|].
    eexists _, _, (prepared df spectrum).
    split; [by eapply prepare_data_run|].
    split; [apply prepared_lookup | apply nrows_iloc_from].
  - split; [|by eapply prepare_data_fft_raises].
    destruct (decide (to_numpy temp = [])) as [Hnil|Hne].
    + apply (f_equal length) in Hnil.
      by rewrite to_numpy_length, (wf_frame_lookup df "TEMP") in Hnil.
    + apply fft_nonempty in Hne as [ys Hys]. congruence.
Qed.

(** C4. An input that lacks the temperature field or the hour-of-day field:
    [prepare_data] raises the missing-columns error (the spec's SchemaError),
    whose message lists exactly the required fields that are missing, each
    by its name; the world is left as it was. *)
Theorem prepare_data_missing_fields w input df :
  heap w !! input = Some df →
  "TEMP" ∉ columns df ∨ "HOUR_OF_DAY" ∉ columns df →
  ∃ missing,
    prepare_data input w = (Raise (missing_columns_error missing), w) ∧
    (∀ f, f ∈ missing ↔ f ∈ required_columns ∧ f ∉ columns df) ∧
    (∀ f, f ∈ missing → mentions (message (missing_columns_error missing)) (quote f)) ∧
    ("TEMP" ∉ columns df → mentions (message (missing_columns_error missing)) "TEMP").
Proof.
  intros Hin Hmiss. exists (set_order (absent df required_columns)).
  assert (Hmem : ∀ f, f ∈ set_order (absent df required_columns)
                      ↔ f ∈ required_columns ∧ f ∉ columns df).
  { intros f. rewrite set_order_perm. unfold absent. rewrite list_elem_of_filter. tauto. }
  assert (Hmentions : ∀ f, f ∈ set_order (absent df required_columns) →
            mentions (message (missing_columns_error (set_order (absent df required_columns))))
                     (quote f)).
  { intros f Hf. simpl. by apply mentions_prefix, set_repr_mentions. }
  split; [|split; [done|split; [done|]]].
  - apply prepare_data_missing; [done|]. intros Habs.
    apply required_absent_nil in Habs. tauto.
  - intros Htemp. eapply mentions_trans; [|apply quote_mentions].
    apply Hmentions, Hmem. split; [by left | done].
Qed.

(** C5, as the code has it. An input that has both required fields and
    whose temperature column is not numeric: [prepare_data] raises the
    not-numeric error (the spec's TypeError; a Python ValueError) and leaves
    the world as it was. *)
Theorem prepare_data_rejects_non_numeric w input df temp :
  heap w !! input = Some df →
  lookup_col "TEMP" (frame_data df) = Some temp →
  is_numeric_dtype temp = false →
  "HOUR_OF_DAY" ∈ columns df →
  prepare_data input w = (Raise not_numeric_error, w).
Proof.
  intros Hin Htemp Hnum Hhour. eapply prepare_data_not_numeric; [done| |done..].
  apply required_absent_nil. split; [by eapply lookup_col_columns | done].
Qed.

(** C6. Whatever the input and whether or not it fails, [prepare_data]
    changes no object that exists when it is called, the caller's frame
    among them, and no attribute of [self]; the frame it returns is a new
    object. *)
Theorem prepare_data_leaves_input w input :
  extends w (prepare_data input w).2 ∧
  ∀ out, (prepare_data input w).1 = Ret out →
    heap w !! out = None ∧ is_Some (heap (prepare_data input w).2 !! out).
Proof.
  destruct (heap w !! input) as [df|] eqn:Hin.
  2:{ rewrite prepare_data_dangling by done. split; [apply extends_refl | done]. }
  destruct (decide (absent df required_columns = [])) as [Habs|Habs].
  2:{ erewrite prepare_data_missing by done. split; [apply extends_refl | done]. }
  destruct (required_present df Habs) as [temp Htemp].
  destruct (is_numeric_dtype temp) eqn:Hnum.
  2:{ erewrite prepare_data_not_numeric by done. split; [apply extends_refl | done]. }
  destruct (fft (to_numpy temp)) as [spectrum|e] eqn:Hfft.
  2:{ erewrite prepare_data_fft_raises by done.
      split; [apply extends_push, extends_refl | done]. }
  destruct (decide (length (List.skipn 1 spectrum) = nrows (iloc_from 1 df)))
    as [Hfits|Hfits].
  - erewrite prepare_data_run by done. simpl fst. simpl snd.
    split; [do 3 apply extends_push; apply extends_refl|].
    intros out [= <-]. split.
    + apply lookup_ge_None. lia.
    + rewrite prepared_lookup. by eexists.
  - destruct (prepare_data_mismatch w input df temp spectrum) as [msg ->]; [done..|].
    split; [do 3 apply extends_push; apply extends_refl | done].
Qed.

End Claims.

Section Predict.
Context `{L : Library}.

Lemma prepare_data_inv w input p w1 :
  prepare_data input w = (Ret p, w1) →
  ∃ df temp spectrum,
    heap w !! input = Some df ∧
    absent df required_columns = [] ∧
    lookup_col "TEMP" (frame_data df) = Some temp ∧
    is_numeric_dtype temp = true ∧
    fft (to_numpy temp) = Ret spectrum ∧
    fits df spectrum ∧
    p = length (heap w) + 2 ∧
    w1 = push (prepared df spectrum) (push (iloc_from 1 df) (push df w)).
Proof.
  destruct (heap w !! input) as [df|] eqn:Hin.
  2:{ by rewrite prepare_data_dangling. }
  destruct (decide (absent df required_columns = [])) as [Habs|Habs].
  2:{ by erewrite prepare_data_missing. }
  destruct (required_present df Habs) as [temp Htemp].
  destruct (is_numeric_dtype temp) eqn:Hnum.
  2:{ by erewrite prepare_data_not_numeric. }
  destruct (fft (to_numpy temp)) as [spectrum|e] eqn:Hfft.
  2:{ by erewrite prepare_data_fft_raises. }
  destruct (decide (length (List.skipn 1 spectrum) = nrows (iloc_from 1 df)))
    as [Hfits|Hfits].
  - erewrite prepare_data_run by done. intros [= <- <-]. by exists df, temp, spectrum.
  - destruct (prepare_data_mismatch w input df temp spectrum) as [msg ->]; done.
Qed.

Lemma update_push r df x w :
  r < length (heap w) → update r x (push df w) = push df (update r x w).
Proof.
  intros Hr. unfold update, push. simpl. f_equal. by rewrite insert_app_l.
Qed.

Lemma trained_world_lookup w df P' X1 m :
  heap (trained_world w df P' X1 m) !! (length (heap w) + 2) = Some P'.
Proof.
  unfold trained_world, with_self. cbn [heap]. apply heap_push_old, prepared_lookup.
Qed.

Lemma trained_world_length w df P' X1 m :
  length (heap (trained_world w df P' X1 m)) = length (heap w) + 4.
Proof.
  unfold trained_world, with_self. cbn [heap]. rewrite !heap_push_length. lia.
Qed.

Lemma predict_inv w input out w' :
  predict input w = (Ret out, w') →
  ∃ df temp spectrum y m predicted,
    let P := prepared df spectrum in
    let P' := assign "PREDICTED_TEMP" (Float64Col predicted) P in
    prepare_data input w =
      (Ret (length (heap w) + 2), push P (push (iloc_from 1 df) (push df w))) ∧
    heap w !! input = Some df ∧
    lookup_col "TEMP" (frame_data df) = Some temp ∧
    fft (to_numpy temp) = Ret spectrum ∧
    absent P ["TEMP"; "DATE"] = [] ∧
    lookup_col "TEMP" (frame_data P) = Some y ∧
    xgb_fit xgb_params (feature_matrix P) y = Ret m ∧
    xgb_predict m (feature_matrix P) = Ret predicted ∧
    absent P' output_columns = [] ∧
    out = length (heap w) + 4 ∧
    w' = push (only output_columns P') (trained_world w df P' (feature_matrix P) m).
Proof.
  unfold predict. intros (p & w1 & Hprep & H)%bind_ret_inv.
  destruct (prepare_data_inv _ _ _ _ Hprep)
    as (df & temp & spectrum & Hin & Habs & Htemp & Hnum & Hfft & Hfits & Hp & Hw1).
  subst p w1. set (P := prepared df spectrum) in *.
  set (w1 := push P (push (iloc_from 1 df) (push df w))) in *.
  assert (HP : heap w1 !! (length (heap w) + 2) = Some P) by apply prepared_lookup.
  apply bind_ret_inv in H as (xr & w2 & (P0 & HP0 & HabsX & -> & ->)%drop_inv & H).
  rewrite HP in HP0. injection HP0 as <-.
  apply bind_ret_inv in H as (y & w3 & (P0 & HP0' & Hy & ->)%getitem_inv & H).
  rewrite (heap_push_old _ _ _ _ HP) in HP0'. injection HP0' as <-.
  apply bind_ret_inv in H as (X0 & w3 & [HX0 ->]%deref_inv & H).
  rewrite heap_push_new in HX0. injection HX0 as <-.
  apply bind_ret_inv in H as ([] & w3 & Hloc & H).
  assert (w3 = push (feature_matrix P) w1) as ->.
  { unfold feature_matrix. case_decide as Hin_loc.
    - apply bind_ret_inv in Hloc as (loc & w4 & (X0 & HX0 & Hl & ->)%getitem_inv & Hset).
      rewrite heap_push_new in HX0. injection HX0 as <-.
      apply setitem_inv in Hset as (X0 & HX0 & _ & ->).
      rewrite heap_push_new in HX0. injection HX0 as <-.
      rewrite Hl. apply update_last.
    - injection Hloc as <-. apply lookup_col_None in Hin_loc. by rewrite Hin_loc. }
  apply bind_ret_inv in H as (X1 & w4 & [HX1 ->]%deref_inv & H).
  rewrite heap_push_new in HX1. injection HX1 as <-.
  apply bind_ret_inv in H as (m & w4 & [Hfit ->]%call_inv & H).
  apply bind_ret_inv in H as (predicted & w4 & [Hpred ->]%call_inv & H).
  apply bind_ret_inv in H as ([] & w4 & (P0 & HP0' & Hlen & ->)%setitem_inv & H).
  rewrite (heap_push_old _ _ _ _ HP) in HP0'. injection HP0' as <-.
  apply bind_ret_inv in H as (a1 & w4 & [= <- <-] & H).
  apply bind_ret_inv in H as ([] & w4 & [= <-] & H).
  apply bind_ret_inv in H as (a2 & w4 & [= <- <-] & H).
  apply bind_ret_inv in H as ([] & w4 & [= <-] & H).
  apply select_inv in H as (P1 & HP1 & HabsO & -> & ->).
  match type of HP1 with heap ?W !! _ = _ =>
    assert (W = trained_world w df (assign "PREDICTED_TEMP" (Float64Col predicted) P)
                  (feature_matrix P) m) as Hw
  end.
  { unfold trained_world, with_self. cbn [heap self].
    rewrite update_push by (subst w1; rewrite !heap_push_length; lia).
    subst w1. rewrite !length_app. cbn [length].
    replace (length (heap w) + 2)
      with (length (heap (push (iloc_from 1 df) (push df w))))
      by (rewrite !heap_push_length; lia).
    rewrite update_last. do 3 f_equal. lia. }
  rewrite Hw in HP1 |- *. rewrite trained_world_lookup in HP1. injection HP1 as <-.
  exists df, temp, spectrum, y, m, predicted. cbv zeta. fold P.
  split; [done|]. do 8 (split; [done|]). split; [|done].
  apply trained_world_length.
Qed.

End Predict.

Section PredictClaims.
Context `{L : Library}.

Lemma lookup_col_only k (keys : list string) data :
  lookup_col k (omap (λ k, pair k <$> lookup_col k data) keys)
  = if decide (k ∈ keys) then lookup_col k data else None.
Proof.
  induction keys as [|k0 keys IH]; [done|]. cbn [omap list_omap].
  destruct (lookup_col k0 data) as [c0|] eqn:Hk0; cbn [fmap option_fmap option_map].
  - cbn [lookup_col]. destruct (decide (k0 = k)) as [->|Hne].
    + by rewrite decide_True by left.
    + rewrite IH. destruct (decide (k ∈ keys)) as [Hin|Hin].
      * by rewrite decide_True by by right.
      * rewrite decide_False; [done|]. by intros [->|]%elem_of_cons.
  - rewrite IH. destruct (decide (k ∈ keys)) as [Hin|Hin].
    + by rewrite decide_True by by right.
    + destruct (decide (k ∈ k0 :: keys)) as [[->|]%elem_of_cons|]; done.
Qed.

Lemma columns_only (keys : list string) df :
  absent df keys = [] → columns (only keys df) = keys.
Proof.
  rewrite absent_nil. unfold columns, only. cbn [frame_data].
  induction keys as [|k keys IH]; intros Hall; [done|]. cbn [omap list_omap].
  destruct (lookup_col_is_Some k (frame_data df)) as [_ [c ->]].
  { apply Hall. by left. }
  cbn. f_equal. apply IH. intros l ?. apply Hall. by right.
Qed.

Lemma columns_assign_present name c df :
  name ∈ columns df → columns (assign name c df) = columns df.
Proof.
  unfold columns, assign. cbn [frame_data].
  induction (frame_data df) as [|[n c0] data IH]; [by intros ?%elem_of_nil|].
  cbn. case_decide as Hn; [done|]. intros [?|?]%elem_of_cons; [done|].
  cbn. f_equal. by apply IH.
Qed.

Lemma index_feature_matrix P : index (feature_matrix P) = index P.
Proof. unfold feature_matrix. cbv zeta. by case_match. Qed.

Lemma columns_feature_matrix P :
  columns (feature_matrix P) = filter (λ c, c ∉ ["TEMP"; "DATE"]) (columns P).
Proof.
  unfold feature_matrix. cbv zeta. rewrite <- columns_without.
  case_match eqn:Hloc; [|done].
  apply columns_assign_present. apply lookup_col_is_Some. by eexists.
Qed.

Lemma lookup_location_feature_matrix P :
  lookup_col "LOCATION" (frame_data (feature_matrix P))
  = astype_category <$> lookup_col "LOCATION" (frame_data P).
Proof.
  unfold feature_matrix. cbv zeta.
  assert (Hl : lookup_col "LOCATION" (frame_data (without ["TEMP"; "DATE"] P))
               = lookup_col "LOCATION" (frame_data P)).
  { apply lookup_col_without. by intros [?|[?|?%elem_of_nil]%elem_of_cons]%elem_of_cons. }
  rewrite Hl. destruct (lookup_col "LOCATION" (frame_data P)) as [loc|] eqn:Hloc.
  - apply lookup_col_set_eq.
  - by rewrite Hl.
Qed.

Lemma lookup_other_feature_matrix P name :
  name ∉ ["TEMP"; "DATE"; "LOCATION"] →
  lookup_col name (frame_data (feature_matrix P)) = lookup_col name (frame_data P).
Proof.
  intros Hname. unfold feature_matrix. cbv zeta.
  assert (Hl : lookup_col name (frame_data (without ["TEMP"; "DATE"] P))
               = lookup_col name (frame_data P)).
  { apply lookup_col_without. intros [->|[->|?%elem_of_nil]%elem_of_cons]%elem_of_cons;
      [apply Hname; by left | apply Hname; by right; left | done]. }
  case_match; [|done]. cbn [assign frame_data]. rewrite lookup_col_set_ne; [done|].
  intros <-. apply Hname. by do 2 right; left.
Qed.

(** C9. A [predict] call that returns: the frame it returns has exactly the
    columns DATE, LOCATION, HOUR_OF_DAY, TEMP and PREDICTED_TEMP, with the
    rows of the prepared frame in their order, the first four columns as in
    the prepared frame and the predictions of the new model in the fifth;
    [self] now holds the model fitted in this call and a reference to the
    very frame it was fitted on; that frame has the prepared rows, all
    columns of the prepared frame except TEMP and DATE, and its LOCATION
    column is categorical. *)
Theorem predict_returns_and_retains w input out w' :
  predict input w = (Ret out, w') →
  ∃ p w1 P result y Xr Xdf m predicted,
    prepare_data input w = (Ret p, w1) ∧
    heap w1 !! p = Some P ∧
    heap w' !! out = Some result ∧
    columns result = ["DATE"; "LOCATION"; "HOUR_OF_DAY"; "TEMP"; "PREDICTED_TEMP"] ∧
    index result = index P ∧
    (∀ name, name ∈ ["DATE"; "LOCATION"; "HOUR_OF_DAY"; "TEMP"] →
       lookup_col name (frame_data result) = lookup_col name (frame_data P)) ∧
    lookup_col "PREDICTED_TEMP" (frame_data result) = Some (Float64Col predicted) ∧
    self w' = {| xgb_model := Some m; X := Some Xr |} ∧
    heap w' !! Xr = Some Xdf ∧
    lookup_col "TEMP" (frame_data P) = Some y ∧
    xgb_fit xgb_params Xdf y = Ret m ∧
    xgb_predict m Xdf = Ret predicted ∧
    index Xdf = index P ∧
    columns Xdf = filter (λ c, c ∉ ["TEMP"; "DATE"]) (columns P) ∧
    (∀ name, name ∉ ["TEMP"; "DATE"; "LOCATION"] →
       lookup_col name (frame_data Xdf) = lookup_col name (frame_data P)) ∧
    ∃ location,
      lookup_col "LOCATION" (frame_data P) = Some location ∧
      lookup_col "LOCATION" (frame_data Xdf) = Some (astype_category location).
Proof.
  intros (df & temp & spectrum & y & m & predicted & Hprep & Hin & Htemp & Hfft
          & HabsX & Hy & Hfit & Hpred & HabsO & -> & ->)%predict_inv.
  set (P := prepared df spectrum) in *.
  set (P' := assign "PREDICTED_TEMP" (Float64Col predicted) P) in *.
  exists (length (heap w) + 2), (push P (push (iloc_from 1 df) (push df w))), P,
    (only output_columns P'), y, (length (heap w) + 3), (feature_matrix P), m, predicted.
  split; [done|]. split; [apply prepared_lookup|].
  split.
  { rewrite <- (trained_world_length w df P' (feature_matrix P) m). apply heap_push_new. }
  split; [by apply columns_only|]. split; [done|].
  split.
  { intros name Hname. cbn [only frame_data]. rewrite lookup_col_only.
    rewrite decide_True.
    - subst P'. cbn [assign frame_data]. apply lookup_col_set_ne.
      intros <-. revert Hname. by rewrite !elem_of_cons, elem_of_nil; intros [?|[?|[?|[?|[]]]]].
    - unfold output_columns. revert Hname. rewrite !elem_of_cons. tauto. }
  split.
  { cbn [only frame_data]. rewrite lookup_col_only, decide_True.
    - apply lookup_col_set_eq.
    - unfold output_columns. rewrite !elem_of_cons. tauto. }
  split; [done|].
  split.
  { apply heap_push_old. unfold trained_world, with_self. cbn [heap].
    replace (length (heap w) + 3)
      with (length (heap (push P' (push (iloc_from 1 df) (push df w)))))
      by (rewrite !heap_push_length; lia).
    apply heap_push_new. }
  do 3 (split; [done|]).
  split; [apply index_feature_matrix|].
  split; [apply columns_feature_matrix|].
  split; [apply lookup_other_feature_matrix|].
  rewrite lookup_location_feature_matrix.
  destruct (lookup_col "LOCATION" (frame_data P)) as [location|] eqn:Hloc; [by eexists|].
  exfalso. rewrite absent_nil in HabsO.
  assert (Hmem : "LOCATION" ∈ columns P').
  { apply HabsO. unfold output_columns. rewrite !elem_of_cons. tauto. }
  apply elem_of_columns_assign in Hmem as [?|Hmem]; [done|].
  apply lookup_col_is_Some in Hmem as [c Hc]. congruence.
Qed.

End PredictClaims.

Section PredictFails.
Context `{L : Library}.

Lemma absent_cons df l (ls : list string) :
  absent df (l :: ls) = if decide (l ∈ columns df) then absent df ls else l :: absent df ls.
Proof.
  unfold absent. rewrite filter_cons.
  destruct (decide (l ∈ columns df)) as [Hin|Hin].
  - rewrite decide_False; [done|]. by intros Hn.
  - by rewrite decide_True.
Qed.

Lemma drop_raises w r df labels :
  heap w !! r = Some df → absent df labels ≠ [] →
  drop r labels w = (Raise (KeyError (list_repr (absent df labels) +:+ " not found in axis")), w).
Proof.
  intros Hr Habs. unfold drop. run (by apply deref_ok). by rewrite decide_False.
Qed.

Lemma select_raises w r df keys :
  heap w !! r = Some df → absent df keys ≠ [] → absent df keys ≠ keys →
  select r keys w = (Raise (KeyError (list_repr (absent df keys) +:+ " not in index")), w).
Proof.
  intros Hr Habs Hsome. unfold select. run (by apply deref_ok).
  by rewrite !decide_False.
Qed.

Lemma elem_of_columns_prepared df spectrum x :
  x ∈ columns (prepared df spectrum) ↔ x = "TEMP_FFT" ∨ x ∈ columns df.
Proof. unfold prepared. by rewrite elem_of_columns_assign, columns_iloc_from. Qed.

Lemma lookup_col_prepared df spectrum name :
  name ≠ "TEMP_FFT" →
  lookup_col name (frame_data (prepared df spectrum))
  = col_lift (λ A, List.skipn 1) <$> lookup_col name (frame_data df).
Proof.
  intros Hname. unfold prepared, assign. cbn [frame_data iloc_from frame_lift].
  rewrite lookup_col_set_ne by done. apply lookup_col_lift.
Qed.

Lemma predict_without_date w input df temp spectrum :
  heap w !! input = Some df →
  wf_frame df →
  lookup_col "TEMP" (frame_data df) = Some temp →
  is_numeric_dtype temp = true →
  "HOUR_OF_DAY" ∈ columns df →
  fft (to_numpy temp) = Ret spectrum →
  "DATE" ∉ columns df →
  predict input w =
    (Raise (KeyError "['DATE'] not found in axis"), prepared_world w df spectrum).
Proof.
  intros Hin Hwf Htemp Hnum Hhour Hfft Hdate.
  assert (Habs : absent df required_columns = []).
  { apply required_absent_nil. split; [by eapply lookup_col_columns | done]. }
  destruct (wf_fits df temp spectrum) as [Hlen Hfits]; [done..|].
  unfold predict. run (by eapply prepare_data_run).
  apply bind_raise. erewrite drop_raises; [|apply prepared_lookup|].
  - rewrite absent_cons, decide_True, absent_cons, decide_False; [done| |].
    + rewrite elem_of_columns_prepared. by intros [|].
    + rewrite elem_of_columns_prepared. right. by eapply lookup_col_columns.
  - rewrite absent_cons, decide_True, absent_cons, decide_False; [done| |].
    + rewrite elem_of_columns_prepared. by intros [|].
    + rewrite elem_of_columns_prepared. right. by eapply lookup_col_columns.
Qed.

Lemma feature_matrix_without_location P :
  "LOCATION" ∉ columns P → feature_matrix P = without ["TEMP"; "DATE"] P.
Proof.
  intros Hloc. unfold feature_matrix. cbv zeta. case_match eqn:Hl; [|done].
  destruct Hloc. apply lookup_col_columns in Hl.
  rewrite columns_without in Hl. by apply list_elem_of_filter in Hl as [_ ?].
Qed.

Lemma predict_without_location w input df temp spectrum :
  heap w !! input = Some df →
  wf_frame df →
  lookup_col "TEMP" (frame_data df) = Some temp →
  is_numeric_dtype temp = true →
  "HOUR_OF_DAY" ∈ columns df →
  fft (to_numpy temp) = Ret spectrum →
  "DATE" ∈ columns df →
  "LOCATION" ∉ columns df →
  let P := prepared df spectrum in
  let Xdf := feature_matrix P in
  let y := col_lift (λ A, List.skipn 1) temp in
  predict input w =
    match xgb_fit xgb_params Xdf y with
    | Raise e => (Raise (External e), push Xdf (prepared_world w df spectrum))
    | Ret m =>
        match xgb_predict m Xdf with
        | Raise e => (Raise (External e), push Xdf (prepared_world w df spectrum))
        | Ret predicted =>
            (Raise (KeyError "['LOCATION'] not in index"),
             trained_world w df (assign "PREDICTED_TEMP" (Float64Col predicted) P) Xdf m)
        end
    end.
Proof.
  intros Hin Hwf Htemp Hnum Hhour Hfft Hdate Hloc P Xdf y.
  assert (Habs : absent df required_columns = []).
  { apply required_absent_nil. split; [by eapply lookup_col_columns | done]. }
  destruct (wf_fits df temp spectrum) as [Hlen Hfits]; [done..|].
  assert (HlocP : "LOCATION" ∉ columns P).
  { subst P. rewrite elem_of_columns_prepared. by intros [|]. }
  assert (HX : Xdf = without ["TEMP"; "DATE"] P) by by apply feature_matrix_without_location.
  unfold predict. run (by eapply prepare_data_run).
  fold P. fold (prepared_world w df spectrum).
  assert (HP : heap (prepared_world w df spectrum) !! (length (heap w) + 2) = Some P)
    by apply prepared_lookup.
  assert (HabsX : absent P ["TEMP"; "DATE"] = []).
  { rewrite absent_cons, decide_True, absent_cons, decide_True; [done| |];
      subst P; rewrite elem_of_columns_prepared; right; [done|by eapply lookup_col_columns]. }
  assert (Hy : lookup_col "TEMP" (frame_data P) = Some y).
  { subst P. rewrite lookup_col_prepared by done. by rewrite Htemp. }
  run (by apply drop_ok).
  rewrite <- HX.
  run (eapply getitem_ok; [by apply heap_push_old|done]).
  run (apply deref_ok, heap_push_new).
  rewrite decide_False.
  2:{ rewrite HX, columns_without. by intros [_ ?]%list_elem_of_filter. }
  run (reflexivity).
  run (apply deref_ok, heap_push_new).
  fold y. destruct (xgb_fit xgb_params Xdf y) as [m|e] eqn:Hfit.
  2:{ apply bind_raise. by apply call_raise. }
  run (by apply call_ok).
  destruct (xgb_predict m Xdf) as [predicted|e] eqn:Hpred.
  2:{ apply bind_raise. by apply call_raise. }
  run (by apply call_ok).
  assert (Hrows : col_length (Float64Col predicted) = nrows P).
  { apply xgb_predict_length in Hpred. cbn [col_length]. rewrite Hpred.
    unfold nrows. by rewrite HX. }
  run (apply setitem_ok; [by apply heap_push_old|done]).
  run (reflexivity). run (reflexivity). run (reflexivity). run (reflexivity).
  set (P' := assign "PREDICTED_TEMP" (Float64Col predicted) P).
  match goal with |- select _ _ ?W = _ =>
    assert (W = trained_world w df P' Xdf m) as ->
  end.
  { unfold trained_world, with_self, prepared_world. cbn [heap self].
    rewrite update_push by (rewrite !heap_push_length; lia).
    replace (length (heap w) + 2)
      with (length (heap (push (iloc_from 1 df) (push df w))))
      by (rewrite !heap_push_length; lia).
    rewrite update_last, !heap_push_length. do 3 f_equal. lia. }
  assert (HabsO : absent P' output_columns = ["LOCATION"]).
  { unfold output_columns.
    rewrite absent_cons, decide_True, absent_cons, decide_False, absent_cons, decide_True,
      absent_cons, decide_True, absent_cons, decide_True; [done|..];
      subst P' P; rewrite elem_of_columns_assign, elem_of_columns_prepared.
    - by left.
    - do 2 right. by eapply lookup_col_columns.
    - by do 2 right.
    - by intros [|[|]].
    - by do 2 right. }
  erewrite select_raises; [|apply trained_world_lookup|..]; fold output_columns;
    rewrite HabsO; done.
Qed.

(** C10. [predict] needs more than [prepare_data] does. On an input that
    [prepare_data] accepts (required columns, numeric temperatures, a
    transform that returns):
    - without a DATE column, [predict] raises the KeyError of
      [drop(columns=['TEMP', 'DATE'])], before any model is fitted;
    - with a DATE column but without a LOCATION column, [predict] never
      returns: unless XGBoost itself raises while fitting or predicting, it
      raises the KeyError of the final column selection. *)
Theorem predict_needs_date_and_location w input df temp spectrum :
  heap w !! input = Some df →
  wf_frame df →
  lookup_col "TEMP" (frame_data df) = Some temp →
  is_numeric_dtype temp = true →
  "HOUR_OF_DAY" ∈ columns df →
  fft (to_numpy temp) = Ret spectrum →
  ("DATE" ∉ columns df →
     ∃ w', predict input w = (Raise (KeyError "['DATE'] not found in axis"), w')
           ∧ self w' = self w) ∧
  ("DATE" ∈ columns df → "LOCATION" ∉ columns df →
     ∃ e w', predict input w = (Raise e, w') ∧
       (is_external e = false → e = KeyError "['LOCATION'] not in index") ∧
       (∀ m predicted,
          xgb_fit xgb_params (feature_matrix (prepared df spectrum))
            (col_lift (λ A, List.skipn 1) temp) = Ret m →
          xgb_predict m (feature_matrix (prepared df spectrum)) = Ret predicted →
          e = KeyError "['LOCATION'] not in index")).
Proof.
  intros Hin Hwf Htemp Hnum Hhour Hfft. split.
  - intros Hdate. eexists. split; [by eapply predict_without_date | done].
  - intros Hdate Hloc.
    rewrite (predict_without_location w input df temp spectrum) by done. cbv zeta.
    destruct (xgb_fit _ _ _) as [m|e]; [|eexists _, _; split; [done|]; split; [done|]; done].
    destruct (xgb_predict _ _) as [predicted|e] eqn:Hpred.
    + eexists _, _. split; [done|]. split; done.
    + eexists _, _. split; [done|]. split; [done|]. intros m' p' [= <-]. congruence.
Qed.

End PredictFails.

Section Attribution.
Context `{L : Library}.

Lemma calculate_untrained w :
  xgb_model (self w) = None →
  calculate_global_shap w = (Raise not_trained_error, w).
Proof.
  intros Hm. unfold calculate_global_shap. run (reflexivity). by rewrite Hm.
Qed.

Lemma calculate_no_X w m :
  xgb_model (self w) = Some m → X (self w) = None →
  ∃ msg, calculate_global_shap w = (Raise (AttributeError msg), w).
Proof.
  intros Hm HX. unfold calculate_global_shap. run (reflexivity). rewrite Hm, HX. by eexists.
Qed.

Lemma calculate_dangling w m xr :
  xgb_model (self w) = Some m → X (self w) = Some xr → heap w !! xr = None →
  calculate_global_shap w = (Raise DanglingReference, w).
Proof.
  intros Hm HX Hxr. unfold calculate_global_shap. run (reflexivity). rewrite Hm, HX.
  apply bind_raise. by apply deref_dangling.
Qed.

Lemma calculate_explainer_raises w m xr Xdf e :
  xgb_model (self w) = Some m → X (self w) = Some xr → heap w !! xr = Some Xdf →
  shap_values m Xdf = Raise e →
  calculate_global_shap w = (Raise (External e), w).
Proof.
  intros Hm HX Hxr Hshap. unfold calculate_global_shap. run (reflexivity). rewrite Hm, HX.
  run (by apply deref_ok). apply bind_raise. by apply call_raise.
Qed.

Lemma calculate_run w m xr Xdf values :
  xgb_model (self w) = Some m → X (self w) = Some xr → heap w !! xr = Some Xdf →
  shap_values m Xdf = Ret values →
  calculate_global_shap w =
    (Ret (length (heap w) + 1),
     push (sorted_importance Xdf values) (push (feature_importance Xdf values) w)).
Proof.
  intros Hm HX Hxr Hshap. unfold calculate_global_shap. run (reflexivity). rewrite Hm, HX.
  run (by apply deref_ok). run (by apply call_ok).
  apply shap_values_shape in Hshap as [Hcols _].
  assert (Hnew : new_frame [("FEATURE", ObjectCol (PyStr <$> columns Xdf));
                            ("GLOBAL_SHAP", Float64Col (global_scores values))] w
                 = (Ret (length (heap w)), push (feature_importance Xdf values) w)).
  { unfold new_frame. rewrite decide_True.
    - unfold alloc, feature_importance. cbn [col_length]. by rewrite length_fmap.
    - repeat constructor. cbn. unfold global_scores. by rewrite !length_fmap. }
  run (exact Hnew).
  unfold sort_values_desc.
  run (apply deref_ok, heap_push_new).
  run (by eapply getitem_ok; [apply heap_push_new|]).
  unfold alloc. rewrite heap_push_length. do 2 f_equal. lia.
Qed.

(** Every outcome of [calculate_global_shap]. *)
Lemma calculate_cases w :
  (∃ e, calculate_global_shap w = (Raise e, w) ∧
        (e = not_trained_error ↔ xgb_model (self w) = None)) ∨
  (∃ m xr Xdf values,
     xgb_model (self w) = Some m ∧ X (self w) = Some xr ∧ heap w !! xr = Some Xdf ∧
     shap_values m Xdf = Ret values ∧
     calculate_global_shap w =
       (Ret (length (heap w) + 1),
        push (sorted_importance Xdf values) (push (feature_importance Xdf values) w))).
Proof.
  destruct (xgb_model (self w)) as [m|] eqn:Hm.
  2:{ left. eexists. split; [by apply calculate_untrained | done]. }
  destruct (X (self w)) as [xr|] eqn:HX.
  2:{ left. destruct (calculate_no_X w m Hm HX) as [msg ->]. eexists. split; [done|].
      split; done. }
  destruct (heap w !! xr) as [Xdf|] eqn:Hxr.
  2:{ left. rewrite (calculate_dangling w m xr) by done.
      eexists. split; [done|]. split; done. }
  destruct (shap_values m Xdf) as [values|e] eqn:Hshap.
  - right. exists m, xr, Xdf, values. do 4 (split; [done|]). by apply (calculate_run w m xr).
  - left. rewrite (calculate_explainer_raises w m xr Xdf e) by done.
    eexists. split; [done|]. split; done.
Qed.

(** The guard of [calculate_global_shap]. It raises the not-trained error
    (the spec's NotTrainedError) exactly when no model has been stored in
    [self]: it raises it on a new instance, and does not raise it after a
    [predict] call that returned. *)
Theorem not_trained_iff_no_model :
  (∀ w, (calculate_global_shap w).1 = Raise not_trained_error
        ↔ xgb_model (self w) = None) ∧
  (∀ w, self w = untrained →
        calculate_global_shap w = (Raise not_trained_error, w)) ∧
  (∀ w input out w', predict input w = (Ret out, w') →
        is_Some (xgb_model (self w')) ∧
        (calculate_global_shap w').1 ≠ Raise not_trained_error).
Proof.
  assert (Hiff : ∀ w, (calculate_global_shap w).1 = Raise not_trained_error
                      ↔ xgb_model (self w) = None).
  { intros w. destruct (calculate_cases w) as [(e & -> & He)|(m & xr & Xdf & vs & Hm & _ & _ & _ & ->)].
    - cbn [fst]. rewrite <- He. split; [by intros [= ->] | by intros ->].
    - cbn [fst]. rewrite Hm. split; done. }
  split; [done|]. split.
  - intros w Hw. apply calculate_untrained. by rewrite Hw.
  - intros w input out w' (df & temp & spectrum & y & m & predicted & _ & _ & _ & _
          & _ & _ & _ & _ & _ & _ & ->)%predict_inv.
    assert (Hm : xgb_model (self (push (only output_columns
                   (assign "PREDICTED_TEMP" (Float64Col predicted) (prepared df spectrum)))
                   (trained_world w df
                      (assign "PREDICTED_TEMP" (Float64Col predicted) (prepared df spectrum))
                      (feature_matrix (prepared df spectrum)) m))) = Some m) by done.
    split; [by rewrite Hm|]. rewrite Hiff, Hm. done.
Qed.

End Attribution.

Section Report.
Context `{L : Library}.

Lemma omap_lookup_shift {A} (x : A) (l : list A) (js : list nat) :
  omap (λ i, (x :: l) !! i) (S <$> js) = omap (λ i, l !! i) js.
Proof. induction js as [|j js IH]; [done|]. cbn. by rewrite IH. Qed.

Lemma omap_lookup_all {A} (l : list A) :
  omap (λ i, l !! i) (seq 0 (length l)) = l.
Proof.
  induction l as [|x l IH]; [done|]. cbn [length seq omap list_omap].
  cbn [lookup list_lookup]. rewrite <- fmap_S_seq, omap_lookup_shift, IH. done.
Qed.

Lemma zip_omap_lookup {A B} (f : list A) (g : list B) (js : list nat) :
  length f = length g →
  zip (omap (λ i, f !! i) js) (omap (λ i, g !! i) js) = omap (λ i, zip f g !! i) js.
Proof.
  intros Hlen. induction js as [|j js IH]; [done|]. cbn [omap list_omap].
  rewrite lookup_zip_with.
  destruct (f !! j) as [a|] eqn:Hf, (g !! j) as [b|] eqn:Hg; cbn; rewrite ?IH; try done.
  - apply lookup_lt_Some in Hf. apply lookup_ge_None in Hg. lia.
  - apply lookup_lt_Some in Hg. apply lookup_ge_None in Hf. lia.
Qed.

Lemma overflow_nonneg q : (0 <= q)%Q → nonneg (overflow q).
Proof.
  intros Hq. unfold overflow. destruct (Qle_bool overflow_threshold (Qabs q)); [|done].
  apply Qle_bool_iff in Hq. by rewrite Hq.
Qed.

Lemma fadd_nonneg a b : nonneg a → nonneg b → nonneg (fadd a b).
Proof.
  destruct a as [p|s|], b as [q|t|]; cbn; try done.
  - intros Hp Hq. apply overflow_nonneg.
    rewrite <- (Qplus_0_r 0). by apply Qplus_le_compat.
  - by intros -> ->.
Qed.

Lemma fabs_nonneg x : x ≠ NaN → nonneg (fabs x).
Proof. destruct x as [q|s|]; cbn; [intros _; apply Qabs_nonneg|done|done]. Qed.

Lemma np_sum_abs_nonneg v acc :
  nonneg acc → Forall (λ x, x ≠ NaN) v → nonneg (fold_left fadd (fabs <$> v) acc).
Proof.
  intros Hacc Hv. revert acc Hacc. induction Hv as [|x v Hx _ IH]; intros acc Hacc; [done|].
  cbn. apply IH. apply fadd_nonneg; [done|by apply fabs_nonneg].
Qed.

Lemma fdiv_count_nonneg x n : nonneg x → 1 ≤ n → nonneg (fdiv_count x n).
Proof.
  destruct x as [q|s|], n as [|n]; cbn; try done; try lia.
  intros Hq _. apply Qmult_le_0_compat; [done|]. apply Qinv_le_0_compat.
  rewrite <- (Zle_Qle 0). lia.
Qed.

(** The mean of the absolute values of a column of numbers is a number that
    is not negative (it is infinite when the sum overflows). *)
Lemma np_mean_abs_nonneg v :
  1 ≤ length v → Forall (λ x, x ≠ NaN) v → nonneg (np_mean (fabs <$> v)).
Proof.
  intros Hlen Hv. unfold np_mean, np_sum. apply fdiv_count_nonneg.
  - by apply np_sum_abs_nonneg.
  - by rewrite length_fmap.
Qed.

(** C7, as the code has it. In the Trained state, when the explainer
    returns, [calculate_global_shap] returns a frame with the columns FEATURE
    and GLOBAL_SHAP that pairs every feature column of the retained matrix
    with one score, the mean over the rows of the absolute attributions of
    that feature, hence every score is >= 0; the rows are sorted by score,
    non-increasing. Nothing is said about the order of features with equal
    scores: it is the one the default sort of [sort_values] leaves them
    in. *)
Theorem global_shap_report w m xr Xdf values :
  xgb_model (self w) = Some m →
  X (self w) = Some xr →
  heap w !! xr = Some Xdf →
  shap_values m Xdf = Ret values →
  ∃ out w' idx features scores,
    calculate_global_shap w = (Ret out, w') ∧
    heap w' !! out = Some {| index := idx;
                             frame_data := [("FEATURE", ObjectCol features);
                                            ("GLOBAL_SHAP", Float64Col scores)] |} ∧
    zip features scores
      ≡ₚ zip (PyStr <$> columns Xdf) ((λ v, np_mean (fabs <$> v)) <$> values) ∧
    length scores = length (columns Xdf) ∧
    (∀ i j a b, i < j → scores !! i = Some a → scores !! j = Some b → desc_le b a) ∧
    Forall nonneg scores.
Proof.
  intros Hm HX Hxr Hshap.
  pose proof (shap_values_shape _ _ _ Hshap) as [Hcols Hrows].
  pose proof (shap_values_rows _ _ _ Hshap) as Hn.
  pose proof (shap_values_numbers _ _ _ Hshap) as Hnum.
  set (gs := global_scores values).
  set (perm := argsort_desc gs).
  assert (Hgs : length gs = length (columns Xdf))
    by (subst gs; unfold global_scores; by rewrite length_fmap).
  assert (Hzip : zip (omap (λ i, (PyStr <$> columns Xdf) !! i) perm)
                     (omap (λ i, gs !! i) perm)
                 ≡ₚ zip (PyStr <$> columns Xdf) gs).
  { rewrite zip_omap_lookup by (by rewrite length_fmap).
    subst perm. rewrite argsort_desc_perm.
    replace (length gs) with (length (zip (PyStr <$> columns Xdf) gs))
      by (by rewrite length_zip_with, length_fmap, Hgs, Nat.min_id).
    by rewrite omap_lookup_all. }
  eexists (length (heap w) + 1), _, _,
    (omap (λ i, (PyStr <$> columns Xdf) !! i) perm), (omap (λ i, gs !! i) perm).
  split; [by apply (calculate_run w m xr)|].
  split.
  { replace (length (heap w) + 1)
      with (length (heap (push (feature_importance Xdf values) w)))
      by (rewrite heap_push_length; lia).
    rewrite heap_push_new. done. }
  split; [done|].
  split.
  { apply Permutation_length in Hzip. rewrite !length_zip_with in Hzip.
    rewrite length_fmap, Hgs, Nat.min_id in Hzip.
    assert (Hle : length (omap (λ i, gs !! i) perm)
                  = length (omap (λ i, (PyStr <$> columns Xdf) !! i) perm)).
    { clear Hzip. induction perm as [|j js IH]; [done|]. cbn [omap list_omap].
      rewrite list_lookup_fmap.
      destruct (gs !! j) as [a|] eqn:Hg, (columns Xdf !! j) as [b|] eqn:Hf; cbn;
        rewrite ?IH; try done.
      - apply lookup_lt_Some in Hg. apply lookup_ge_None in Hf. lia.
      - apply lookup_lt_Some in Hf. apply lookup_ge_None in Hg. lia. }
    lia. }
  split; [intros i j a b; apply argsort_desc_sorted|].
  apply Forall_forall. intros s (i & _ & Hs)%list_elem_of_omap.
  subst gs. unfold global_scores in Hs. rewrite list_lookup_fmap in Hs.
  destruct (values !! i) as [v|] eqn:Hv; [|done]. injection Hs as <-.
  apply np_mean_abs_nonneg.
  - rewrite Forall_lookup in Hrows. rewrite (Hrows _ _ Hv). done.
  - rewrite Forall_lookup in Hnum. by eapply Hnum.
Qed.

End Report.

End WPSpec.

Module GenExampleFacts.
Import Gen GenExample.

Lemma cycle_normal_finite s rng :
  (0 <= s)%Q → is_finite (cycle_normal (Finite s) rng).1 = true.
Proof. done. Qed.

Lemma quarter_range rng : (0 <= quarter rng)%Q ∧ (quarter rng <= 1)%Q.
Proof. unfold quarter. destruct (rng `mod` 4) as [|[|[|?]]]; split; lra. Qed.

Lemma cycle_uniform_range a b rng :
  (a <= b)%Q →
  ∃ q, (cycle_uniform (Finite a) (Finite b) rng).1 = Finite q ∧ (a <= q)%Q ∧ (q <= b)%Q.
Proof.
  intros Hab. eexists. split; [reflexivity|].
  unfold quarter. destruct (rng `mod` 4) as [|[|[|?]]]; split; lra.
Qed.

Lemma cut_off_range q :
  ∃ r, cut_off (Finite q) = Finite r ∧ (- (1) <= r)%Q ∧ (r <= 1)%Q.
Proof.
  eexists. split; [reflexivity|].
  destruct (Qle_bool q (- (1))) eqn:Hlo; [split; lra|].
  destruct (Qle_bool 1 q) eqn:Hhi; [split; lra|].
  assert (¬ (q <= - (1))%Q) by (rewrite <- Qle_bool_iff; congruence).
  assert (¬ (1 <= q)%Q) by (rewrite <- Qle_bool_iff; congruence).
  split; lra.
Qed.

Definition numpy : Numpy := {|
  Rng := nat;
  random_normal := cycle_normal;
  random_uniform := cycle_uniform;
  np_sin := cut_off;
  random_normal_finite := cycle_normal_finite;
  random_uniform_range := cycle_uniform_range;
  np_sin_range := cut_off_range
|}.

(** The selected rows of Chicago, as cell 6 of the notebook selects those
    of New York. *)
Definition chicago : DataFrame :=
  default {| index := []; frame_data := [] |}
    (p ← generate_temperature_data (N:=numpy) 0 1 cities 0;
     where_eq p.1 "LOCATION" "Chicago").

End GenExampleFacts.


(** * Properties of the generator *)
Module GenSpec.
Import Gen.

(** ** Lists *)

Lemma select_mask_app {A} (m1 m2 : list bool) (l1 l2 : list A) :
  length m1 = length l1 →
  select_mask (m1 ++ m2) A (l1 ++ l2) = select_mask m1 A l1 ++ select_mask m2 A l2.
Proof.
  intros Hlen. unfold select_mask. rewrite zip_with_app by done.
  by rewrite filter_app, fmap_app.
Qed.

Lemma select_mask_all {A} (l : list A) n :
  length l = n → select_mask (replicate n true) A l = l.
Proof.
  intros <-. unfold select_mask. induction l as [|x l IH]; [done|].
  cbn [length replicate zip zip_with]. rewrite filter_cons_True by done.
  cbn [fmap list_fmap snd]. by f_equal.
Qed.

Lemma select_mask_none {A} (l : list A) n :
  select_mask (replicate n false) A l = [].
Proof.
  unfold select_mask. revert l. induction n as [|n IH]; intros [|x l]; try done.
  cbn [replicate zip zip_with]. rewrite filter_cons_False by done. apply IH.
Qed.

Section Generator.
Context `{N : Numpy}.

(** ** The loops *)

Lemma draws_length n rng : length (draws n rng).1 = n.
Proof.
  revert rng. induction n as [|n IH]; intros rng; [done|]. cbn [draws].
  destruct (draw rng) as [d rng1]. specialize (IH rng1).
  destruct (draws n rng1) as [ds rng2]. cbn in *. by rewrite IH.
Qed.

Lemma draws_add n m rng :
  draws (n + m) rng =
    ((draws n rng).1 ++ (draws m (draws n rng).2).1, (draws m (draws n rng).2).2).
Proof.
  revert rng. induction n as [|n IH]; intros rng.
  - cbn. by destruct (draws m rng).
  - change (S n + m) with (S (n + m)). cbn [draws].
    destruct (draw rng) as [d rng1]. rewrite IH.
    destruct (draws n rng1) as [ds rng2]. cbn. by destruct (draws m rng2).
Qed.

Lemma date_range_lookup start periods hour :
  hour < periods →
  date_range start periods !! hour = Some (start + Z.of_nat hour * hour_ns)%Z.
Proof.
  intros Hh. unfold date_range. rewrite list_lookup_fmap, lookup_seq_lt by done. done.
Qed.

Lemma observe_draw start periods location hour rng :
  hour < periods →
  observe (date_range start periods) location hour rng
  = Some (hour_row start location hour (draw rng).1, (draw rng).2).
Proof.
  intros Hh. unfold observe, draw.
  destruct (random_normal (of_int 2) rng) as [v rng1].
  destruct (random_uniform (of_int 0) (of_int 100) rng1) as [u rng2].
  by rewrite date_range_lookup.
Qed.

Lemma hours_loop_closed start periods location a n data rng :
  a + n ≤ periods →
  hours_loop (date_range start periods) location (seq a n) data rng
  = Some (data ++ zip_with (hour_row start location) (seq a n) (draws n rng).1,
          (draws n rng).2).
Proof.
  revert a data rng. induction n as [|n IH]; intros a data rng Ha.
  - cbn. by rewrite app_nil_r.
  - cbn [seq hours_loop draws]. rewrite (observe_draw start periods) by lia.
    destruct (draw rng) as [d rng1]. cbn [fst snd]. rewrite IH by lia.
    destruct (draws n rng1) as [ds rng2]. cbn [fst snd zip_with].
    by rewrite <- app_assoc.
Qed.

Lemma locations_loop_closed start total_hours locations data rng :
  locations_loop (date_range start total_hours) total_hours locations data rng
  = Some (data ++ (blocks start total_hours locations rng).1,
          (blocks start total_hours locations rng).2).
Proof.
  revert data rng. induction locations as [|location rest IH]; intros data rng.
  - cbn. by rewrite app_nil_r.
  - cbn [locations_loop blocks]. rewrite hours_loop_closed by lia.
    rewrite IH. destruct (draws total_hours rng) as [ds rng1]. cbn [fst snd].
    destruct (blocks start total_hours rest rng1) as [bs rng2]. cbn [fst snd].
    by rewrite <- app_assoc.
Qed.

Lemma zip_with_seq_shift {A B} (f : nat → A → B) (k a n : nat) (l : list A) :
  zip_with (λ i, f (k + i)) (seq a n) l = zip_with f (seq (k + a) n) l.
Proof.
  revert a l. induction n as [|n IH]; intros a l; [done|].
  destruct l as [|x l]; [done|]. cbn [seq zip_with]. f_equal.
  rewrite IH. by rewrite Nat.add_succ_r.
Qed.

Lemma zip_with_seq_shift0 {A B} (f : nat → A → B) (k n : nat) (l : list A) :
  zip_with (λ i, f (k + i)) (seq 0 n) l = zip_with f (seq k n) l.
Proof. by rewrite zip_with_seq_shift, Nat.add_0_r. Qed.

Lemma zip_with_seq_ext {A B} (f g : nat → A → B) (a n : nat) (l : list A) :
  (∀ i y, a ≤ i < a + n → f i y = g i y) →
  zip_with f (seq a n) l = zip_with g (seq a n) l.
Proof.
  revert a l. induction n as [|n IH]; intros a l Hfg; [done|].
  destruct l as [|x l]; [done|]. cbn [seq zip_with]. f_equal.
  - apply Hfg. lia.
  - apply IH. intros i y Hi. apply Hfg. lia.
Qed.

Lemma row_first_block start total_hours location rest i d :
  i < total_hours →
  row start total_hours (location :: rest) i d = hour_row start location i d.
Proof.
  intros Hi. unfold row, hour_row. cbv zeta.
  by rewrite Nat.mod_small, Nat.div_small by done.
Qed.

Lemma row_next_block start total_hours location rest j d :
  0 < total_hours →
  row start total_hours (location :: rest) (total_hours + j) d
  = row start total_hours rest j d.
Proof.
  intros HT. unfold row. cbv zeta.
  replace (total_hours + j) with (j + 1 * total_hours) by lia.
  rewrite Nat.Div0.mod_add, Nat.div_add by lia.
  by replace (j `div` total_hours + 1) with (S (j `div` total_hours)) by lia.
Qed.

Lemma blocks_closed start total_hours locations rng :
  0 < total_hours →
  blocks start total_hours locations rng
  = (zip_with (row start total_hours locations)
       (seq 0 (length locations * total_hours))
       (draws (length locations * total_hours) rng).1,
     (draws (length locations * total_hours) rng).2).
Proof.
  intros HT. revert rng. induction locations as [|location rest IH]; intros rng; [done|].
  cbn [blocks length Nat.mul]. rewrite draws_add.
  pose proof (draws_length total_hours rng) as Hlen.
  destruct (draws total_hours rng) as [ds rng1]. cbn [fst snd] in *.
  rewrite IH. cbn [fst snd]. f_equal.
  rewrite seq_app, zip_with_app by (by rewrite length_seq).
  f_equal.
  - apply zip_with_seq_ext. intros i d Hi. symmetry. apply row_first_block. lia.
  - cbn [Nat.add]. rewrite <- (zip_with_seq_shift0 _ total_hours).
    apply zip_with_seq_ext. intros j d _. symmetry. by apply row_next_block.
Qed.

(** The generator in closed form: it always returns; row [i] is [row i] of
    the [i]-th pair of draws. *)
Lemma generate_closed start_date num_days locations rng :
  generate_temperature_data start_date num_days locations rng
  = Some (frame_of_records (blocks start_date (num_days * 24) locations rng).1,
          (blocks start_date (num_days * 24) locations rng).2).
Proof.
  unfold generate_temperature_data. cbv zeta. by rewrite locations_loop_closed.
Qed.

End Generator.

Section GeneratorClaims.
Context `{N : Numpy}.

Lemma blocks_no_hours start locations rng :
  blocks start 0 locations rng = ([], rng).
Proof. induction locations as [|location rest IH]; [done|]. cbn. by rewrite IH. Qed.

Lemma blocks_rows start total_hours locations rng :
  blocks start total_hours locations rng
  = (zip_with (row start total_hours locations)
       (seq 0 (length locations * total_hours))
       (draws (length locations * total_hours) rng).1,
     (draws (length locations * total_hours) rng).2).
Proof.
  destruct total_hours as [|T]; [|apply blocks_closed; lia].
  by rewrite blocks_no_hours, Nat.mul_0_r.
Qed.

Lemma rows_length start total_hours locations n rng :
  length (zip_with (row start total_hours locations) (seq 0 n) (draws n rng).1) = n.
Proof. rewrite length_zip_with, length_seq, draws_length. lia. Qed.

Lemma generate_rows start_date num_days locations rng :
  let total_hours := num_days * 24 in
  let n := length locations * total_hours in
  generate_temperature_data start_date num_days locations rng
  = Some (frame_of_records
            (zip_with (row start_date total_hours locations) (seq 0 n) (draws n rng).1),
          (draws n rng).2).
Proof. cbv zeta. by rewrite generate_closed, blocks_rows. Qed.

(** X1. The nested loops in closed form. The generator always returns
    (the date lookup never leaves the range); the table has one row per
    location and hour, location after location; row [i] is built from the
    [i]-th pair of draws, a normal draw followed by a uniform draw, and
    the generator state afterwards is the state after that many pairs. *)
Theorem generate_row_by_row start_date num_days locations rng :
  let total_hours := num_days * 24 in
  let n := length locations * total_hours in
  generate_temperature_data start_date num_days locations rng
  = Some (frame_of_records
            (zip_with (row start_date total_hours locations) (seq 0 n) (draws n rng).1),
          (draws n rng).2).
Proof. cbv zeta. by rewrite generate_closed, blocks_rows. Qed.

Lemma frame_of_records_nrows data : nrows (frame_of_records data) = length data.
Proof.
  destruct data as [|o data]; [done|]. unfold nrows. cbn [frame_of_records index].
  by rewrite length_fmap, length_seq.
Qed.

Lemma frame_of_records_wf data : wf_frame (frame_of_records data).
Proof.
  unfold wf_frame. rewrite frame_of_records_nrows.
  destruct data as [|o data]; [constructor|].
  cbn [frame_of_records frame_data].
  repeat constructor; cbn [snd col_length]; by rewrite length_fmap.
Qed.

(** X2. The shape of the generated table: [len(locations) * num_days * 24]
    rows labelled 0, 1, ...; when there is at least one row, exactly the
    columns DATE, TEMP, LOCATION, HOUR_OF_DAY and RANDOM_NOISE, all of the
    table's length; when there is none (no location, or zero days), no
    column at all. *)
Theorem generate_shape start_date num_days locations rng :
  ∃ df rng',
    generate_temperature_data start_date num_days locations rng = Some (df, rng') ∧
    nrows df = length locations * (num_days * 24) ∧
    index df = Z.of_nat <$> seq 0 (nrows df) ∧
    wf_frame df ∧
    columns df = (if decide (nrows df = 0) then [] else generated_columns).
Proof.
  eexists _, _. split; [apply generate_rows|]. cbv zeta.
  set (rows := zip_with _ _ _).
  assert (Hlen : length rows = length locations * (num_days * 24)) by apply rows_length.
  rewrite frame_of_records_nrows, Hlen.
  split; [done|]. split; [|split; [apply frame_of_records_wf|]].
  - destruct rows as [|o rows]; [by rewrite <- Hlen|]. by rewrite <- Hlen.
  - destruct rows as [|o rows]; cbn [length] in Hlen.
    + by rewrite <- Hlen.
    + rewrite <- Hlen. done.
Qed.

Lemma generated_row start_date num_days locations rng i :
  let total_hours := num_days * 24 in
  let n := length locations * total_hours in
  i < n →
  ∃ d, (draws n rng).1 !! i = Some d ∧
       zip_with (row start_date total_hours locations) (seq 0 n) (draws n rng).1 !! i
       = Some (row start_date total_hours locations i d).
Proof.
  cbv zeta. intros Hi.
  destruct (lookup_lt_is_Some_2 (draws (length locations * (num_days * 24)) rng).1 i)
    as [d Hd]; [by rewrite draws_length|].
  exists d. split; [done|].
  rewrite lookup_zip_with, lookup_seq_lt by done. cbn. by rewrite Hd.
Qed.

Lemma mod_day i num_days :
  (Z.of_nat (i `mod` (num_days * 24)) `mod` 24)%Z = Z.of_nat (i `mod` 24).
Proof.
  rewrite <- (Nat2Z.inj_mod _ 24). f_equal.
  rewrite (Nat.mul_comm num_days), Nat.Div0.mod_mul_r.
  rewrite (Nat.mul_comm 24), Nat.Div0.mod_add. apply Nat.Div0.mod_mod.
Qed.

Lemma generated_frame_data rows :
  rows ≠ [] →
  frame_data (frame_of_records rows)
  = [("DATE", DatetimeCol (DATE <$> rows));
     ("TEMP", Float64Col (TEMP <$> rows));
     ("LOCATION", ObjectCol ((λ o, PyStr (LOCATION o)) <$> rows));
     ("HOUR_OF_DAY", Int64Col (HOUR_OF_DAY <$> rows));
     ("RANDOM_NOISE", Float64Col (RANDOM_NOISE <$> rows))].
Proof. by destruct rows. Qed.

(** X3. The layout of the generated table. Row [i] belongs to location
    number [i div total_hours]; its hour of day is [i mod 24], between 0
    and 23; its timestamp is the start plus [i mod total_hours] hours, so
    that every location has the same hourly timestamps. *)
Theorem generate_layout start_date num_days locations rng i :
  let total_hours := num_days * 24 in
  i < length locations * total_hours →
  ∃ df rng' dates locs hours location,
    generate_temperature_data start_date num_days locations rng = Some (df, rng') ∧
    lookup_col "DATE" (frame_data df) = Some (DatetimeCol dates) ∧
    lookup_col "LOCATION" (frame_data df) = Some (ObjectCol locs) ∧
    lookup_col "HOUR_OF_DAY" (frame_data df) = Some (Int64Col hours) ∧
    locations !! (i `div` total_hours) = Some location ∧
    locs !! i = Some (PyStr location) ∧
    hours !! i = Some (Z.of_nat (i `mod` 24)) ∧
    i `mod` 24 < 24 ∧
    dates !! i = Some (start_date + Z.of_nat (i `mod` total_hours) * hour_ns)%Z.
Proof.
  cbv zeta. intros Hi.
  destruct (generated_row start_date num_days locations rng i Hi) as (d & Hd & Hrow).
  set (rows := zip_with _ _ _) in Hrow.
  assert (Hne : rows ≠ []) by (intros Hnil; by rewrite Hnil in Hrow).
  assert (HT : 0 < num_days * 24) by (destruct num_days; lia).
  assert (Hday : i `mod` 24 < 24) by (apply Nat.mod_upper_bound; lia).
  destruct (lookup_lt_is_Some_2 locations (i `div` (num_days * 24))) as [location Hloc].
  { apply Nat.Div0.div_lt_upper_bound. lia. }
  eexists _, _, _, _, _, location. split; [apply generate_rows|]. cbv zeta.
  fold rows. rewrite generated_frame_data by done.
  do 3 (split; [reflexivity|]). split; [done|].
  rewrite !list_lookup_fmap, Hrow. cbn.
  split; [by rewrite (list_lookup_total_correct _ _ _ Hloc)|].
  split; [by rewrite mod_day|]. by split.
Qed.

Lemma draws_Forall n rng :
  Forall (λ d, ∃ v u, d = (Finite v, Finite u) ∧ (0 <= u)%Q ∧ (u <= 100)%Q) (draws n rng).1.
Proof.
  revert rng. induction n as [|n IH]; intros rng; [constructor|]. cbn [draws].
  destruct (draw rng) as [d rng1] eqn:Hd. specialize (IH rng1).
  destruct (draws n rng1) as [ds rng2]. cbn [fst] in *. constructor; [|done].
  unfold draw in Hd.
  assert (Hv : is_finite (random_normal (of_int 2) rng).1 = true)
    by (apply (random_normal_finite 2); lra).
  destruct (random_normal (of_int 2) rng) as [v r1].
  destruct (random_uniform_range 0 100 r1) as (u & Hu & Hlo & Hhi); [lra|].
  change (Finite 0) with (of_int 0) in Hu. change (Finite 100) with (of_int 100) in Hu.
  destruct (random_uniform (of_int 0) (of_int 100) r1) as [u' r2].
  injection Hd as <- _. cbn in *. subst u'. destruct v as [v| |]; try done.
  by exists v, u.
Qed.

Lemma overflow_small q : (Qabs q <= 1000)%Q → overflow q = Finite q.
Proof.
  intros Hq. unfold overflow.
  destruct (Qle_bool overflow_threshold (Qabs q)) eqn:Hover; [|done].
  apply Qle_bool_iff in Hover.
  assert (Hbig : (1000 < overflow_threshold)%Q) by (vm_compute; reflexivity).
  destruct (Qlt_not_le _ _ Hbig). by eapply Qle_trans.
Qed.

Lemma base_temp_range tod :
  (0 <= tod < 24)%Z →
  ∃ b, base_temp tod = Finite b ∧ (5 <= b)%Q ∧ (b <= 25)%Q.
Proof.
  intros [Hlo Hhi]. unfold base_temp, of_int, np_pi.
  assert (Ht : (0 <= inject_Z tod)%Q ∧ (inject_Z tod <= 23)%Q).
  { split; [rewrite <- (Zle_Qle 0); lia|].
    change (inject_Z tod <= inject_Z 23)%Q. rewrite <- Zle_Qle. lia. }
  destruct Ht as [Ht0 Ht1]. generalize dependent (inject_Z tod). intros t Ht0 Ht1.
  change (inject_Z 2) with 2%Q. change (inject_Z 24) with 24%Q.
  change (inject_Z 10) with 10%Q. change (inject_Z 15) with 15%Q.
  cbn [fmul]. rewrite overflow_small by (vm_compute; discriminate).
  cbn [fmul]. rewrite overflow_small by (apply Qabs_Qle_condition; split; lra).
  cbn [fdiv]. change (Qeq_bool 24 0) with false. cbn iota.
  unfold Qdiv. change (/ 24)%Q with (1 # 24)%Q.
  rewrite overflow_small by (apply Qabs_Qle_condition; split; lra).
  destruct (np_sin_range (2 * (884279719003555 # 281474976710656) * t * (1 # 24)))
    as (r & -> & Hrlo & Hrhi).
  cbn [fmul]. rewrite overflow_small by (apply Qabs_Qle_condition; split; lra).
  cbn [fadd]. rewrite overflow_small by (apply Qabs_Qle_condition; split; lra).
  eexists. split; [reflexivity|]. split; lra.
Qed.

(** X4. The values of the generated table. Every temperature is the sum of
    the base temperature of its hour of day, which lies between 5 and 25,
    and the normal draw of its row; every RANDOM_NOISE value is the uniform
    draw of its row and lies between 0 and 100. The draws of row [i] are
    the [i]-th pair drawn from the initial generator state. *)
Theorem generate_values start_date num_days locations rng i :
  i < length locations * (num_days * 24) →
  ∃ df rng' temps noise b v u,
    generate_temperature_data start_date num_days locations rng = Some (df, rng') ∧
    lookup_col "TEMP" (frame_data df) = Some (Float64Col temps) ∧
    lookup_col "RANDOM_NOISE" (frame_data df) = Some (Float64Col noise) ∧
    (draws (length locations * (num_days * 24)) rng).1 !! i = Some (Finite v, Finite u) ∧
    base_temp (Z.of_nat (i `mod` 24)) = Finite b ∧ (5 <= b)%Q ∧ (b <= 25)%Q ∧
    temps !! i = Some (fadd (Finite b) (Finite v)) ∧
    noise !! i = Some (Finite u) ∧ (0 <= u)%Q ∧ (u <= 100)%Q.
Proof.
  intros Hi.
  destruct (generated_row start_date num_days locations rng i Hi) as (d & Hd & Hrow).
  set (rows := zip_with _ _ _) in Hrow.
  assert (Hne : rows ≠ []) by (intros Hnil; by rewrite Hnil in Hrow).
  pose proof (draws_Forall (length locations * (num_days * 24)) rng) as Hall.
  rewrite Forall_lookup in Hall. destruct (Hall _ _ Hd) as (v & u & -> & Hlo & Hhi).
  destruct (base_temp_range (Z.of_nat (i `mod` 24))) as (b & Hb & Hblo & Hbhi).
  { pose proof (Nat.mod_upper_bound i 24). lia. }
  eexists _, _, _, _, b, v, u. split; [apply generate_rows|]. cbv zeta.
  fold rows. rewrite generated_frame_data by done.
  do 2 (split; [reflexivity|]). do 4 (split; [done|]).
  rewrite !list_lookup_fmap, Hrow.
  cbn [fmap option_fmap option_map row TEMP RANDOM_NOISE fst snd].
  rewrite mod_day, Hb. done.
Qed.

End GeneratorClaims.

Section Filter.
Context `{N : Numpy}.

Lemma eq_str_records rows location :
  eq_str (ObjectCol ((λ o, PyStr (LOCATION o)) <$> rows)) location
  = location_mask location rows.
Proof. unfold eq_str, location_mask. cbn [col_objects]. by rewrite <- list_fmap_compose. Qed.

Lemma location_mask_app location rows1 rows2 :
  location_mask location (rows1 ++ rows2)
  = location_mask location rows1 ++ location_mask location rows2.
Proof. apply fmap_app. Qed.

Lemma mask_hours start l location a ds :
  location_mask location (zip_with (hour_row start l) (seq a (length ds)) ds)
  = replicate (length ds) (bool_decide (l = location)).
Proof.
  revert a. induction ds as [|d ds IH]; intros a; [done|].
  cbn [length seq zip_with replicate]. unfold location_mask in *.
  cbn [fmap list_fmap]. f_equal. apply IH.
Qed.

Lemma mask_blocks_absent start total_hours (locations : list string) location rng :
  location ∉ locations →
  location_mask location (blocks start total_hours locations rng).1
  = replicate (length locations * total_hours) false.
Proof.
  revert rng. induction locations as [|l rest IH]; intros rng Hnot; [done|].
  cbn [blocks length Nat.mul].
  pose proof (draws_length total_hours rng) as Hlen.
  destruct (draws total_hours rng) as [ds rng1]. cbn [fst] in Hlen.
  specialize (IH rng1). destruct (blocks start total_hours rest rng1) as [bs rng2].
  cbn [fst] in *. rewrite location_mask_app, replicate_add. f_equal.
  - rewrite <- Hlen at 1. rewrite mask_hours, Hlen. f_equal.
    apply bool_decide_eq_false. intros ->. apply Hnot. by left.
  - apply IH. intros ?. apply Hnot. by right.
Qed.

Lemma mask_blocks start total_hours (locations : list string) k location rng :
  NoDup locations →
  locations !! k = Some location →
  location_mask location (blocks start total_hours locations rng).1
  = replicate (k * total_hours) false ++ replicate total_hours true
    ++ replicate ((length locations - S k) * total_hours) false.
Proof.
  revert k rng. induction locations as [|l rest IH]; intros k rng Hnd Hk; [done|].
  apply NoDup_cons in Hnd as [Hl Hnd].
  cbn [blocks length].
  pose proof (draws_length total_hours rng) as Hlen.
  destruct (draws total_hours rng) as [ds rng1] eqn:Hds. cbn [fst] in Hlen.
  pose proof (mask_blocks_absent start total_hours rest location rng1) as Habsent.
  specialize (IH (pred k) rng1 Hnd).
  destruct (blocks start total_hours rest rng1) as [bs rng2].
  cbn [fst] in *. rewrite location_mask_app.
  rewrite <- Hlen at 1. rewrite mask_hours, Hlen.
  destruct k as [|k].
  - injection Hk as ->. rewrite bool_decide_eq_true_2 by done.
    cbn [Nat.mul replicate app]. f_equal.
    rewrite Habsent by done. f_equal. lia.
  - cbn [lookup list_lookup] in Hk. cbn [pred] in IH.
    rewrite bool_decide_eq_false_2.
    2:{ intros ->. apply Hl. by eapply list_elem_of_lookup_2. }
    rewrite IH by done. cbn [Nat.mul]. rewrite replicate_add, <- app_assoc.
    by do 3 f_equal.
Qed.

Lemma select_block {A} (a n r : nat) (l : list A) :
  length l = a + n + r →
  select_mask (replicate a false ++ replicate n true ++ replicate r false) A l
  = take n (drop a l).
Proof.
  intros Hlen.
  rewrite <- (take_drop a l) at 1.
  rewrite select_mask_app by (rewrite length_replicate, length_take; lia).
  rewrite select_mask_none. cbn [app].
  rewrite <- (take_drop n (drop a l)) at 1.
  rewrite select_mask_app by (rewrite length_replicate, length_take, length_drop; lia).
  rewrite select_mask_none, app_nil_r.
  apply select_mask_all. rewrite length_take, length_drop. lia.
Qed.

Lemma blocks_length start total_hours locations rng :
  length (blocks start total_hours locations rng).1 = length locations * total_hours.
Proof.
  revert rng. induction locations as [|l rest IH]; intros rng; [done|].
  cbn [blocks length Nat.mul].
  pose proof (draws_length total_hours rng) as Hlen.
  destruct (draws total_hours rng) as [ds rng1]. cbn [fst] in Hlen.
  specialize (IH rng1). destruct (blocks start total_hours rest rng1) as [bs rng2].
  cbn [fst] in *. rewrite length_app, length_zip_with, length_seq, Hlen, IH. lia.
Qed.

Lemma where_eq_rows start_date num_days (locations : list string) rng k location :
  0 < num_days →
  NoDup locations →
  locations !! k = Some location →
  let df := frame_of_records (blocks start_date (num_days * 24) locations rng).1 in
  where_eq df "LOCATION" location
  = Some (rows_from (k * (num_days * 24)) (num_days * 24) df).
Proof.
  intros Hdays Hnd Hk. cbv zeta.
  set (T := num_days * 24).
  pose proof (blocks_length start_date T locations rng) as Hlen.
  pose proof (mask_blocks start_date T locations k location rng Hnd Hk) as Hmask.
  pose proof (lookup_lt_Some _ _ _ Hk) as HkL.
  set (rows := (blocks start_date T locations rng).1) in *.
  assert (Hsplit : length rows = k * T + T + (length locations - S k) * T).
  { rewrite Hlen. nia. }
  assert (Hrows : rows ≠ []).
  { intros Hnil. rewrite Hnil in Hsplit. cbn in Hsplit. lia. }
  assert (Hsel : ∀ A (l : list A), length l = length rows →
            select_mask (location_mask location rows) A l = take T (drop (k * T) l)).
  { intros A l Hl. rewrite Hmask. apply select_block. by rewrite Hl. }
  unfold frame_of_records. destruct rows as [|o rows'] eqn:Hrows'; [done|].
  rewrite <- Hrows' in *. clear Hrows'.
  unfold where_eq. cbn [frame_data lookup_col].
  rewrite decide_False by done. rewrite decide_False by done. rewrite decide_True by done.
  cbn [mbind option_bind]. f_equal.
  rewrite eq_str_records. unfold rows_from, frame_lift.
  cbn [index frame_data fmap list_fmap prod_map col_lift fst snd id].
  rewrite !Hsel; [done|by rewrite ?length_fmap, ?length_seq..].
Qed.

(** X14. Selecting a location from a generated table, as the notebook does
    before it calls [predict]. For distinct locations and at least one day,
    the rows of the k-th location are the k-th block of the table: the
    selection returns rows k*T up to k*T + T - 1 of the table, T being the
    number of hours, with the index labels they had in the table. *)
Theorem where_eq_block start_date num_days (locations : list string) rng k location :
  0 < num_days →
  NoDup locations →
  locations !! k = Some location →
  ∃ df rng',
    generate_temperature_data start_date num_days locations rng = Some (df, rng') ∧
    where_eq df "LOCATION" location
      = Some (rows_from (k * (num_days * 24)) (num_days * 24) df) ∧
    nrows (rows_from (k * (num_days * 24)) (num_days * 24) df) = num_days * 24 ∧
    index (rows_from (k * (num_days * 24)) (num_days * 24) df)
      = Z.of_nat <$> seq (k * (num_days * 24)) (num_days * 24).
Proof.
  intros Hdays Hnd Hk.
  eexists _, _. split; [apply generate_closed|].
  split; [by apply where_eq_rows|].
  set (T := num_days * 24).
  pose proof (blocks_length start_date T locations rng) as Hlen.
  pose proof (lookup_lt_Some _ _ _ Hk) as HkL.
  rewrite <- (frame_of_records_nrows (blocks start_date T locations rng).1) in Hlen.
  set (df := frame_of_records _) in *.
  assert (Hidx : index df = Z.of_nat <$> seq 0 (length locations * T)).
  { unfold df, frame_of_records. rewrite <- Hlen. unfold df.
    rewrite frame_of_records_nrows. by destruct (blocks start_date T locations rng).1. }
  unfold rows_from, frame_lift, nrows. cbn [index]. rewrite Hidx. split.
  - rewrite length_take, length_drop, length_fmap, length_seq. nia.
  - rewrite <- fmap_drop, <- fmap_take. f_equal.
    rewrite drop_seq, take_seq. f_equal. nia.
Qed.

End Filter.

End GenSpec.


(** * More properties of the class *)
Module WPMore.
Import WP WPSpec.

Section More.
Context `{L : Library}.

(** Every frame of [w] is a frame of [w'], unchanged. *)
Local Abbreviation keeps w w' := (∀ r df, heap w !! r = Some df → heap w' !! r = Some df).

Lemma keeps_refl w : keeps w w.
Proof. by intros r df. Qed.

Lemma keeps_push df w w' : keeps w w' → keeps w (push df w').
Proof. intros H r x Hr. by apply heap_push_old, H. Qed.

Lemma keeps_with_self a w w' : keeps w w' → keeps w (with_self a w').
Proof. intros H r x Hr. by apply H. Qed.

Lemma extends_keeps w w' : extends w w' → keeps w w'.
Proof. by intros [_ H]. Qed.

Lemma columns_assign_absent name c df :
  name ∉ columns df → columns (assign name c df) = columns df ++ [name].
Proof.
  unfold columns, assign. cbn [frame_data].
  induction (frame_data df) as [|[n c0] data IH]; [done|].
  cbn. intros Hn. rewrite decide_False.
  - cbn. f_equal. apply IH. intros ?. apply Hn. by right.
  - intros ->. apply Hn. by left.
Qed.

Lemma prepare_data_accepts w input df temp :
  heap w !! input = Some df →
  wf_frame df →
  lookup_col "TEMP" (frame_data df) = Some temp →
  is_numeric_dtype temp = true →
  "HOUR_OF_DAY" ∈ columns df →
  1 ≤ nrows df →
  ∃ spectrum,
    fft (to_numpy temp) = Ret spectrum ∧ length spectrum = nrows df ∧
    fits df spectrum ∧
    absent df required_columns = [] ∧
    prepare_data input w = (Ret (length (heap w) + 2), prepared_world w df spectrum).
Proof.
  intros Hin Hwf Htemp Hnum Hhour Hn.
  assert (Habs : absent df required_columns = []).
  { apply required_absent_nil. split; [by eapply lookup_col_columns | done]. }
  destruct (fft_nonempty (to_numpy temp)) as [spectrum Hfft].
  { intros Hnil. apply (f_equal length) in Hnil.
    rewrite to_numpy_length, (wf_frame_lookup df "TEMP") in Hnil by done.
    simpl in Hnil. lia. }
  destruct (wf_fits df temp spectrum) as [Hlen Hfits]; [done..|].
  exists spectrum. do 4 (split; [done|]). by eapply prepare_data_run.
Qed.

Lemma columns_prepared df spectrum :
  columns (prepared df spectrum) =
    if decide ("TEMP_FFT" ∈ columns df) then columns df else columns df ++ ["TEMP_FFT"].
Proof.
  unfold prepared. case_decide as Hin_fft.
  - rewrite columns_assign_present; by rewrite columns_iloc_from.
  - rewrite columns_assign_absent; by rewrite columns_iloc_from.
Qed.

(** X5. The column layout of the prepared frame: the columns of the input
    in their order, followed by TEMP_FFT; an input that already has a
    TEMP_FFT column keeps its columns and gets the new magnitudes in that
    column. *)
Theorem prepare_data_columns w input df temp :
  heap w !! input = Some df →
  wf_frame df →
  lookup_col "TEMP" (frame_data df) = Some temp →
  is_numeric_dtype temp = true →
  "HOUR_OF_DAY" ∈ columns df →
  1 ≤ nrows df →
  ∃ out w' result spectrum,
    prepare_data input w = (Ret out, w') ∧
    heap w' !! out = Some result ∧
    fft (to_numpy temp) = Ret spectrum ∧
    columns result =
      (if decide ("TEMP_FFT" ∈ columns df) then columns df
       else columns df ++ ["TEMP_FFT"]) ∧
    lookup_col "TEMP_FFT" (frame_data result)
      = Some (Float64Col (complex_abs <$> List.skipn 1 spectrum)).
Proof.
  intros Hin Hwf Htemp Hnum Hhour Hn.
  destruct (prepare_data_accepts w input df temp) as (spectrum & Hfft & _ & _ & _ & Hrun);
    [done..|].
  eexists _, _, (prepared df spectrum), spectrum.
  split; [exact Hrun|]. split; [apply prepared_lookup|]. split; [done|].
  split; [apply columns_prepared|apply lookup_col_set_eq].
Qed.

Lemma prepare_data_extends w input : extends w (prepare_data input w).2.
Proof.
  destruct (heap w !! input) as [df|] eqn:Hin.
  2:{ rewrite prepare_data_dangling by done. apply extends_refl. }
  destruct (decide (absent df required_columns = [])) as [Habs|Habs].
  2:{ erewrite prepare_data_missing by done. apply extends_refl. }
  destruct (required_present df Habs) as [temp Htemp].
  destruct (is_numeric_dtype temp) eqn:Hnum.
  2:{ erewrite prepare_data_not_numeric by done. apply extends_refl. }
  destruct (fft (to_numpy temp)) as [spectrum|e] eqn:Hfft.
  2:{ erewrite prepare_data_fft_raises by done. apply extends_push, extends_refl. }
  destruct (decide (length (List.skipn 1 spectrum) = nrows (iloc_from 1 df)))
    as [Hfits|Hfits].
  - erewrite prepare_data_run by done. do 3 apply extends_push. apply extends_refl.
  - destruct (prepare_data_mismatch w input df temp spectrum) as [msg ->]; [done..|].
    do 3 apply extends_push. apply extends_refl.
Qed.

Lemma setitem_mismatch w r df name c :
  heap w !! r = Some df → col_length c ≠ nrows df →
  ∃ msg, setitem r name c w = (Raise (ValueError msg), w).
Proof.
  intros Hr Hlen. unfold setitem. run (by apply deref_ok).
  rewrite decide_False by done. by eexists.
Qed.

(** Every way [predict] can end. *)
Lemma predict_outcomes w input :
  (∃ e w', predict input w = (Raise e, w') ∧ extends w w') ∨
  (∃ df temp spectrum y m predicted res,
     let P := prepared df spectrum in
     let P' := assign "PREDICTED_TEMP" (Float64Col predicted) P in
     let W := trained_world w df P' (feature_matrix P) m in
     heap w !! input = Some df ∧
     lookup_col "TEMP" (frame_data df) = Some temp ∧
     fft (to_numpy temp) = Ret spectrum ∧
     lookup_col "TEMP" (frame_data P) = Some y ∧
     xgb_fit xgb_params (feature_matrix P) y = Ret m ∧
     xgb_predict m (feature_matrix P) = Ret predicted ∧
     ((absent P' output_columns = [] ∧
       predict input w = (Ret (length (heap w) + 4), push (only output_columns P') W)) ∨
      (absent P' output_columns ≠ [] ∧ predict input w = (Raise (KeyError res), W)))).
Proof.
  destruct (prepare_data input w) as [[p|e] w1] eqn:Hprep.
  2:{ left. exists e, w1. split.
      - unfold predict. by apply bind_raise.
      - pose proof (prepare_data_extends w input) as H. by rewrite Hprep in H. }
  destruct (prepare_data_inv _ _ _ _ Hprep)
    as (df & temp & spectrum & Hin & Habs & Htemp & Hnum & Hfft & Hfits & -> & ->).
  set (P := prepared df spectrum) in *.
  fold (prepared_world w df spectrum) in Hprep.
  set (w1 := prepared_world w df spectrum) in *.
  assert (Hw1 : extends w w1) by (do 3 apply extends_push; apply extends_refl).
  assert (HP : heap w1 !! (length (heap w) + 2) = Some P) by apply prepared_lookup.
  unfold predict. run (exact Hprep).
  destruct (decide (absent P ["TEMP"; "DATE"] = [])) as [HabsX|HabsX].
  2:{ left. eexists _, _. split; [|exact Hw1].
      apply bind_raise. by apply drop_raises. }
  run (by apply drop_ok).
  set (X0 := without ["TEMP"; "DATE"] P).
  assert (HTEMP : "TEMP" ∈ columns P).
  { rewrite absent_nil in HabsX. apply HabsX. by left. }
  apply lookup_col_is_Some in HTEMP as [y Hy].
  run (eapply getitem_ok; [by apply heap_push_old|done]).
  run (apply deref_ok, heap_push_new).
  assert (Hstep : ∀ (k : unit → M nat),
    ((if decide ("LOCATION" ∈ columns X0)
      then location ← getitem (length (heap w1)) "LOCATION";
           setitem (length (heap w1)) "LOCATION" (astype_category location)
      else mret ()) ≫= k) (push X0 w1) = k () (push (feature_matrix P) w1)
    ∨ ∃ e, ∀ k : unit → M nat,
      ((if decide ("LOCATION" ∈ columns X0)
        then location ← getitem (length (heap w1)) "LOCATION";
             setitem (length (heap w1)) "LOCATION" (astype_category location)
        else mret ()) ≫= k) (push X0 w1) = (Raise e, push X0 w1)).
  { intros k. unfold feature_matrix. cbv zeta. fold X0.
    destruct (decide ("LOCATION" ∈ columns X0)) as [HL|HL].
    - pose proof HL as [location Hlocation]%lookup_col_is_Some. rewrite Hlocation.
      destruct (decide (col_length (astype_category location) = nrows X0)) as [Hlen|Hlen].
      + left. erewrite bind_ret; [done|].
        erewrite bind_ret; [|by eapply getitem_ok; [apply heap_push_new|]].
        erewrite setitem_ok; [|apply heap_push_new|done].
        by rewrite update_last.
      + right. destruct (setitem_mismatch (push X0 w1) (length (heap w1)) X0 "LOCATION"
                          (astype_category location)) as [msg Hset];
          [apply heap_push_new|done|].
        eexists. intros k'. apply bind_raise.
        erewrite bind_ret; [|by eapply getitem_ok; [apply heap_push_new|]].
        exact Hset.
    - left. apply lookup_col_None in HL. rewrite HL. by erewrite bind_ret. }
  change (push P (push (iloc_from 1 df) (push df w))) with w1.
  match goal with |- context [mbind ?k0 _ (push X0 w1)] =>
    destruct (Hstep k0) as [Hk|[e He]] end.
  2:{ left. eexists _, _. split; [apply He|]. by apply extends_push. }
  clear Hstep. rewrite Hk. clear Hk.
  set (Xdf := feature_matrix P).
  run (apply deref_ok, heap_push_new).
  destruct (xgb_fit xgb_params Xdf y) as [m|e] eqn:Hfit.
  2:{ left. eexists _, _. split; [apply bind_raise; by apply call_raise|].
      by apply extends_push. }
  run (by apply call_ok).
  destruct (xgb_predict m Xdf) as [predicted|e] eqn:Hpred.
  2:{ left. eexists _, _. split; [apply bind_raise; by apply call_raise|].
      by apply extends_push. }
  run (by apply call_ok).
  assert (Hrows : col_length (Float64Col predicted) = nrows P).
  { apply xgb_predict_length in Hpred. cbn [col_length]. rewrite Hpred.
    unfold nrows. subst Xdf. by rewrite index_feature_matrix. }
  run (apply setitem_ok; [by apply heap_push_old|done]).
  run (reflexivity). run (reflexivity). run (reflexivity). run (reflexivity).
  set (P' := assign "PREDICTED_TEMP" (Float64Col predicted) P).
  match goal with |- context [select _ _ ?W] =>
    assert (W = trained_world w df P' Xdf m) as ->
  end.
  { unfold trained_world, with_self. subst w1. unfold prepared_world. cbn [heap self].
    rewrite update_push by (rewrite !heap_push_length; lia).
    replace (length (heap w) + 2)
      with (length (heap (push (iloc_from 1 df) (push df w))))
      by (rewrite !heap_push_length; lia).
    rewrite update_last, !heap_push_length. do 3 f_equal. lia. }
  right. exists df, temp, spectrum, y, m, predicted. cbv zeta. fold P P' Xdf.
  destruct (decide (absent P' output_columns = [])) as [HabsO|HabsO].
  - eexists EmptyString. do 6 (split; [done|]). left. split; [done|].
    erewrite select_ok; [|apply trained_world_lookup|done].
    by rewrite trained_world_length.
  - unfold select. erewrite bind_ret; [|apply deref_ok, trained_world_lookup].
    fold output_columns. rewrite decide_False by done.
    case_decide; eexists; do 6 (split; [done|]); right; by split.
Qed.

(** X6. Whatever [predict] is called on and however it ends, no frame that
    existed before the call is changed or removed; the attributes of the
    predictor are either untouched or replaced together, by a model that
    the regressor returned and a feature matrix that did not exist before
    the call. *)
Theorem predict_effects w input :
  let w' := (predict input w).2 in
  (∀ r df, heap w !! r = Some df → heap w' !! r = Some df) ∧
  (self w' = self w ∨
   ∃ m Xr Xdf y,
     self w' = {| xgb_model := Some m; X := Some Xr |} ∧
     heap w !! Xr = None ∧ heap w' !! Xr = Some Xdf ∧
     xgb_fit xgb_params Xdf y = Ret m).
Proof.
  cbv zeta.
  destruct (predict_outcomes w input)
    as [(e & w' & -> & Hext)
       |(df & temp & spectrum & y & m & predicted & res & _ & _ & _ & _ & Hfit & _ & H)].
  { cbn [snd]. split; [by apply extends_keeps|left; apply Hext]. }
  cbv zeta in H.
  set (P := prepared df spectrum) in *.
  set (P' := assign "PREDICTED_TEMP" (Float64Col predicted) P) in *.
  assert (Hkeep : keeps w (trained_world w df P' (feature_matrix P) m)).
  { unfold trained_world. apply keeps_with_self. do 4 apply keeps_push. apply keeps_refl. }
  assert (Hnew : heap w !! (length (heap w) + 3) = None).
  { apply lookup_ge_None. lia. }
  destruct H as [[_ ->]|[_ ->]]; cbn [snd]; (split; [|right]).
  - by apply keeps_push.
  - exists m, (length (heap w) + 3), (feature_matrix P), y.
    split; [done|]. split; [done|]. split; [|done].
    apply heap_push_old. unfold trained_world, with_self. cbn [heap].
    replace (length (heap w) + 3)
      with (length (heap (push P' (push (iloc_from 1 df) (push df w)))))
      by (rewrite !heap_push_length; lia).
    apply heap_push_new.
  - done.
  - exists m, (length (heap w) + 3), (feature_matrix P), y.
    split; [done|]. split; [done|]. split; [|done].
    unfold trained_world, with_self. cbn [heap].
    replace (length (heap w) + 3)
      with (length (heap (push P' (push (iloc_from 1 df) (push df w)))))
      by (rewrite !heap_push_length; lia).
    apply heap_push_new.
Qed.


Lemma col_objects_length c : length (col_objects c) = col_length c.
Proof. destruct c; cbn; by rewrite ?length_fmap. Qed.

Lemma wf_without (labels : list string) df : wf_frame df → wf_frame (without labels df).
Proof.
  unfold wf_frame, without, nrows. cbn [frame_data index]. intros Hwf.
  apply Forall_forall. intros nc [_ Hnc]%list_elem_of_filter.
  by eapply Forall_forall in Hwf.
Qed.

Lemma wf_only (keys : list string) df : wf_frame df → wf_frame (only keys df).
Proof.
  intros Hwf. unfold wf_frame, only, nrows. cbn [frame_data index].
  apply Forall_forall. intros [k c] (k' & _ & Hk)%list_elem_of_omap.
  destruct (lookup_col k' (frame_data df)) as [c'|] eqn:Hc; [|done].
  injection Hk as <- <-. by eapply wf_frame_lookup.
Qed.

Lemma wf_feature_matrix P : wf_frame P → wf_frame (feature_matrix P).
Proof.
  intros Hwf. unfold feature_matrix. cbv zeta.
  pose proof (wf_without ["TEMP"; "DATE"] P Hwf) as HX0.
  case_match eqn:Hloc; [|done].
  apply wf_assign; [done|]. cbn [astype_category col_length].
  rewrite col_objects_length. by eapply wf_frame_lookup.
Qed.

Lemma wf_prepared df temp spectrum :
  wf_frame df → lookup_col "TEMP" (frame_data df) = Some temp →
  is_numeric_dtype temp = true → fft (to_numpy temp) = Ret spectrum →
  wf_frame (prepared df spectrum).
Proof.
  intros Hwf Htemp Hnum Hfft.
  destruct (wf_fits df temp spectrum) as [Hlen Hfits]; [done..|].
  apply wf_assign; [by apply wf_iloc_from|].
  cbn [col_length]. by rewrite length_fmap.
Qed.

Lemma nrows_prepared df spectrum : nrows (prepared df spectrum) = nrows df - 1.
Proof. unfold prepared, nrows, assign. cbn [index]. apply nrows_iloc_from. Qed.

(** X7. The shapes [predict] produces from a rectangular input of n rows:
    the frame it returns and the feature matrix it retains are rectangular
    and have n - 1 rows; the columns of the matrix are the columns of the
    input other than TEMP and DATE, in the order of the input, with
    TEMP_FFT last unless the input had such a column. *)
Theorem predict_shapes w input df out w' :
  predict input w = (Ret out, w') →
  heap w !! input = Some df →
  wf_frame df →
  ∃ result Xr Xdf,
    heap w' !! out = Some result ∧
    X (self w') = Some Xr ∧ heap w' !! Xr = Some Xdf ∧
    wf_frame result ∧ nrows result = nrows df - 1 ∧
    wf_frame Xdf ∧ nrows Xdf = nrows df - 1 ∧
    columns Xdf =
      filter (λ c, c ∉ ["TEMP"; "DATE"])
        (if decide ("TEMP_FFT" ∈ columns df) then columns df
         else columns df ++ ["TEMP_FFT"]).
Proof.
  intros Hrun Hin Hwf.
  destruct (predict_inv _ _ _ _ Hrun)
    as (df' & temp & spectrum & y & m & predicted & Hprep & Hin' & Htemp & Hfft
        & HabsX & Hy & Hfit & Hpred & HabsO & -> & ->).
  rewrite Hin in Hin'. injection Hin' as <-.
  apply prepare_data_inv in Hprep
    as (df' & temp' & spectrum' & Hin' & _ & Htemp' & Hnum & _).
  rewrite Hin in Hin'. injection Hin' as <-.
  rewrite Htemp in Htemp'. injection Htemp' as <-.
  set (P := prepared df spectrum) in *.
  set (P' := assign "PREDICTED_TEMP" (Float64Col predicted) P) in *.
  assert (HwfP : wf_frame P) by by eapply wf_prepared.
  assert (HnP : nrows P = nrows df - 1) by apply nrows_prepared.
  assert (HwfP' : wf_frame P').
  { apply wf_assign; [done|]. cbn [col_length].
    apply xgb_predict_length in Hpred. rewrite Hpred.
    unfold nrows. by rewrite index_feature_matrix. }
  exists (only output_columns P'), (length (heap w) + 3), (feature_matrix P).
  split.
  { rewrite <- (trained_world_length w df P' (feature_matrix P) m). apply heap_push_new. }
  split; [done|]. split.
  { apply heap_push_old. unfold trained_world, with_self. cbn [heap].
    replace (length (heap w) + 3)
      with (length (heap (push P' (push (iloc_from 1 df) (push df w)))))
      by (rewrite !heap_push_length; lia).
    apply heap_push_new. }
  split; [by apply wf_only|]. split; [done|].
  split; [by apply wf_feature_matrix|]. split.
  { unfold nrows. by rewrite index_feature_matrix. }
  rewrite columns_feature_matrix. subst P. by rewrite columns_prepared.
Qed.

Lemma lookup_omap_lookup {A} (l : list A) (perm : list nat) k :
  Forall (λ j, j < length l) perm →
  omap (λ i, l !! i) perm !! k = perm !! k ≫= (λ j, l !! j).
Proof.
  intros Hall. revert k. induction Hall as [|j perm Hj _ IH]; intros k; [done|].
  cbn [omap list_omap]. destruct (lookup_lt_is_Some_2 l j Hj) as [x Hx]. rewrite Hx.
  destruct k as [|k]; [done|]. apply IH.
Qed.

Lemma length_omap_lookup {A} (l : list A) (perm : list nat) :
  Forall (λ j, j < length l) perm → length (omap (λ i, l !! i) perm) = length perm.
Proof.
  induction 1 as [|j perm Hj _ IH]; [done|]. cbn [omap list_omap].
  destruct (lookup_lt_is_Some_2 l j Hj) as [x ->]. cbn. by rewrite IH.
Qed.

Lemma report_lookup a b w :
  heap (push a (push b w)) !! (length (heap w) + 1) = Some a.
Proof.
  replace (length (heap w) + 1) with (length (heap (push b w)))
    by (rewrite heap_push_length; lia).
  apply heap_push_new.
Qed.

Lemma argsort_desc_bound (xs : list float64) :
  Forall (λ j, j < length xs) (argsort_desc xs).
Proof.
  rewrite (argsort_desc_perm xs). apply Forall_forall. intros j Hj.
  apply elem_of_seq in Hj. lia.
Qed.

Lemma global_scores_length Xdf m values :
  shap_values m Xdf = Ret values → length (global_scores values) = length (columns Xdf).
Proof.
  intros [Hlen _]%shap_values_shape. unfold global_scores. by rewrite length_fmap.
Qed.

(** X8. The rows of the report: row k of the sorted report carries as its
    index label the position j the feature has among the columns of the
    feature matrix (the labels are not renumbered by the sort), the name of
    column j and the mean absolute attribution of column j. *)
Theorem report_rows w m xr Xdf values :
  xgb_model (self w) = Some m →
  X (self w) = Some xr →
  heap w !! xr = Some Xdf →
  shap_values m Xdf = Ret values →
  ∃ out w' idx features scores,
    calculate_global_shap w = (Ret out, w') ∧
    heap w' !! out = Some {| index := idx;
                             frame_data := [("FEATURE", ObjectCol features);
                                            ("GLOBAL_SHAP", Float64Col scores)] |} ∧
    length idx = length (columns Xdf) ∧
    idx ≡ₚ Z.of_nat <$> seq 0 (length (columns Xdf)) ∧
    ∀ k label, idx !! k = Some label →
      ∃ j name v,
        label = Z.of_nat j ∧
        columns Xdf !! j = Some name ∧ values !! j = Some v ∧
        features !! k = Some (PyStr name) ∧
        scores !! k = Some (np_mean (fabs <$> v)).
Proof.
  intros Hm HX Hxr Hshap.
  pose proof (global_scores_length _ _ _ Hshap) as Hgs.
  pose proof (argsort_desc_bound (global_scores values)) as Hbound.
  pose proof (argsort_desc_perm (global_scores values)) as Hperm.
  set (perm := argsort_desc (global_scores values)) in *.
  set (K := length (columns Xdf)) in *.
  eexists _, _, _, _, _. split; [by eapply calculate_run|].
  split.
  { rewrite report_lookup. unfold sorted_importance, take_rows, frame_lift,
      feature_importance. cbn [index frame_data fmap list_fmap prod_map col_lift fst snd id].
    reflexivity. }
  fold perm K.
  assert (Hidx : omap (λ i, (Z.of_nat <$> seq 0 K) !! i) perm = Z.of_nat <$> perm).
  { clear Hperm. rewrite Hgs in Hbound.
    induction Hbound as [|j l Hj _ IH]; [done|]. cbn [omap list_omap].
    rewrite list_lookup_fmap, lookup_seq_lt by done. cbn. by rewrite IH. }
  rewrite Hidx. split.
  { rewrite length_fmap, Hperm, length_seq. done. }
  split.
  { by rewrite Hperm, Hgs. }
  intros k label Hk. rewrite list_lookup_fmap in Hk.
  destruct (perm !! k) as [j|] eqn:Hj; [|done]. injection Hk as <-.
  assert (HjK : j < K).
  { rewrite <- Hgs. eapply (Forall_lookup_1 _ _ _ _ Hbound), Hj. }
  destruct (lookup_lt_is_Some_2 (columns Xdf) j HjK) as [name Hname].
  destruct (lookup_lt_is_Some_2 values j) as [v Hv].
  { apply shap_values_shape in Hshap as [-> _]. done. }
  exists j, name, v. split; [done|]. split; [done|]. split; [done|]. split.
  - rewrite lookup_omap_lookup, Hj; cbn.
    + by rewrite list_lookup_fmap, Hname.
    + rewrite length_fmap. fold K. by rewrite <- Hgs.
  - rewrite lookup_omap_lookup, Hj by done; cbn.
    unfold global_scores. by rewrite list_lookup_fmap, Hv.
Qed.

Lemma trained_world_X w df P' X1 m :
  heap (trained_world w df P' X1 m) !! (length (heap w) + 3) = Some X1.
Proof.
  unfold trained_world, with_self. cbn [heap].
  replace (length (heap w) + 3)
    with (length (heap (push P' (push (iloc_from 1 df) (push df w)))))
    by (rewrite !heap_push_length; lia).
  apply heap_push_new.
Qed.

(** X10. A [predict] call that fails at its last statement has trained the
    predictor. On an input with a DATE column and without a LOCATION column
    on which XGBoost fits and predicts, [predict] raises the KeyError of the
    column selection, and the model and the feature matrix of the failed
    call are the attributes of the predictor: [calculate_global_shap] then
    does not raise the not-trained error, it reports on that matrix. *)
Theorem failed_predict_trains w input df temp spectrum m predicted :
  heap w !! input = Some df →
  wf_frame df →
  lookup_col "TEMP" (frame_data df) = Some temp →
  is_numeric_dtype temp = true →
  "HOUR_OF_DAY" ∈ columns df →
  fft (to_numpy temp) = Ret spectrum →
  "DATE" ∈ columns df →
  "LOCATION" ∉ columns df →
  let Xdf := feature_matrix (prepared df spectrum) in
  xgb_fit xgb_params Xdf (col_lift (λ A, List.skipn 1) temp) = Ret m →
  xgb_predict m Xdf = Ret predicted →
  ∃ w' Xr,
    predict input w = (Raise (KeyError "['LOCATION'] not in index"), w') ∧
    self w' = {| xgb_model := Some m; X := Some Xr |} ∧
    heap w' !! Xr = Some Xdf ∧
    (calculate_global_shap w').1 ≠ Raise not_trained_error ∧
    ∀ values, shap_values m Xdf = Ret values →
      ∃ out w'', calculate_global_shap w' = (Ret out, w'') ∧
                 heap w'' !! out = Some (sorted_importance Xdf values).
Proof.
  intros Hin Hwf Htemp Hnum Hhour Hfft Hdate Hloc Xdf Hfit Hpred.
  pose proof (predict_without_location w input df temp spectrum
                Hin Hwf Htemp Hnum Hhour Hfft Hdate Hloc) as Hrun.
  cbv zeta in Hrun. fold Xdf in Hrun. rewrite Hfit, Hpred in Hrun.
  set (w' := trained_world w df
               (assign "PREDICTED_TEMP" (Float64Col predicted) (prepared df spectrum))
               Xdf m) in *.
  assert (HX : heap w' !! (length (heap w) + 3) = Some Xdf) by apply trained_world_X.
  exists w', (length (heap w) + 3). split; [done|]. split; [done|]. split; [done|].
  split.
  - destruct (shap_values m Xdf) as [values|e] eqn:Hshap.
    + by erewrite calculate_run.
    + by erewrite calculate_explainer_raises.
  - intros values Hshap. eexists _, _. split; [by eapply calculate_run|].
    apply report_lookup.
Qed.

(** X11. [predict] followed by [calculate_global_shap], as the notebook
    calls them. After a [predict] call that returns, the second call raises
    none of the errors of the class: either the explainer raises, or the
    call returns a report on the feature matrix of the [predict] call, in a
    new frame, and the frame [predict] returned is still there, unchanged. *)
Theorem predict_then_shap w input out w' :
  predict input w = (Ret out, w') →
  ∃ m Xr Xdf,
    self w' = {| xgb_model := Some m; X := Some Xr |} ∧
    heap w' !! Xr = Some Xdf ∧
    match shap_values m Xdf with
    | Raise e => calculate_global_shap w' = (Raise (External e), w')
    | Ret values =>
        ∃ w'', calculate_global_shap w' = (Ret (out + 2), w'') ∧
               heap w'' !! (out + 2) = Some (sorted_importance Xdf values) ∧
               heap w'' !! out = heap w' !! out ∧
               is_Some (heap w' !! out) ∧
               self w'' = self w'
    end.
Proof.
  intros Hrun.
  destruct (predict_inv _ _ _ _ Hrun)
    as (df & temp & spectrum & y & m & predicted & Hprep & Hin & Htemp & Hfft
        & HabsX & Hy & Hfit & Hpred & HabsO & -> & ->).
  set (P := prepared df spectrum) in *.
  set (P' := assign "PREDICTED_TEMP" (Float64Col predicted) P) in *.
  set (W := trained_world w df P' (feature_matrix P) m).
  set (w' := push (only output_columns P') W).
  assert (HX : heap w' !! (length (heap w) + 3) = Some (feature_matrix P)).
  { apply heap_push_old, trained_world_X. }
  assert (Hout : heap w' !! (length (heap w) + 4) = Some (only output_columns P')).
  { rewrite <- (trained_world_length w df P' (feature_matrix P) m). apply heap_push_new. }
  assert (Hlen : length (heap w') = length (heap w) + 5).
  { unfold w'. rewrite heap_push_length. unfold W. rewrite trained_world_length. lia. }
  exists m, (length (heap w) + 3), (feature_matrix P).
  split; [done|]. split; [done|].
  destruct (shap_values m (feature_matrix P)) as [values|e] eqn:Hshap.
  - eexists. split.
    { erewrite calculate_run; [|done..]. rewrite Hlen. do 2 f_equal. lia. }
    split.
    { replace (length (heap w) + 4 + 2) with (length (heap w') + 1) by lia.
      apply report_lookup. }
    split; [|split; [by eexists|done]].
    rewrite Hout. by do 2 apply heap_push_old.
  - by eapply calculate_explainer_raises.
Qed.

Lemma prepare_data_mismatch_message w input df temp spectrum :
  heap w !! input = Some df →
  absent df required_columns = [] →
  lookup_col "TEMP" (frame_data df) = Some temp →
  is_numeric_dtype temp = true →
  fft (to_numpy temp) = Ret spectrum →
  ¬ fits df spectrum →
  prepare_data input w =
    (Raise (ValueError ("Length of values ("
                        +:+ pretty (length (complex_abs <$> List.skipn 1 spectrum))
                        +:+ ") does not match length of index ("
                        +:+ pretty (nrows (iloc_from 1 df)) +:+ ")")),
     push (iloc_from 1 df) (push (iloc_from 1 df) (push df w))).
Proof.
  intros Hin Habs Htemp Hnum Hfft Hlen. unfold prepare_data.
  run (by apply deref_ok).
  rewrite decide_False by (by rewrite Habs; intros []).
  run (by eapply getitem_ok).
  rewrite Hnum. cbn [negb].
  run (by apply copy_ok).
  run (eapply getitem_ok; [apply heap_push_new|done]).
  run (by apply call_ok).
  run (apply iloc_ok, heap_push_new).
  run (apply copy_ok, heap_push_new).
  apply bind_raise. unfold setitem.
  run (apply deref_ok, heap_push_new).
  rewrite decide_False; [done|]. simpl. by rewrite length_fmap.
Qed.

(** X12. [prepare_data] neither reads nor writes the attributes of the
    predictor: whatever they are, the outcome and the frames are the same,
    and the attributes are still there afterwards. *)
Theorem prepare_data_ignores_self w a input :
  prepare_data input (with_self a w)
  = ((prepare_data input w).1, with_self a (prepare_data input w).2).
Proof.
  destruct (heap w !! input) as [df|] eqn:Hin.
  2:{ by rewrite !prepare_data_dangling by done. }
  destruct (decide (absent df required_columns = [])) as [Habs|Habs].
  2:{ by rewrite !(prepare_data_missing _ input df) by done. }
  destruct (required_present df Habs) as [temp Htemp].
  destruct (is_numeric_dtype temp) eqn:Hnum.
  2:{ by rewrite !(prepare_data_not_numeric _ input df temp) by done. }
  destruct (fft (to_numpy temp)) as [spectrum|e] eqn:Hfft.
  2:{ by rewrite !(prepare_data_fft_raises _ input df temp e) by done. }
  destruct (decide (length (List.skipn 1 spectrum) = nrows (iloc_from 1 df)))
    as [Hfits|Hfits].
  - by rewrite !(prepare_data_run _ input df temp spectrum) by done.
  - by rewrite !(prepare_data_mismatch_message _ input df temp spectrum) by done.
Qed.

Lemma predict_run w input df temp spectrum :
  heap w !! input = Some df →
  wf_frame df →
  lookup_col "TEMP" (frame_data df) = Some temp →
  is_numeric_dtype temp = true →
  "HOUR_OF_DAY" ∈ columns df →
  fft (to_numpy temp) = Ret spectrum →
  "DATE" ∈ columns df →
  "LOCATION" ∈ columns df →
  let P := prepared df spectrum in
  let Xdf := feature_matrix P in
  let y := col_lift (λ A, List.skipn 1) temp in
  predict input w =
    match xgb_fit xgb_params Xdf y with
    | Raise e => (Raise (External e), push Xdf (prepared_world w df spectrum))
    | Ret m =>
        match xgb_predict m Xdf with
        | Raise e => (Raise (External e), push Xdf (prepared_world w df spectrum))
        | Ret predicted =>
            let P' := assign "PREDICTED_TEMP" (Float64Col predicted) P in
            (Ret (length (heap w) + 4),
             push (only output_columns P') (trained_world w df P' Xdf m))
        end
    end.
Proof.
  intros Hin Hwf Htemp Hnum Hhour Hfft Hdate Hloc P Xdf y.
  assert (Habs : absent df required_columns = []).
  { apply required_absent_nil. split; [by eapply lookup_col_columns | done]. }
  destruct (wf_fits df temp spectrum) as [Hlen Hfits]; [done..|].
  assert (HwfP : wf_frame P) by by eapply wf_prepared.
  unfold predict. run (by eapply prepare_data_run).
  fold P. fold (prepared_world w df spectrum).
  set (w1 := prepared_world w df spectrum).
  assert (HP : heap w1 !! (length (heap w) + 2) = Some P) by apply prepared_lookup.
  assert (HabsX : absent P ["TEMP"; "DATE"] = []).
  { rewrite absent_cons, decide_True, absent_cons, decide_True; [done| |];
      subst P; rewrite elem_of_columns_prepared; right; [done|by eapply lookup_col_columns]. }
  assert (Hy : lookup_col "TEMP" (frame_data P) = Some y).
  { subst P. rewrite lookup_col_prepared by done. by rewrite Htemp. }
  run (by apply drop_ok).
  set (X0 := without ["TEMP"; "DATE"] P).
  run (eapply getitem_ok; [by apply heap_push_old|done]).
  run (apply deref_ok, heap_push_new).
  assert (HlocP : "LOCATION" ∈ columns P).
  { subst P. rewrite elem_of_columns_prepared. by right. }
  assert (HlocX : "LOCATION" ∈ columns X0).
  { unfold X0. rewrite columns_without. apply list_elem_of_filter. split; [|done].
    by intros [?|[?|?%elem_of_nil]%elem_of_cons]%elem_of_cons. }
  rewrite decide_True by done.
  pose proof HlocX as [location Hlocation]%lookup_col_is_Some.
  assert (Hstep : (location ← getitem (length (heap w1)) "LOCATION";
                   setitem (length (heap w1)) "LOCATION" (astype_category location))
                    (push X0 w1) = (Ret (), push Xdf w1)).
  { erewrite bind_ret; [|by eapply getitem_ok; [apply heap_push_new|]].
    erewrite setitem_ok; [|apply heap_push_new|].
    - rewrite update_last. unfold Xdf, feature_matrix. cbv zeta. fold X0.
      by rewrite Hlocation.
    - cbn [astype_category col_length]. rewrite col_objects_length.
      eapply wf_frame_lookup; [|done]. by apply wf_without. }
  run (exact Hstep).
  run (apply deref_ok, heap_push_new).
  fold y. destruct (xgb_fit xgb_params Xdf y) as [m|e] eqn:Hfit.
  2:{ apply bind_raise. by apply call_raise. }
  run (by apply call_ok).
  destruct (xgb_predict m Xdf) as [predicted|e] eqn:Hpred.
  2:{ apply bind_raise. by apply call_raise. }
  run (by apply call_ok).
  assert (Hrows : col_length (Float64Col predicted) = nrows P).
  { apply xgb_predict_length in Hpred. cbn [col_length]. rewrite Hpred.
    unfold nrows, Xdf. by rewrite index_feature_matrix. }
  run (apply setitem_ok; [by apply heap_push_old|done]).
  run (reflexivity). run (reflexivity). run (reflexivity). run (reflexivity).
  cbv zeta.
  set (P' := assign "PREDICTED_TEMP" (Float64Col predicted) P).
  match goal with |- select _ _ ?W = _ =>
    assert (W = trained_world w df P' Xdf m) as ->
  end.
  { unfold trained_world, with_self, w1, prepared_world. cbn [heap self].
    rewrite update_push by (rewrite !heap_push_length; lia).
    replace (length (heap w) + 2)
      with (length (heap (push (iloc_from 1 df) (push df w))))
      by (rewrite !heap_push_length; lia).
    rewrite update_last, !heap_push_length. do 3 f_equal. lia. }
  assert (HabsO : absent P' output_columns = []).
  { apply absent_nil. intros l Hl. unfold P'. rewrite elem_of_columns_assign.
    unfold output_columns in Hl.
    apply elem_of_cons in Hl as [->|Hl]; [right; subst P; rewrite elem_of_columns_prepared; by right|].
    apply elem_of_cons in Hl as [->|Hl]; [by right|].
    apply elem_of_cons in Hl as [->|Hl]; [right; subst P; rewrite elem_of_columns_prepared; by right|].
    apply elem_of_cons in Hl as [->|Hl];
      [right; subst P; rewrite elem_of_columns_prepared; right; by eapply lookup_col_columns|].
    apply list_elem_of_singleton in Hl as ->. by left. }
  erewrite select_ok; [|apply trained_world_lookup|done].
  by rewrite trained_world_length.
Qed.

(** X13. What [predict] needs. On a rectangular input with at least one
    row that has the columns TEMP (numeric), HOUR_OF_DAY, DATE and
    LOCATION, none of [predict]'s own statements raises: the call returns
    exactly when XGBoost fits and predicts, and otherwise raises the error
    of the library, with the attributes of the predictor unchanged. *)
Theorem predict_complete_input w input df temp :
  heap w !! input = Some df →
  wf_frame df →
  lookup_col "TEMP" (frame_data df) = Some temp →
  is_numeric_dtype temp = true →
  "HOUR_OF_DAY" ∈ columns df →
  "DATE" ∈ columns df →
  "LOCATION" ∈ columns df →
  1 ≤ nrows df →
  ∃ spectrum w',
    fft (to_numpy temp) = Ret spectrum ∧
    let Xdf := feature_matrix (prepared df spectrum) in
    let y := col_lift (λ A, List.skipn 1) temp in
    match xgb_fit xgb_params Xdf y with
    | Raise e => predict input w = (Raise (External e), w') ∧ self w' = self w
    | Ret m =>
        match xgb_predict m Xdf with
        | Raise e => predict input w = (Raise (External e), w') ∧ self w' = self w
        | Ret predicted =>
            predict input w = (Ret (length (heap w) + 4), w') ∧
            self w' = {| xgb_model := Some m; X := Some (length (heap w) + 3) |} ∧
            heap w' !! (length (heap w) + 3) = Some Xdf
        end
    end.
Proof.
  intros Hin Hwf Htemp Hnum Hhour Hdate Hloc Hn.
  destruct (prepare_data_accepts w input df temp) as (spectrum & Hfft & _); [done..|].
  pose proof (predict_run w input df temp spectrum
                Hin Hwf Htemp Hnum Hhour Hfft Hdate Hloc) as Hrun.
  cbv zeta in Hrun |- *. exists spectrum.
  destruct (xgb_fit _ _ _) as [m|e].
  - destruct (xgb_predict _ _) as [predicted|e].
    + eexists. split; [done|]. split; [exact Hrun|]. split; [done|].
      apply heap_push_old, trained_world_X.
    + eexists. split; [done|]. split; [exact Hrun|done].
  - eexists. split; [done|]. split; [exact Hrun|done].
Qed.

End More.
End WPMore.


(** * The generator, the selection and the class together *)
Module Pipeline.
Import Gen GenSpec WP WPSpec WPMore.

Section Composition.
Context `{L : Library} `{N : Numpy}.

(** With no location or zero days there is no row, and no column. *)
Lemma blocks_empty start num_days locations rng :
  length locations * num_days = 0 →
  blocks start (num_days * 24) locations rng = ([], rng).
Proof.
  intros [Hl| ->]%Nat.eq_mul_0.
  - by apply nil_length_inv in Hl as ->.
  - apply blocks_no_hours.
Qed.

(** X15. The generator without locations or without days, and what the
    rest of the notebook does with its table. No random number is drawn;
    the table has no rows and, unlike a table with rows, no columns; the
    selection of a location raises the KeyError of the missing LOCATION
    column (here: gives nothing), and [prepare_data] raises the
    missing-columns error, naming both required columns. *)
Theorem generate_nothing start_date num_days locations rng w input :
  length locations * num_days = 0 →
  ∃ df,
    generate_temperature_data start_date num_days locations rng = Some (df, rng) ∧
    nrows df = 0 ∧ columns df = [] ∧
    (∀ location, where_eq df "LOCATION" location = None) ∧
    (heap w !! input = Some df →
     prepare_data input w
     = (Raise (missing_columns_error (set_order ["TEMP"; "HOUR_OF_DAY"])), w)).
Proof.
  intros Hempty. eexists. split.
  { rewrite generate_closed, blocks_empty by done. reflexivity. }
  split; [done|]. split; [done|]. split; [done|].
  intros Hin. rewrite (prepare_data_missing w input _ Hin); [done|]. compute_done.
Qed.

Lemma selected_length start total_hours locations rng k :
  k < length locations →
  length (selected start total_hours locations rng k) = total_hours.
Proof.
  intros Hk. unfold selected. rewrite length_take, length_drop, blocks_length. nia.
Qed.

Lemma selected_location start total_hours (locations : list string) rng k location :
  NoDup locations →
  locations !! k = Some location →
  Forall (λ o, LOCATION o = location) (selected start total_hours locations rng k).
Proof.
  intros Hnd Hk.
  pose proof (mask_blocks start total_hours locations k location rng Hnd Hk) as Hmask.
  assert (Hsel : location_mask location (selected start total_hours locations rng k)
                 = replicate total_hours true).
  { unfold selected, location_mask in *. rewrite fmap_take, fmap_drop, Hmask.
    rewrite drop_app_length' by by rewrite length_replicate.
    rewrite take_app_length' by by rewrite length_replicate. done. }
  apply Forall_forall. intros o [i Hi]%list_elem_of_lookup_1.
  assert (Hb : location_mask location (selected start total_hours locations rng k) !! i
               = Some (bool_decide (LOCATION o = location))).
  { unfold location_mask. by rewrite list_lookup_fmap, Hi. }
  rewrite Hsel in Hb. apply lookup_replicate in Hb as [Hb _].
  by apply bool_decide_eq_true in Hb.
Qed.

Lemma rows_from_records a n rows :
  take n (list.drop a rows) ≠ [] →
  rows_from a n (frame_of_records rows)
  = {| index := Z.of_nat <$> seq a (length (take n (list.drop a rows)));
       frame_data := frame_data (frame_of_records (take n (list.drop a rows))) |}.
Proof.
  intros Hsel.
  assert (Hrows : rows ≠ []).
  { intros ->. by rewrite drop_nil, take_nil in Hsel. }
  rewrite !generated_frame_data by done.
  unfold rows_from, frame_lift, frame_of_records.
  destruct rows as [|o rows'] eqn:Hr; [done|]. rewrite <- Hr in *. clear Hr.
  cbn [index frame_data fmap list_fmap prod_map col_lift fst snd id].
  rewrite <- !fmap_drop, <- !fmap_take. f_equal.
  f_equal. rewrite drop_seq, take_seq, length_take, length_drop. cbn [Nat.add]. done.
Qed.


Lemma fmap_constant {A B} (f : A → B) (c : B) (l : list A) :
  Forall (λ x, f x = c) l → f <$> l = replicate (length l) c.
Proof. induction 1 as [|x l Hx _ IH]; [done|]. cbn. by rewrite Hx, IH. Qed.

(** X16. The notebook's pipeline for one location: generate, select the
    location, [predict]. For distinct locations and at least one day, the
    selected table has everything [predict] needs, so that [predict]
    raises no error of its own: it returns when XGBoost fits and predicts.
    The feature matrix has the columns LOCATION, HOUR_OF_DAY, RANDOM_NOISE
    and TEMP_FFT and one row less than the location has hours; its
    LOCATION column is constant. The returned frame keeps the index labels
    the rows had in the generated table. *)
Theorem predict_on_location start_date num_days (locations : list string) rng k location
    w input :
  0 < num_days →
  NoDup locations →
  locations !! k = Some location →
  ∃ df rng' ny temp,
    generate_temperature_data start_date num_days locations rng = Some (df, rng') ∧
    where_eq df "LOCATION" location = Some ny ∧
    wf_frame ny ∧ nrows ny = num_days * 24 ∧ columns ny = generated_columns ∧
    lookup_col "TEMP" (frame_data ny) = Some temp ∧
    (heap w !! input = Some ny →
     ∃ spectrum w',
       fft (to_numpy temp) = Ret spectrum ∧
       let Xdf := feature_matrix (prepared ny spectrum) in
       let y := col_lift (λ A, List.skipn 1) temp in
       columns Xdf = ["LOCATION"; "HOUR_OF_DAY"; "RANDOM_NOISE"; "TEMP_FFT"] ∧
       nrows Xdf = num_days * 24 - 1 ∧
       lookup_col "LOCATION" (frame_data Xdf)
         = Some (CategoryCol (replicate (num_days * 24 - 1) (PyStr location))) ∧
       match xgb_fit xgb_params Xdf y with
       | Raise e => predict input w = (Raise (External e), w')
       | Ret m =>
           match xgb_predict m Xdf with
           | Raise e => predict input w = (Raise (External e), w')
           | Ret predicted =>
               ∃ result,
                 predict input w = (Ret (length (heap w) + 4), w') ∧
                 heap w' !! (length (heap w) + 4) = Some result ∧
                 index result
                   = Z.of_nat <$> seq (k * (num_days * 24) + 1) (num_days * 24 - 1)
           end
       end).
Proof.
  intros Hdays Hnd Hk.
  pose proof (where_eq_rows start_date num_days locations rng k location Hdays Hnd Hk)
    as Hwhere.
  cbv zeta in Hwhere.
  set (T := num_days * 24) in *.
  pose proof (lookup_lt_Some _ _ _ Hk) as HkL.
  pose proof (selected_length start_date T locations rng k HkL) as Hlen.
  pose proof (selected_location start_date T locations rng k location Hnd Hk) as Hloc.
  assert (Hsel : selected start_date T locations rng k ≠ []).
  { intros Hnil. rewrite Hnil in Hlen. cbn in Hlen. lia. }
  unfold selected in *.
  rewrite rows_from_records in Hwhere by done.
  set (sel := take T (list.drop (k * T) (blocks start_date T locations rng).1)) in *.
  rewrite generated_frame_data, Hlen in Hwhere by done.
  match type of Hwhere with _ = Some ?f => set (ny := f) in * end.
  assert (Hwf : wf_frame ny).
  { unfold wf_frame, nrows, ny. cbn [index frame_data].
    repeat constructor; cbn [snd col_length]; by rewrite !length_fmap, length_seq. }
  assert (Hn : nrows ny = T).
  { unfold nrows, ny. cbn [index]. by rewrite length_fmap, length_seq. }
  eexists _, _, ny, (Float64Col (TEMP <$> sel)).
  split; [apply generate_closed|]. split; [exact Hwhere|].
  split; [done|]. split; [done|]. split; [done|]. split; [done|].
  intros Hin.
  assert (Hhour : "HOUR_OF_DAY" ∈ columns ny) by compute_done.
  assert (Hdate : "DATE" ∈ columns ny) by compute_done.
  assert (Hlocation : "LOCATION" ∈ columns ny) by compute_done.
  destruct (prepare_data_accepts w input ny (Float64Col (TEMP <$> sel)))
    as (spectrum & Hfft & _); [done..|lia|].
  pose proof (predict_run w input ny (Float64Col (TEMP <$> sel)) spectrum
                Hin Hwf eq_refl eq_refl Hhour Hfft Hdate Hlocation) as Hrun.
  cbv zeta in Hrun |- *. exists spectrum.
  set (P := prepared ny spectrum) in *.
  assert (Hcols : columns (feature_matrix P)
                  = ["LOCATION"; "HOUR_OF_DAY"; "RANDOM_NOISE"; "TEMP_FFT"]).
  { rewrite columns_feature_matrix. unfold P. rewrite columns_prepared. done. }
  assert (Hrows : nrows (feature_matrix P) = T - 1).
  { unfold nrows. rewrite index_feature_matrix. unfold P.
    pose proof (nrows_prepared ny spectrum) as HnP. unfold nrows in HnP.
    rewrite HnP. unfold nrows in Hn. by rewrite Hn. }
  assert (HlocX : lookup_col "LOCATION" (frame_data (feature_matrix P))
                  = Some (CategoryCol (replicate (T - 1) (PyStr location)))).
  { rewrite lookup_location_feature_matrix. unfold P.
    rewrite lookup_col_prepared by done.
    change (lookup_col "LOCATION" (frame_data ny))
      with (Some (ObjectCol ((λ o, PyStr (LOCATION o)) <$> sel))).
    cbn [fmap option_fmap option_map col_lift astype_category col_objects].
    do 2 f_equal.
    rewrite (fmap_constant (λ o, PyStr (LOCATION o)) (PyStr location)).
    - rewrite Hlen. destruct T; [done|]. cbn. by rewrite Nat.sub_0_r.
    - eapply Forall_impl; [exact Hloc|]. by intros o ->. }
  destruct (xgb_fit _ _ _) as [m|e].
  2:{ eexists. split; [done|]. do 3 (split; [done|]). exact Hrun. }
  destruct (xgb_predict _ _) as [predicted|e].
  2:{ eexists. split; [done|]. do 3 (split; [done|]). exact Hrun. }
  eexists. split; [done|]. do 3 (split; [done|]).
  eexists. split; [exact Hrun|]. split.
  { rewrite <- (trained_world_length w ny
                  (assign "PREDICTED_TEMP" (Float64Col predicted) P) (feature_matrix P) m).
    apply heap_push_new. }
  unfold only, assign, P, prepared, iloc_from, frame_lift, ny. cbn [index].
  rewrite <- fmap_drop. f_equal. by rewrite drop_seq.
Qed.

End Composition.
End Pipeline.

(** * Runs on concrete frames *)
Module Runs.
Import WP WPSpec Example ExampleFacts.

(** ** The embedding at work *)

Example two_hours_prepared :
  ∃ w', prepare_data (L:=stable) 0 (fresh [two_hours]) = (Ret 3, w') ∧
        heap w' !! 0 = Some two_hours ∧
        heap w' !! 3 =
          Some {| index := [1%Z];
                  frame_data := [("DATE", DatetimeCol [3600%Z]);
                                 ("TEMP", Float64Col [Finite 2]);
                                 ("LOCATION", ObjectCol [PyStr "New York"]);
                                 ("HOUR_OF_DAY", Int64Col [1%Z]);
                                 ("TEMP_FFT", Float64Col [Finite 1])] |}.
Proof. eexists. split; [vm_compute; reflexivity|]. split; reflexivity. Qed.

Example no_temp_message :
  (prepare_data (L:=stable) 0 (fresh [no_temp])).1
  = Raise (KeyError "Missing required columns: {'TEMP'}").
Proof. vm_compute. reflexivity. Qed.

Example two_hours_report :
  ∃ w scores,
    (predict (L:=stable) 0 (fresh [two_hours])).2 = w ∧
    heap (calculate_global_shap w).2 !! 7 =
      Some {| index := [1; 2; 0]%Z;
              frame_data :=
                [("FEATURE", ObjectCol [PyStr "HOUR_OF_DAY"; PyStr "TEMP_FFT";
                                        PyStr "LOCATION"]);
                 ("GLOBAL_SHAP", Float64Col scores)] |}.
Proof. eexists _, _. split; [reflexivity|]. vm_compute. reflexivity. Qed.

(** ** The claims at concrete inputs *)

Lemma prepare_data_drops_first_row_run :
  ∃ out w' result,
    prepare_data (L:=stable) 0 (fresh [two_hours]) = (Ret out, w') ∧
    heap w' !! out = Some result ∧
    nrows result = 1 ∧
    index result = [1%Z].
Proof.
  destruct (prepare_data_drops_first_row (L:=stable) (fresh [two_hours]) 0 two_hours
              (Float64Col [Finite 3; Finite 2]))
    as (out & w' & result & spectrum & Hrun & Hout & _ & Hn & Hidx & _).
  - reflexivity.
  - repeat constructor.
  - reflexivity.
  - reflexivity.
  - compute_done.
  - vm_compute. lia.
  - by exists out, w', result.
Defined.

Lemma prepare_data_length_unchecked_run :
  ∃ out w' result,
    prepare_data (L:=stable) 0 (fresh [one_hour]) = (Ret out, w') ∧
    heap w' !! out = Some result ∧
    nrows result = 0.
Proof.
  pose proof (prepare_data_length_unchecked (L:=stable) (fresh [one_hour]) 0 one_hour
                (Float64Col [Finite 15])) as H.
  simpl in H. apply H.
  - reflexivity.
  - repeat constructor.
  - reflexivity.
  - reflexivity.
  - compute_done.
Defined.

Lemma not_trained_iff_no_model_run :
  calculate_global_shap (L:=stable) (fresh [two_hours])
    = (Raise not_trained_error, fresh [two_hours]) ∧
  (calculate_global_shap (predict (L:=stable) 0 (fresh [two_hours])).2).1
    ≠ Raise not_trained_error.
Proof.
  destruct (not_trained_iff_no_model (L:=stable)) as (_ & Hnew & Hafter). split.
  - apply Hnew. reflexivity.
  - eapply (Hafter (fresh [two_hours]) 0 5). reflexivity.
Defined.

Lemma prepare_data_missing_fields_run :
  ∃ msg, prepare_data (L:=stable) 0 (fresh [no_temp]) = (Raise (KeyError msg), fresh [no_temp])
         ∧ mentions msg "TEMP".
Proof.
  destruct (prepare_data_missing_fields (L:=stable) (fresh [no_temp]) 0 no_temp)
    as (missing & Hrun & _ & _ & Htemp).
  - reflexivity.
  - left. compute_done.
  - eexists. split; [exact Hrun|]. apply Htemp. compute_done.
Defined.

Lemma prepare_data_rejects_non_numeric_run :
  prepare_data (L:=stable) 0 (fresh [text_temp])
    = (Raise (ValueError "'TEMP' column must be numeric."), fresh [text_temp]).
Proof.
  apply (prepare_data_rejects_non_numeric (L:=stable) (fresh [text_temp]) 0 text_temp
           (ObjectCol [PyStr "warm"; PyStr "cold"])).
  - reflexivity.
  - reflexivity.
  - reflexivity.
  - compute_done.
Defined.

Lemma global_shap_report_run :
  ∃ out w' scores,
    calculate_global_shap (predict (L:=stable) 0 (fresh [two_hours])).2 = (Ret out, w') ∧
    length scores = 3 ∧
    Forall nonneg scores.
Proof.
  destruct (global_shap_report (L:=stable) (predict (L:=stable) 0 (fresh [two_hours])).2
              [Finite 2] 4
              {| index := [1%Z];
                 frame_data := [("LOCATION", CategoryCol [PyStr "New York"]);
                                ("HOUR_OF_DAY", Int64Col [1%Z]);
                                ("TEMP_FFT", Float64Col [Finite 1])] |}
              [[Finite 0]; [Finite 1]; [Finite 1]])
    as (out & w' & idx & features & scores & Hrun & _ & _ & Hlen & _ & Hpos).
  - reflexivity.
  - reflexivity.
  - reflexivity.
  - reflexivity.
  - exists out, w', scores. split; [exact Hrun|]. split; [exact Hlen|exact Hpos].
Defined.

Lemma predict_returns_and_retains_run :
  ∃ result Xr Xdf m,
    heap (predict (L:=stable) 0 (fresh [two_hours])).2 !! 5 = Some result ∧
    columns result = ["DATE"; "LOCATION"; "HOUR_OF_DAY"; "TEMP"; "PREDICTED_TEMP"] ∧
    self (predict (L:=stable) 0 (fresh [two_hours])).2
      = {| xgb_model := Some m; X := Some Xr |} ∧
    heap (predict (L:=stable) 0 (fresh [two_hours])).2 !! Xr = Some Xdf ∧
    columns Xdf = ["LOCATION"; "HOUR_OF_DAY"; "TEMP_FFT"].
Proof.
  destruct (predict_returns_and_retains (L:=stable) (fresh [two_hours]) 0 5
              (predict (L:=stable) 0 (fresh [two_hours])).2)
    as (p & w1 & P & result & y & Xr & Xdf & m & predicted & Hprep & HP & Hres & Hcols
        & _ & _ & _ & Hself & HX & _ & _ & _ & _ & HXcols & _).
  - reflexivity.
  - exists result, Xr, Xdf, m. do 4 (split; [assumption|]).
    rewrite HXcols. vm_compute in Hprep. injection Hprep as <- <-.
    vm_compute in HP. injection HP as <-. reflexivity.
Defined.

Lemma predict_needs_date_and_location_run :
  (∃ w', predict (L:=stable) 0 (fresh [no_date])
         = (Raise (KeyError "['DATE'] not found in axis"), w')) ∧
  (∃ w', predict (L:=stable) 0 (fresh [no_location])
         = (Raise (KeyError "['LOCATION'] not in index"), w')).
Proof.
  split.
  - destruct (predict_needs_date_and_location (L:=stable) (fresh [no_date]) 0 no_date
                (Float64Col [Finite 3; Finite 2])
                [(Finite (3 + 2), Finite 0); (Finite (3 + - 2), Finite 0)])
      as [Hdate _].
    + reflexivity.
    + repeat constructor.
    + reflexivity.
    + reflexivity.
    + compute_done.
    + reflexivity.
    + destruct Hdate as (w' & Hrun & _); [compute_done|]. by exists w'.
  - destruct (predict_needs_date_and_location (L:=stable) (fresh [no_location]) 0 no_location
                (Float64Col [Finite 3; Finite 2])
                [(Finite (3 + 2), Finite 0); (Finite (3 + - 2), Finite 0)])
      as [_ Hloc].
    + reflexivity.
    + repeat constructor.
    + reflexivity.
    + reflexivity.
    + compute_done.
    + reflexivity.
    + destruct Hloc as (e & w' & Hrun & _ & He); [compute_done..|].
      exists w'. rewrite Hrun. by rewrite (He [Finite 2] [Finite 2]).
Defined.

(** ** Where the spec and the code part *)

(** Against C2: a single observation, and a sequence with a NaN, are both
    accepted; [prepare_data] returns a frame (empty in the first case). *)
Lemma prepare_data_accepts_short_and_nan :
  (∃ out w' result,
     nrows one_hour = 1 ∧
     prepare_data (L:=stable) 0 (fresh [one_hour]) = (Ret out, w') ∧
     heap w' !! out = Some result ∧
     nrows result = 0) ∧
  (∃ out w' result,
     lookup_col "TEMP" (frame_data with_nan) = Some (Float64Col [Finite 3; NaN]) ∧
     prepare_data (L:=stable) 0 (fresh [with_nan]) = (Ret out, w') ∧
     heap w' !! out = Some result ∧
     nrows result = 1).
Proof.
  split; eexists _, _, _; (split; [reflexivity|]);
    (split; [vm_compute; reflexivity|]); split; reflexivity.
Qed.

(** C3 at the failing input. [predict] tests for a LOCATION column before
    it converts it, and selects the column without a test in its last
    statement, after it has stored the model. On an input without a
    LOCATION column the only [predict] call so far has failed, and
    [calculate_global_shap] returns a report where the claim has the
    not-trained error. *)
Lemma model_stored_by_failed_predict :
  ∃ w' out w'',
    predict (L:=stable) 0 (fresh [no_location])
      = (Raise (KeyError "['LOCATION'] not in index"), w') ∧
    calculate_global_shap w' = (Ret out, w'') ∧
    (calculate_global_shap w').1 ≠ Raise not_trained_error.
Proof.
  eexists _, _, _. split; [vm_compute; reflexivity|].
  split; [vm_compute; reflexivity|]. vm_compute. discriminate.
Qed.

(** The other failure of [predict] on an input that [prepare_data]
    accepts: without a DATE column it fails before it stores anything, and
    [calculate_global_shap] raises the not-trained error. *)
Example failed_predict_without_date :
  ∃ w',
    predict (L:=stable) 0 (fresh [no_date])
      = (Raise (KeyError "['DATE'] not found in axis"), w') ∧
    calculate_global_shap w' = (Raise not_trained_error, w').
Proof. eexists. split; vm_compute; reflexivity. Qed.

(** Against C5: the temperature column is present and not numeric, the
    hour-of-day column is missing, and the error is the missing-columns
    error. *)
Lemma non_numeric_without_hour :
  ∃ temp,
    lookup_col "TEMP" (frame_data text_temp_only) = Some temp ∧
    is_numeric_dtype temp = false ∧
    prepare_data (L:=stable) 0 (fresh [text_temp_only])
      = (Raise (missing_columns_error ["HOUR_OF_DAY"]), fresh [text_temp_only]) ∧
    missing_columns_error ["HOUR_OF_DAY"] ≠ not_numeric_error.
Proof.
  eexists. split; [reflexivity|]. split; [reflexivity|]. split; [reflexivity|].
  discriminate.
Qed.

(** Against C7: 131 feature columns with the same score. The sort is the
    one of pandas and numpy; with more than 16 keys it partitions, and the
    partition exchanges equal keys: F97 comes before F95. *)
Lemma tied_scores_out_of_column_order :
  ∃ Xdf idx features scores,
    (predict (L:=pandas_sort) 0 (fresh [many_features])).1 = Ret 5 ∧
    let w := (predict (L:=pandas_sort) 0 (fresh [many_features])).2 in
    X (self w) = Some 4 ∧ heap w !! 4 = Some Xdf ∧
    length (columns Xdf) = 131 ∧
    (calculate_global_shap w).1 = Ret 7 ∧
    heap (calculate_global_shap w).2 !! 7 =
      Some {| index := idx;
              frame_data := [("FEATURE", ObjectCol features);
                             ("GLOBAL_SHAP", Float64Col scores)] |} ∧
    Forall (λ s, s = Finite 0) scores ∧
    nargsort_desc scores = Some (Z.to_nat <$> idx) ∧
    ¬ ties_keep_column_order (columns Xdf) features scores.
Proof.
  eexists _, _, _, _. split; [vm_compute; reflexivity|]. cbv zeta.
  split; [vm_compute; reflexivity|]. split; [vm_compute; reflexivity|].
  split; [vm_compute; reflexivity|]. split; [vm_compute; reflexivity|].
  split; [vm_compute; reflexivity|]. split; [repeat constructor|].
  split; [vm_compute; reflexivity|].
  intros Hties.
  assert (98 < 96); [|lia].
  eapply (Hties 1 2 "F97" "F95"); first [lia | vm_compute; reflexivity].
Qed.

End Runs.

(** * Runs of the generator and of the pipeline *)
Module MoreRuns.
Import Gen GenExample GenExampleFacts GenSpec WP Example ExampleFacts WPSpec WPMore Pipeline.

(** Hour 30 of a two-day table for two cities is hour 6 of the first
    city's second day. *)
Lemma generate_layout_run :
  ∃ df rng' hours locs,
    generate_temperature_data (N:=numpy) 0 2 cities 0 = Some (df, rng') ∧
    lookup_col "HOUR_OF_DAY" (frame_data df) = Some (Int64Col hours) ∧
    lookup_col "LOCATION" (frame_data df) = Some (ObjectCol locs) ∧
    hours !! 30 = Some 6%Z ∧ locs !! 30 = Some (PyStr "New York").
Proof.
  destruct (generate_layout (N:=numpy) 0 2 cities 0 30)
    as (df & rng' & dates & locs & hours & location & Hgen & _ & Hlocs & Hhours
        & Hloc & Hl & Hh & _).
  - vm_compute. lia.
  - exists df, rng', hours, locs. do 3 (split; [assumption|]).
    vm_compute in Hloc. injection Hloc as <-. split; assumption.
Defined.

(** The last row of a one-day table for two cities: hour 23, whose base
    temperature is 25 here, and the 48th pair of draws. *)
Lemma generate_values_run :
  ∃ df rng' temps noise v u,
    generate_temperature_data (N:=numpy) 0 1 cities 0 = Some (df, rng') ∧
    lookup_col "TEMP" (frame_data df) = Some (Float64Col temps) ∧
    lookup_col "RANDOM_NOISE" (frame_data df) = Some (Float64Col noise) ∧
    (draws (N:=numpy) 48 0).1 !! 47 = Some (Finite v, Finite u) ∧
    temps !! 47 = Some (fadd (Finite 25) (Finite v)) ∧
    noise !! 47 = Some (Finite u) ∧ (0 <= u)%Q ∧ (u <= 100)%Q.
Proof.
  destruct (generate_values (N:=numpy) 0 1 cities 0 47)
    as (df & rng' & temps & noise & b & v & u & Hgen & Htemps & Hnoise & Hdraw & Hb & _ & _
        & Htemp & Hu & Hlo & Hhi).
  - vm_compute. lia.
  - exists df, rng', temps, noise, v, u. do 4 (split; [assumption|]).
    vm_compute in Hb. injection Hb as <-. by split.
Defined.

Lemma where_eq_block_run :
  ∃ df rng' chicago,
    generate_temperature_data (N:=numpy) 0 1 cities 0 = Some (df, rng') ∧
    where_eq df "LOCATION" "Chicago" = Some chicago ∧
    index chicago = Z.of_nat <$> seq 24 24.
Proof.
  destruct (where_eq_block (N:=numpy) 0 1 cities 0 1 "Chicago")
    as (df & rng' & Hgen & Hwhere & _ & Hidx).
  - lia.
  - compute_done.
  - reflexivity.
  - by exists df, rng', (rows_from (1 * (1 * 24)) (1 * 24) df).
Defined.

Lemma generate_nothing_run :
  ∃ df,
    generate_temperature_data (N:=numpy) 0 0 cities 7 = Some (df, 7) ∧
    prepare_data (L:=stable) 0 (fresh [df])
    = (Raise (missing_columns_error ["TEMP"; "HOUR_OF_DAY"]), fresh [df]).
Proof.
  destruct (generate_nothing (L:=stable) (N:=numpy) 0 0 cities 7
              (fresh [{| index := []; frame_data := [] |}]) 0)
    as (df & Hgen & _ & _ & _ & Hprep).
  - reflexivity.
  - vm_compute in Hgen. injection Hgen as <-.
    eexists. split; [reflexivity|]. by apply Hprep.
Defined.


Lemma predict_on_location_run :
  ∃ out w' result Xr Xdf,
    predict (L:=stable) 0 (fresh [chicago]) = (Ret out, w') ∧
    heap w' !! out = Some result ∧
    index result = Z.of_nat <$> seq 25 23 ∧
    X (self w') = Some Xr ∧ heap w' !! Xr = Some Xdf ∧
    columns Xdf = ["LOCATION"; "HOUR_OF_DAY"; "RANDOM_NOISE"; "TEMP_FFT"].
Proof.
  destruct (predict_on_location (L:=stable) (N:=numpy) 0 1 cities 0 1 "Chicago"
              (fresh [chicago]) 0)
    as (df & rng' & ny & temp & Hgen & Hwhere & _ & _ & _ & Htemp & Hrun).
  - lia.
  - compute_done.
  - reflexivity.
  - vm_compute in Hgen. injection Hgen as <- <-.
    vm_compute in Hwhere. injection Hwhere as <-.
    vm_compute in Htemp. injection Htemp as <-.
    destruct Hrun as (spectrum & w' & Hfft & Hcols & _ & _ & Hpred); [reflexivity|].
    vm_compute in Hfft. injection Hfft as <-.
    cbn [xgb_fit xgb_predict stable library memo_fit memo_predict] in Hpred.
    destruct Hpred as (result & Hpred & Hout & Hidx).
    assert (Hw : w' = (predict (L:=stable) 0 (fresh [chicago])).2) by by rewrite Hpred.
    exists 5, w', result, 4. eexists.
    split; [exact Hpred|]. split; [exact Hout|]. split; [exact Hidx|].
    rewrite Hw. split; [reflexivity|]. split; [vm_compute; reflexivity|].
    exact Hcols.
Defined.

Lemma prepare_data_columns_run :
  ∃ out w' result,
    prepare_data (L:=stable) 0 (fresh [two_hours]) = (Ret out, w') ∧
    heap w' !! out = Some result ∧
    columns result = ["DATE"; "TEMP"; "LOCATION"; "HOUR_OF_DAY"; "TEMP_FFT"].
Proof.
  destruct (prepare_data_columns (L:=stable) (fresh [two_hours]) 0 two_hours
              (Float64Col [Finite 3; Finite 2]))
    as (out & w' & result & spectrum & Hrun & Hout & _ & Hcols & _).
  - reflexivity.
  - repeat constructor.
  - reflexivity.
  - reflexivity.
  - compute_done.
  - vm_compute. lia.
  - by exists out, w', result.
Defined.

Lemma predict_shapes_run :
  ∃ result Xr Xdf,
    heap (predict (L:=stable) 0 (fresh [two_hours])).2 !! 5 = Some result ∧
    X (self (predict (L:=stable) 0 (fresh [two_hours])).2) = Some Xr ∧
    heap (predict (L:=stable) 0 (fresh [two_hours])).2 !! Xr = Some Xdf ∧
    nrows result = 1 ∧ nrows Xdf = 1 ∧
    columns Xdf = ["LOCATION"; "HOUR_OF_DAY"; "TEMP_FFT"].
Proof.
  destruct (predict_shapes (L:=stable) (fresh [two_hours]) 0 two_hours 5
              (predict (L:=stable) 0 (fresh [two_hours])).2)
    as (result & Xr & Xdf & Hout & HX & HXdf & _ & Hn & _ & HnX & Hcols).
  - reflexivity.
  - reflexivity.
  - repeat constructor.
  - by exists result, Xr, Xdf.
Defined.

Lemma report_rows_run :
  ∃ out w' idx features scores,
    calculate_global_shap (predict (L:=stable) 0 (fresh [two_hours])).2 = (Ret out, w') ∧
    heap w' !! out = Some {| index := idx;
                             frame_data := [("FEATURE", ObjectCol features);
                                            ("GLOBAL_SHAP", Float64Col scores)] |} ∧
    length idx = 3 ∧
    ∀ k label, idx !! k = Some label →
      ∃ j name, label = Z.of_nat j ∧
                ["LOCATION"; "HOUR_OF_DAY"; "TEMP_FFT"] !! j = Some name ∧
                features !! k = Some (PyStr name).
Proof.
  destruct (report_rows (L:=stable) (predict (L:=stable) 0 (fresh [two_hours])).2
              [Finite 2] 4
              {| index := [1%Z];
                 frame_data := [("LOCATION", CategoryCol [PyStr "New York"]);
                                ("HOUR_OF_DAY", Int64Col [1%Z]);
                                ("TEMP_FFT", Float64Col [Finite 1])] |}
              [[Finite 0]; [Finite 1]; [Finite 1]])
    as (out & w' & idx & features & scores & Hrun & Hout & Hlen & _ & Hrows).
  - reflexivity.
  - reflexivity.
  - reflexivity.
  - reflexivity.
  - exists out, w', idx, features, scores. do 3 (split; [assumption|]).
    intros k label Hk. destruct (Hrows k label Hk) as (j & name & v & -> & Hj & _ & Hf & _).
    by exists j, name.
Defined.

Lemma failed_predict_trains_run :
  ∃ w' out w'',
    predict (L:=stable) 0 (fresh [no_location])
      = (Raise (KeyError "['LOCATION'] not in index"), w') ∧
    xgb_model (self w') = Some [Finite 2] ∧
    calculate_global_shap w' = (Ret out, w'').
Proof.
  destruct (failed_predict_trains (L:=stable) (fresh [no_location]) 0 no_location
              (Float64Col [Finite 3; Finite 2])
              [(Finite (3 + 2), Finite 0); (Finite (3 + - 2), Finite 0)]
              [Finite 2] [Finite 2])
    as (w' & Xr & Hrun & Hself & HX & _ & Hshap).
  - reflexivity.
  - repeat constructor.
  - reflexivity.
  - reflexivity.
  - compute_done.
  - reflexivity.
  - compute_done.
  - compute_done.
  - reflexivity.
  - reflexivity.
  - destruct (Hshap [[Finite 1]; [Finite 1]]) as (out & w'' & Hcalc & _); [reflexivity|].
    exists w', out, w''. split; [exact Hrun|]. split; [by rewrite Hself|exact Hcalc].
Defined.

Lemma predict_then_shap_run :
  ∃ w'' report,
    calculate_global_shap (predict (L:=stable) 0 (fresh [two_hours])).2 = (Ret 7, w'') ∧
    heap w'' !! 7 = Some report ∧
    heap w'' !! 5 = heap (predict (L:=stable) 0 (fresh [two_hours])).2 !! 5.
Proof.
  destruct (predict_then_shap (L:=stable) (fresh [two_hours]) 0 5
              (predict (L:=stable) 0 (fresh [two_hours])).2)
    as (m & Xr & Xdf & Hself & HX & Hcalc).
  - reflexivity.
  - vm_compute in Hself. injection Hself as <- <-.
    vm_compute in HX. injection HX as <-.
    cbn [shap_values stable library value_attributions] in Hcalc.
    destruct Hcalc as (w'' & Hcalc & Hreport & Hkeep & _).
    exists w''. eexists. split; [exact Hcalc|]. split; [exact Hreport|exact Hkeep].
Defined.

Lemma predict_complete_input_run :
  ∃ w' m,
    predict (L:=stable) 0 (fresh [two_hours]) = (Ret 5, w') ∧
    self w' = {| xgb_model := Some m; X := Some 4 |}.
Proof.
  destruct (predict_complete_input (L:=stable) (fresh [two_hours]) 0 two_hours
              (Float64Col [Finite 3; Finite 2]))
    as (spectrum & w' & Hfft & Hrun).
  - reflexivity.
  - repeat constructor.
  - reflexivity.
  - reflexivity.
  - compute_done.
  - compute_done.
  - compute_done.
  - vm_compute. lia.
  - cbn [xgb_fit xgb_predict stable library memo_fit memo_predict] in Hrun.
    destruct Hrun as (Hrun & Hself & _). by exists w', (to_numpy (col_lift (λ A, List.skipn 1)
                                                     (Float64Col [Finite 3; Finite 2]))).
Defined.

End MoreRuns.
